(** * JKUSA CMS backend: credential verification, token resolution and
      news slug allocation

    A shallow embedding of [app/auth/auth.py], of the admin resolvers that the
    router modules define locally, and of the slug allocation in
    [app/routers/admin_news.py], followed by the properties the design
    document states about them.

    Third-party packages (bcrypt, python-jose, SQLAlchemy) are not part of the
    repository.  Each gets a small reference model of its documented
    behaviour; the cryptographic primitives and the wire format stay
    parameters (operational type classes), and the few facts assumed about
    them appear as named hypotheses in the statements that need them. *)

From Stdlib Require Import ZArith NArith Lia Bool.
From Stdlib Require Import Strings.Byte DecimalString.
From stdpp Require Import base option list strings gmap pretty.

(** ** Python run-time notions *)

Module Py.

Definition bytes := list byte.

(** A [str] used as a password or stored hash: its code points.  CPython
    strings may hold lone surrogates, which have no UTF-8 encoding. *)
Definition unicode := list N.

Inductive value : Type :=
| Str (s : unicode)
| Bytes (b : bytes)
| NoneV
| Int (z : Z).

(** What [int(x)] makes of a float: its integral part, or nothing for an
    infinity and for a NaN. *)
Inductive integral : Type :=
| Whole (z : Z)
| Infinity
| NaN.

#[global] Instance integral_eq_dec : EqDecision integral.
Proof. solve_decision. Defined.

(** A value of a claims dict.  Other [str] values of the program are only
    compared, concatenated and logged, and are plain strings.  [JDatetime]
    is a [datetime] (microseconds since the epoch, naive UTC), which a
    dict holds before it is serialized.  A float is kept as its printed form
    and its integral part, an array and an object as their printed forms. *)
Inductive json : Type :=
| JNull
| JBool (b : bool)
| JStr (s : string)
| JInt (z : Z)
| JFloat (printed : string) (part : integral)
| JDatetime (t : Z)
| JArray (printed : string)
| JObject (printed : string).

#[global] Instance json_eq_dec : EqDecision json.
Proof. solve_decision. Defined.

(** [d.get(k)] *)
Definition py_get (d : gmap string json) (k : string) : json :=
  default JNull (d !! k).

(** [str(v)], as an f-string prints it *)
Definition json_str (v : json) : string :=
  match v with
  | JNull => "None"
  | JBool b => if b then "True" else "False"
  | JStr s => s
  | JInt z => pretty z
  | JDatetime t => pretty t
  | JFloat printed _ | JArray printed | JObject printed => printed
  end.

Inductive exn : Type :=
| UnicodeEncodeError
| UnicodeDecodeError
| AttributeError
| TypeError (msg : string)
| ValueError (msg : string)
| OverflowError (msg : string)
| JWSError (msg : string)
| JWKError (msg : string)
| JWTError (msg : string)
| JWTClaimsError (msg : string)
| ExpiredSignatureError (msg : string)
| HTTPException (status_code : Z) (detail : string)
                (headers : list (string * string)).

Definition exn_str (e : exn) : string :=
  match e with
  | UnicodeEncodeError => "'utf-8' codec can't encode character"
  | UnicodeDecodeError => "'utf-8' codec can't decode byte"
  | AttributeError => "object has no attribute 'decode'"
  | TypeError msg | ValueError msg | OverflowError msg
  | JWSError msg | JWKError msg | JWTError msg
  | JWTClaimsError msg | ExpiredSignatureError msg => msg
  | HTTPException _ detail _ => detail
  end.

Inductive result (A : Type) : Type :=
| Ok (a : A)
| Raise (e : exn).
Arguments Ok {A} a.
Arguments Raise {A} e.

Definition rbind {A B} (r : result A) (k : A → result B) : result B :=
  match r with
  | Ok a => k a
  | Raise e => Raise e
  end.

Definition of_option {A} (e : exn) (o : option A) : result A :=
  match o with
  | Some a => Ok a
  | None => Raise e
  end.

(** What a request leaves behind besides its result: log records and the
    queries it sent to the database. *)
Inductive level : Type := DEBUG | INFO | WARNING | ERROR.

Inductive event : Type :=
| Log (lvl : level) (msg : string)
| Query (table : string) (username : json).

(** Computations that log, query and may raise. *)
Definition io (A : Type) : Type := (list event * result A)%type.

Definition ret {A} (a : A) : io A := ([], Ok a).

Definition bind {A B} (m : io A) (k : A → io B) : io B :=
  match m with
  | (t, Ok a) => let '(t', r) := k a in (t ++ t', r)
  | (t, Raise e) => (t, Raise e)
  end.

Definition raise {A} (e : exn) : io A := ([], Raise e).

Definition log (lvl : level) (msg : string) : io unit := ([Log lvl msg], Ok tt).

Definition lift {A} (r : result A) : io A := ([], r).

(** [try: m except <handles>: handler]; an exception the clause does not
    name propagates. *)
Definition try_except {A} (m : io A) (handles : exn → bool)
    (handler : exn → io A) : io A :=
  match m with
  | (t, Raise e) =>
      if handles e then let '(t', r) := handler e in (t ++ t', r)
      else (t, Raise e)
  | done => done
  end.

(** The first component of a computation is its trace; this is the
    second. *)
Definition outcome {A} (m : io A) : result A := m.2.

(** [except JWTError] also catches its two subclasses. *)
Definition is_JWTError (e : exn) : bool :=
  match e with
  | JWTError _ | JWTClaimsError _ | ExpiredSignatureError _ => true
  | _ => false
  end.

(** [except Exception] names every exception modelled here. *)
Definition is_Exception (e : exn) : bool := true.

Definition is_HTTPException (e : exn) : bool :=
  match e with
  | HTTPException _ _ _ => true
  | _ => false
  end.

Module Notations.
Notation "'let*' x ':=' m 'in' k" := (bind m (λ x, k))
  (at level 10, x binder, m at level 100, k at level 200, only parsing).
Notation "'let?' x ':=' m 'in' k" := (rbind m (λ x, k))
  (at level 10, x binder, m at level 100, k at level 200, only parsing).
End Notations.

(** *** [str.encode('utf-8')] and [bytes.decode('utf-8')] *)

Definition octet (n : N) : byte := default x00 (Byte.of_N n).

Definition is_surrogate (c : N) : bool := (0xD800 <=? c)%N && (c <=? 0xDFFF)%N.

Definition utf8_encode_cp (c : N) : option bytes :=
  if (c <? 0x80)%N then Some [octet c]
  else if (c <? 0x800)%N then
    Some [octet (0xC0 + c / 64); octet (0x80 + c mod 64)]
  else if is_surrogate c then None
  else if (c <? 0x10000)%N then
    Some [octet (0xE0 + c / 4096); octet (0x80 + (c / 64) mod 64);
          octet (0x80 + c mod 64)]
  else if (c <? 0x110000)%N then
    Some [octet (0xF0 + c / 262144); octet (0x80 + (c / 4096) mod 64);
          octet (0x80 + (c / 64) mod 64); octet (0x80 + c mod 64)]
  else None.

Fixpoint utf8_encode (s : unicode) : option bytes :=
  match s with
  | [] => Some []
  | c :: s' =>
      match utf8_encode_cp c, utf8_encode s' with
      | Some bs, Some rest => Some (bs ++ rest)
      | _, _ => None
      end
  end.

(** [s.encode('utf-8')] *)
Definition encode (s : unicode) : result bytes :=
  of_option UnicodeEncodeError (utf8_encode s).

Definition continuation (x : byte) : option N :=
  let n := Byte.to_N x in
  if (0x80 <=? n)%N && (n <? 0xC0)%N then Some (n - 0x80)%N else None.

Definition cons_cp (c : N) (o : option unicode) : option unicode :=
  match o with Some s => Some (c :: s) | None => None end.

Fixpoint utf8_decode (bs : bytes) : option unicode :=
  match bs with
  | [] => Some []
  | b0 :: r0 =>
      let n0 := Byte.to_N b0 in
      if (n0 <? 0x80)%N then cons_cp n0 (utf8_decode r0)
      else if (n0 <? 0xC0)%N then None
      else if (n0 <? 0xE0)%N then
        match r0 with
        | b1 :: r1 =>
            match continuation b1 with
            | Some c1 =>
                let c := ((n0 - 0xC0) * 64 + c1)%N in
                if (c <? 0x80)%N then None else cons_cp c (utf8_decode r1)
            | None => None
            end
        | _ => None
        end
      else if (n0 <? 0xF0)%N then
        match r0 with
        | b1 :: b2 :: r2 =>
            match continuation b1, continuation b2 with
            | Some c1, Some c2 =>
                let c := ((n0 - 0xE0) * 4096 + c1 * 64 + c2)%N in
                if (c <? 0x800)%N || is_surrogate c then None
                else cons_cp c (utf8_decode r2)
            | _, _ => None
            end
        | _ => None
        end
      else if (n0 <? 0xF8)%N then
        match r0 with
        | b1 :: b2 :: b3 :: r3 =>
            match continuation b1, continuation b2, continuation b3 with
            | Some c1, Some c2, Some c3 =>
                let c := ((n0 - 0xF0) * 262144 + c1 * 4096 + c2 * 64 + c3)%N in
                if (c <? 0x10000)%N || (0x110000 <=? c)%N then None
                else cons_cp c (utf8_decode r3)
            | _, _, _ => None
            end
        | _ => None
        end
      else None
  end.

(** [b.decode('utf-8')] *)
Definition decode (b : bytes) : result unicode :=
  of_option UnicodeDecodeError (utf8_decode b).

(** Built-ins whose results are only hashed, compared or logged; they stay
    parameters. *)
Class Builtins : Type := {
  (** [b.decode('utf-8', 'ignore')] *)
  decode_ignore : bytes → unicode;
  (** [str(x)] for [x] that is not a [str] *)
  str_of : value → unicode;
  (** [int(s)]; [None] stands for [ValueError] *)
  int_of : string → option Z;
  (** [s.strip()] and [len(s)] *)
  strip : string → string;
  len : string → Z;
  (** [repr] of a dict and of a list of strings, as f-strings print them *)
  repr_dict : gmap string json → string;
  repr_list : list string → string
}.

Definition is_ascii (x : byte) : bool := (Byte.to_N x <? 0x80)%N.

(** [int(v)] for a value of a claims dict: a number gives its integral
    part, a string is parsed, and [None], an array, an object and a
    [datetime] are no arguments of [int]. *)
Definition py_int `{Builtins} (v : json) : result Z :=
  match v with
  | JInt z => Ok z
  | JBool b => Ok (if b then 1 else 0)%Z
  | JFloat _ (Whole z) => Ok z
  | JFloat _ Infinity =>
      Raise (OverflowError "cannot convert float infinity to integer")
  | JFloat _ NaN => Raise (ValueError "cannot convert float NaN to integer")
  | JStr s =>
      of_option (ValueError ("invalid literal for int() with base 10: '"
                               +:+ s +:+ "'")) (int_of s)
  | JNull | JDatetime _ | JArray _ | JObject _ =>
      Raise (TypeError "int() argument must be a string, a bytes-like object or a real number")
  end.

(** *** [datetime] and [timedelta]

    A [datetime] is counted in microseconds since the epoch; the type holds
    the years 1 to 9999, and a [timedelta] at most 999999999 days either
    way.  Arithmetic that leaves a range raises [OverflowError]. *)

Definition datetime_min : Z := (-62135596800000000)%Z.
Definition datetime_max : Z := 253402300799999999%Z.

(** [timedelta(minutes=m)] *)
Definition timedelta_minutes (m : Z) : result Z :=
  let microseconds := (m * 60000000)%Z in
  let days := (microseconds / 86400000000)%Z in
  if (days <? -999999999)%Z || (999999999 <? days)%Z then
    Raise (OverflowError "days must have magnitude <= 999999999")
  else Ok microseconds.

(** [t + delta] *)
Definition datetime_add (t delta : Z) : result Z :=
  let sum := (t + delta)%Z in
  if (sum <? datetime_min)%Z || (datetime_max <? sum)%Z then
    Raise (OverflowError "date value out of range")
  else Ok sum.

End Py.

#[global] Instance byte_eq_dec : EqDecision byte.
Proof.
  intros x y. destruct (Byte.eqb x y) eqn:E.
  - left. exact (byte_dec_bl x y E).
  - right. intros ->. rewrite (byte_dec_lb eq_refl) in E. discriminate E.
Defined.

(** ** Reference model of the [bcrypt] package

    A hash is the 60-byte string [$2<minor>$<cost>$<22 salt chars><31 digest
    chars>].  The key schedule and the entropy source are parameters; what
    the package fixes around them (formats, the 72-byte key limit, how
    [checkpw] compares) is modelled. *)

Module Bcrypt.
Import Py Py.Notations.

Class Primitive : Type := {
  (** the state of the operating system's entropy source *)
  entropy : Type;
  (** [os.urandom(16)], read as radix-64 digits, and the source afterwards *)
  urandom : entropy → list N * entropy;
  (** the key schedule: cost, salt and key to the digits of the digest *)
  eksblowfish : N → bytes → bytes → list N
}.

Definition alphabet : bytes :=
  String.list_byte_of_string
    "./ABCDEFGHIJKLMNOPQRSTUVWXYZabcdefghijklmnopqrstuvwxyz0123456789".

Definition radix64_char (n : N) : byte :=
  nth (N.to_nat (n mod 64)) alphabet x00.

(** Exactly [len] characters of the alphabet. *)
Definition radix64 (len : nat) (digits : list N) : bytes :=
  radix64_char <$> take len (digits ++ replicate len 0%N).

Definition is_radix64 (x : byte) : bool := bool_decide (x ∈ alphabet).

Definition digit (n : N) : byte := octet (48 + n).

Definition digit_val (x : byte) : option N :=
  let n := Byte.to_N x in
  if (48 <=? n)%N && (n <=? 57)%N then Some (n - 48)%N else None.

Definition minor_ok (m : byte) : bool :=
  bool_decide (m ∈ ["a"; "b"; "x"; "y"]%byte).

Record salt_fields : Type := {
  minor : byte;
  cost : N;
  salt22 : bytes
}.

Definition format_salt (f : salt_fields) : bytes :=
  ["$"; "2"; minor f; "$"; digit (cost f / 10); digit (cost f mod 10); "$"]%byte
    ++ salt22 f.

(** The leading 29 bytes of a salt or of a full hash.  The package reads
    sloppier input too (it then formats the result canonically, so that the
    comparison in [checkpw] fails where this parser refuses); on what
    [gensalt] and [hashpw] produce the two agree. *)
Definition parse_salt (s : bytes) : option salt_fields :=
  match s with
  | d0 :: two :: m :: d1 :: c1 :: c2 :: d2 :: rest =>
      if bool_decide (d0 = "$"%byte) && bool_decide (two = "2"%byte)
         && minor_ok m && bool_decide (d1 = "$"%byte)
         && bool_decide (d2 = "$"%byte) then
        match digit_val c1, digit_val c2 with
        | Some hi, Some lo =>
            let rounds := (10 * hi + lo)%N in
            if (4 <=? rounds)%N && (rounds <=? 31)%N
               && (22 <=? length rest)%nat
               && forallb is_radix64 (take 22 rest) then
              Some {| minor := m; cost := rounds; salt22 := take 22 rest |}
            else None
        | _, _ => None
        end
      else None
  | _ => None
  end.

(** The fields a salt or hash can carry. *)
Definition valid_fields (f : salt_fields) : Prop :=
  minor_ok (minor f) = true ∧ (4 ≤ cost f ≤ 31)%N
  ∧ length (salt22 f) = 22%nat ∧ forallb is_radix64 (salt22 f) = true.

Definition well_formed (h : bytes) : bool :=
  bool_decide (is_Some (parse_salt h)) && (length h =? 60)%nat
    && forallb is_radix64 (drop 29 h).

Section WithPrimitive.
Context `{Primitive}.

(** [bcrypt.gensalt(rounds)] *)
Definition gensalt (rounds : N) (g : entropy) : result bytes * entropy :=
  if (rounds <? 4)%N || (31 <? rounds)%N then
    (Raise (ValueError "Invalid rounds"), g)
  else
    let '(digits, g') := urandom g in
    (Ok (format_salt {| minor := "b"%byte; cost := rounds;
                        salt22 := radix64 22 digits |}), g').

(** [bcrypt.hashpw(password, salt)]; only the first 72 bytes of the
    password reach the key schedule. *)
Definition hashpw (password salt : bytes) : result bytes :=
  match parse_salt salt with
  | None => Raise (ValueError "Invalid salt")
  | Some f =>
      Ok (format_salt f
            ++ radix64 31 (eksblowfish (cost f) (salt22 f) (take 72 password)))
  end.

(** [bcrypt.checkpw(password, hashed_password)]: hash again under the
    salt read off the stored hash and compare the two strings. *)
Definition checkpw (password : bytes) (hashed_password : value) : result bool :=
  match hashed_password with
  | Bytes h =>
      let? again := hashpw password h in
      Ok (bool_decide (again = h))
  | _ => Raise (TypeError "argument 'hashed_password': bytes expected")
  end.
End WithPrimitive.

End Bcrypt.

(** ** Reference model of [jose.jwt] (python-jose)

    The model follows the package's code path by path: [decode] returns the
    claims, raises [JWTError] or one of its subclasses, or lets through what
    the package does not catch (the [JWKError] of a key that cannot be
    constructed, the [TypeError] of [int] on a claim).  A bearer string
    either is the compact serialization of a header, a payload and a
    signature, or it is not; the key classes and the signature primitive are
    parameters. *)

Module Jose.
Import Py Py.Notations.

Record jws : Type := {
  header_alg : option string;
  (** [None]: the payload segment is not a JSON object *)
  payload : option (gmap string json);
  signature : bytes
}.

Inductive token : Type :=
| Compact (j : jws)
| Garbage (text : string).

Class Backend : Type := {
  (** [jwk.construct(key, alg)] returns a key object for this key text *)
  constructs : string → string → bool;
  (** the text of the [JWKError] it raises otherwise; the key [None] is
      refused by every key class *)
  construct_error : string → option string → string;
  (** [key.sign(msg)]; [None] when it raises *)
  sign : string → string → option string * option (gmap string json) → option bytes;
  (** [key.verify(msg, sig)], an exception counting as [False] *)
  verify : string → string → option string * option (gmap string json) → bytes → bool;
  (** the characters of a compact serialization *)
  compact_text : jws → string
}.

Definition token_text `{Backend} (t : token) : string :=
  match t with
  | Compact j => compact_text j
  | Garbage text => text
  end.

Definition SUPPORTED : list string :=
  ["HS256"; "HS384"; "HS512"; "RS256"; "RS384"; "RS512";
   "ES256"; "ES384"; "ES512"].

(** [timegm(dt.utctimetuple())] *)
Definition timegm (t : Z) : Z := (t / 1000000)%Z.

(** [timedelta(minutes=m)] *)
Definition minutes (m : Z) : Z := (m * 60000000)%Z.

Definition intdate (k : string) (c : gmap string json) : gmap string json :=
  match c !! k with
  | Some (JDatetime t) => <[k := JInt (timegm t)]> c
  | _ => c
  end.

Definition is_datetime (v : json) : bool :=
  match v with JDatetime _ => true | _ => false end.

Definition serializable (c : gmap string json) : bool :=
  bool_decide (map_Forall (λ _ v, is_datetime v = false) c).

Section WithBackend.
Context `{Builtins} `{Backend}.

(** [jwk.construct(key, alg)]: the algorithm must have a key class, and
    the class must accept the key. *)
Definition construct (alg : string) (key : option string) : result string :=
  match key with
  | Some k =>
      if bool_decide (alg ∈ SUPPORTED) && constructs alg k then Ok k
      else Raise (JWKError (construct_error alg key))
  | None => Raise (JWKError (construct_error alg key))
  end.

(** [jwt.encode(claims, key, algorithm=algorithm)]; whatever goes wrong
    with the key while signing is raised as [JWSError]. *)
Definition encode (c : gmap string json) (key algorithm : option string)
    : result token :=
  let c := intdate "nbf" (intdate "iat" (intdate "exp" c)) in
  match algorithm with
  | None => Raise (JWSError "Algorithm None not supported.")
  | Some alg =>
      if bool_decide (alg ∈ SUPPORTED) then
        if serializable c then
          match construct alg key with
          | Raise e => Raise (JWSError (exn_str e))
          | Ok k =>
              match sign alg k (Some alg, Some c) with
              | Some s =>
                  Ok (Compact {| header_alg := Some alg; payload := Some c;
                                 signature := s |})
              | None => Raise (JWSError "Unable to sign with this key.")
              end
          end
        else Raise (TypeError "Object of type datetime is not JSON serializable")
      else Raise (JWSError ("Algorithm " +:+ alg +:+ " not supported."))
  end.

(** [int(claims[k])] under [except ValueError]: what [int] raises besides
    is not caught. *)
Definition numeric_date (what : string) (v : json) : result Z :=
  match py_int v with
  | Ok z => Ok z
  | Raise (ValueError _) =>
      Raise (JWTClaimsError (what +:+ " must be an integer."))
  | Raise e => Raise e
  end.

Definition validate_iat (c : gmap string json) : result unit :=
  match c !! "iat" with
  | None => Ok tt
  | Some v => let? _ := numeric_date "Issued At claim (iat)" v in Ok tt
  end.

Definition validate_nbf (c : gmap string json) (now : Z) : result unit :=
  match c !! "nbf" with
  | None => Ok tt
  | Some v =>
      let? nbf := numeric_date "Not Before claim (nbf)" v in
      if (timegm now <? nbf)%Z then
        Raise (JWTClaimsError "The token is not yet valid (nbf)")
      else Ok tt
  end.

Definition validate_exp (c : gmap string json) (now : Z) : result unit :=
  match c !! "exp" with
  | None => Ok tt
  | Some v =>
      let? exp := numeric_date "Expiration Time claim (exp)" v in
      if (exp <? timegm now)%Z then
        Raise (ExpiredSignatureError "Signature has expired.")
      else Ok tt
  end.

(** No audience and no access token are passed by this program, so a
    token that carries either claim is refused. *)
Definition validate_aud (c : gmap string json) : result unit :=
  match c !! "aud" with
  | None => Ok tt
  | Some _ => Raise (JWTClaimsError "Invalid audience")
  end.

Definition validate_str (k what : string) (c : gmap string json) : result unit :=
  match c !! k with
  | None | Some (JStr _) => Ok tt
  | Some _ => Raise (JWTClaimsError (what +:+ " must be a string."))
  end.

Definition validate_at_hash (c : gmap string json) : result unit :=
  match c !! "at_hash" with
  | None => Ok tt
  | Some _ =>
      Raise (JWTClaimsError
               "No access_token provided to compare against at_hash claim.")
  end.

Definition validate_claims (c : gmap string json) (now : Z) : result unit :=
  let? _ := validate_iat c in
  let? _ := validate_nbf c now in
  let? _ := validate_exp c now in
  let? _ := validate_aud c in
  let? _ := validate_str "sub" "Subject" c in
  let? _ := validate_str "jti" "JWT ID" c in
  validate_at_hash c.

(** [jwt.decode(token, key, algorithms=algorithms)] read at clock [now].
    The key is constructed outside the [try] around the verification, so
    its [JWKError] leaves [decode] as it is; it is no [JWTError]. *)
Definition decode (t : token) (key : option string)
    (algorithms : list (option string)) (now : Z) : result (gmap string json) :=
  match t with
  | Garbage _ => Raise (JWTError "Not enough segments")
  | Compact j =>
      match header_alg j with
      | None => Raise (JWTError "No algorithm was specified in the JWS header.")
      | Some alg =>
          if bool_decide (Some alg ∈ algorithms) then
            let? k := construct alg key in
            if verify alg k (header_alg j, payload j) (signature j) then
              match payload j with
              | None =>
                  Raise (JWTError "Invalid payload string: must be a json object")
              | Some c => let? _ := validate_claims c now in Ok c
              end
            else Raise (JWTError "Signature verification failed.")
          else Raise (JWTError "The specified alg value is not allowed")
      end
  end.
End WithBackend.

(** What the statements below assume of a signature scheme: a signature
    made with a key verifies under that key. *)
Definition sound `(Backend) : Prop :=
  ∀ alg k m s, sign alg k m = Some s → verify alg k m s = true.

End Jose.

(** ** The stored records

    The ORM classes ([app/models]) are not among the sources; the records
    follow the data model of the design document. *)

Module Models.

(** Modelled from the spec: the [AdminRole] class is missing.  A named role
    owning a set of permission strings. *)
Record AdminRole : Type := {
  role_pk : Z;
  role_name : string;
  role_permissions : list string
}.

(** Modelled from the spec: the [Admin] class is missing.  [admin_role] is
    the relationship [Admin.role]: filled by an eager join, [None] when the
    admin references no role. *)
Record Admin : Type := {
  admin_id : Z;
  admin_username : string;
  admin_email : string;
  admin_first_name : string;
  admin_last_name : string;
  admin_is_active : bool;
  admin_role_id : option Z;
  admin_role : option AdminRole
}.

(** Modelled from the spec: the [User] class is missing. *)
Record User : Type := {
  user_id : Z;
  user_username : string;
  user_email : string;
  user_first_name : option string;
  user_last_name : option string;
  user_phone_number : option string;
  user_is_active : bool
}.

(** Modelled from the spec: the [News] class is missing; of its columns the
    handlers below read and write these. *)
Record News : Type := {
  news_id : Z;
  news_title : string;
  news_slug : string;
  news_content : string;
  news_featured_image_url : option string;
  news_published_at : Z;
  news_publisher_id : Z
}.

(** The database as a request sees it: the rows of each table, in the
    order a query returns them. *)
Record Session : Type := {
  users : list User;
  admins : list Admin;
  news : list News
}.

#[global] Instance AdminRole_eq_dec : EqDecision AdminRole.
Proof. solve_decision. Defined.
#[global] Instance Admin_eq_dec : EqDecision Admin.
Proof. solve_decision. Defined.
#[global] Instance User_eq_dec : EqDecision User.
Proof. solve_decision. Defined.
#[global] Instance News_eq_dec : EqDecision News.
Proof. solve_decision. Defined.

End Models.

(** ** [app/auth/auth.py] *)

Module Auth.
Import Py Py.Notations Models.

(** *** Configuration, read from the environment when the module loads *)

Record Settings : Type := {
  SECRET_KEY : option string;
  ALGORITHM : option string;
  ACCESS_TOKEN_EXPIRE_MINUTES : Z
}.

(** The module-level assignments; [os.getenv] of an unset variable is
    [None], and only [int] can raise. *)
Definition load `{Builtins} (environ : gmap string string) : result Settings :=
  let SECRET_KEY := environ !! "JWT_SECRET_KEY" in
  let ALGORITHM := environ !! "ALGORITHM" in
  let? ACCESS_TOKEN_EXPIRE_MINUTES :=
    of_option (ValueError "invalid literal for int() with base 10")
      (int_of (default "60" (environ !! "ACCESS_TOKEN_EXPIRE_MINUTES"))) in
  Ok {| SECRET_KEY := SECRET_KEY; ALGORITHM := ALGORITHM;
        ACCESS_TOKEN_EXPIRE_MINUTES := ACCESS_TOKEN_EXPIRE_MINUTES |}.

(** *** Password utilities *)

Section Passwords.
Context `{Builtins} `{Bcrypt.Primitive}.

Definition verify_password (plain_password hashed_password : value) : io bool :=
  try_except
    (let* plain_password :=
       lift (match plain_password with
             | Str s => Ok s
             | Bytes b => Ok (decode_ignore b)
             | NoneV | Int _ => Raise AttributeError
             end) in
     let* hashed_password :=
       lift (match hashed_password with
             | Str s => let? b := encode s in Ok (Bytes b)
             | other => Ok other
             end) in
     let* password_bytes := lift (encode plain_password) in
     let password_bytes :=
       if (72 <? length password_bytes)%nat then take 72 password_bytes
       else password_bytes in
     lift (Bcrypt.checkpw password_bytes hashed_password))
    is_Exception
    (λ e,
       let* _ := log ERROR ("Password verification error: " +:+ exn_str e) in
       ret false).

Definition get_password_hash (password : value) (g : Bcrypt.entropy)
    : io unicode * Bcrypt.entropy :=
  let password :=
    match password with
    | Str s => s
    | other => str_of other
    end in
  let '(body, g') :=
    match encode password with
    | Raise e => (Raise e, g)
    | Ok password_bytes =>
        let password_bytes :=
          if (72 <? length password_bytes)%nat then take 72 password_bytes
          else password_bytes in
        let '(salt, g') := Bcrypt.gensalt 12 g in
        (let? salt := salt in
         let? hashed := Bcrypt.hashpw password_bytes salt in
         decode hashed, g')
    end in
  (try_except (lift body) is_Exception
     (λ e,
        let* _ := log ERROR ("Error hashing password: " +:+ exn_str e) in
        raise e),
   g').
End Passwords.

(** *** Token creation *)

Section Tokens.
Context `{Builtins} `{Jose.Backend}.
Variable cfg : Settings.

(** [utcnow] is what [datetime.utcnow()] returns during the call; the sum
    raises [OverflowError] when the time to live is no [timedelta] or the
    expiration no [datetime]. *)
Definition create_access_token (data : gmap string json) (utcnow : Z)
    : result Jose.token :=
  let to_encode := data in
  let? delta := timedelta_minutes (ACCESS_TOKEN_EXPIRE_MINUTES cfg) in
  let? expire := datetime_add utcnow delta in
  let to_encode := <["exp" := JDatetime expire]> to_encode in
  Jose.encode to_encode (SECRET_KEY cfg) (ALGORITHM cfg).

(** *** Database helpers *)

Definition get_user (db : Session) (username : json) : io (option User) :=
  ([Query "users" username],
   Ok (find (λ u, bool_decide (JStr (user_username u) = username)) (users db))).

(** The admin with its role relationship loaded. *)
Definition get_admin (db : Session) (username : json) : io (option Admin) :=
  ([Query "admins" username],
   Ok (find (λ a, bool_decide (JStr (admin_username a) = username)) (admins db))).

(** *** Validation of the bearer token *)

(** The Pydantic view of a user that [get_current_user] returns. *)
Record UserSchema : Type := {
  id : Z;
  username : string;
  email : string;
  first_name : option string;
  last_name : option string;
  phone_number : option string;
  is_active : bool
}.

Definition get_current_user (token : Jose.token) (db : Session) (now : Z)
    : io UserSchema :=
  let credentials_exception :=
    HTTPException 401 "Could not validate user credentials"
      [("WWW-Authenticate", "Bearer")] in
  let* username :=
    try_except
      (let* payload :=
         lift (Jose.decode token (SECRET_KEY cfg) [ALGORITHM cfg] now) in
       let username := py_get payload "sub" in
       let user_type := py_get payload "type" in
       if bool_decide (username = JNull) || bool_decide (user_type ≠ JStr "user")
       then raise credentials_exception
       else ret username)
      is_JWTError
      (λ _, raise credentials_exception) in
  let* user := get_user db username in
  match user with
  | None => raise credentials_exception
  | Some user =>
      ret {| id := user_id user;
             username := user_username user;
             email := user_email user;
             first_name := user_first_name user;
             last_name := user_last_name user;
             phone_number := user_phone_number user;
             is_active := user_is_active user |}
  end.

Definition get_current_admin (token : Jose.token) (db : Session) (now : Z)
    : io Admin :=
  let credentials_exception :=
    HTTPException 401 "Could not validate admin credentials"
      [("WWW-Authenticate", "Bearer")] in
  let* username :=
    try_except
      (let* payload :=
         lift (Jose.decode token (SECRET_KEY cfg) [ALGORITHM cfg] now) in
       let username := py_get payload "sub" in
       let user_type := py_get payload "type" in
       if bool_decide (username = JNull) || bool_decide (user_type ≠ JStr "admin")
       then raise credentials_exception
       else ret username)
      is_JWTError
      (λ e,
         let* _ := log ERROR ("JWT decode error: " +:+ exn_str e) in
         raise credentials_exception) in
  let* admin :=
    ([Query "admins" username],
     Ok (find (λ a, bool_decide (JStr (admin_username a) = username))
           (admins db))) in
  match admin with
  | None =>
      let* _ := log WARNING ("Admin not found for username: "
                               +:+ json_str username) in
      raise credentials_exception
  | Some admin =>
      if negb (admin_is_active admin) then
        raise (HTTPException 403 "Admin account is inactive" [])
      else
        let* _ :=
          match admin_role admin with
          | Some role =>
              log DEBUG ("Admin " +:+ admin_username admin
                           +:+ " loaded with role: " +:+ role_name role
                           +:+ ", permissions: "
                           +:+ repr_list (role_permissions role))
          | None =>
              log WARNING ("Admin " +:+ admin_username admin
                             +:+ " has no role assigned (role_id: "
                             +:+ from_option pretty "None" (admin_role_id admin)
                             +:+ ")")
          end in
        ret admin
  end.
End Tokens.

End Auth.


(** ** The admin resolver of the router modules

    [admin_gallery.py], [admin_leadership.py], [admin_news.py] and
    [admin_subscriber.py] each read the two JWT settings for themselves and
    each define [get_current_admin] with the text embedded here; every
    endpoint of the four files that asks for an admin depends on its module's
    own copy, none on the resolver of [app/auth/auth.py]. *)

Module RouterSettings.
Record t : Type := {
  SECRET_KEY : option string;
  ALGORITHM : option string
}.

(** [os.getenv] twice; neither can raise. *)
Definition load (environ : gmap string string) : t :=
  {| SECRET_KEY := environ !! "JWT_SECRET_KEY";
     ALGORITHM := environ !! "ALGORITHM" |}.
End RouterSettings.

Module AdminResolver.
Import Py Py.Notations Models.

Section Resolver.
Context `{Builtins} `{Jose.Backend}.
Variable cfg : RouterSettings.t.

Definition get_current_admin (token : Jose.token) (db : Session) (now : Z)
    : io Admin :=
  let* _ := log DEBUG ("Validating token: "
                         +:+ String.substring 0 10 (Jose.token_text token)
                         +:+ "...") in
  let credentials_exception :=
    HTTPException 401 "Could not validate admin credentials"
      [("WWW-Authenticate", "Bearer")] in
  try_except
    (let* payload :=
       lift (Jose.decode token (RouterSettings.SECRET_KEY cfg)
               [RouterSettings.ALGORITHM cfg] now) in
     let* _ := log DEBUG ("Token payload: " +:+ repr_dict payload) in
     let username := py_get payload "sub" in
     let user_type := py_get payload "type" in
     if bool_decide (username = JNull) || bool_decide (user_type ≠ JStr "admin")
     then
       let* _ := log WARNING ("Invalid token: sub=" +:+ json_str username
                                +:+ ", type=" +:+ json_str user_type) in
       raise credentials_exception
     else
       let* admin :=
         ([Query "admins" username],
          Ok (find (λ a, bool_decide (JStr (admin_username a) = username))
                (admins db))) in
       match admin with
       | None =>
           let* _ := log WARNING ("Admin not found: " +:+ json_str username) in
           raise credentials_exception
       | Some admin =>
           let* _ := log DEBUG ("Authenticated admin: "
                                  +:+ admin_username admin) in
           ret admin
       end)
    is_JWTError
    (λ e,
       let* _ := log ERROR ("JWT decode error: " +:+ exn_str e) in
       raise credentials_exception).
End Resolver.
End AdminResolver.

Module AdminGallery.
Include AdminResolver.
End AdminGallery.

Module AdminLeadership.
Include AdminResolver.
End AdminLeadership.

Module AdminSubscriber.
Include AdminResolver.
End AdminSubscriber.

(** ** Case conversion of strings *)

Module Text.

(** [s.lower()] and [s.upper()] *)
Class Case : Type := {
  lower : string → string;
  upper : string → string
}.

(** The truth value of an [Optional[str]]: [None] and the empty string are
    false. *)
Definition truthy (o : option string) : bool :=
  match o with
  | Some s => bool_decide (s ≠ "")
  | None => false
  end.

End Text.

(** ** The object store

    [app/services/s3_service.py] is not among the sources.  Of
    [s3_service.delete_image] the endpoints use one thing: whether the call
    returns or raises. *)

Module S3Service.
Import Py.

Class Store : Type := {
  delete_image : string → result unit
}.

End S3Service.

(** ** [app/routers/admin_news.py] *)

Module AdminNews.
Include AdminResolver.
Import Py Py.Notations Models.

(** [NewsModel.generate_slug], a static method of the missing [News]
    class, is a parameter. *)
Class NewsModel : Type := {
  generate_slug : string → string
}.

(** The truth value of an [Optional[int]]. *)
Definition truthy (news_id : option Z) : bool :=
  match news_id with
  | Some n => bool_decide (n ≠ 0%Z)
  | None => false
  end.

(** [query.first()] for the query the loop builds around [slug]. *)
Definition first_with_slug (db : Session) (slug : string) (news_id : option Z)
    : option News :=
  let query := filter (λ r, news_slug r = slug) (news db) in
  let query :=
    if truthy news_id
    then filter (λ r, Some (Models.news_id r) ≠ news_id) query
    else query in
  head query.

(** The body of [while True]; [None] when [fuel] iterations did not reach
    the [return]. *)
Fixpoint unique_slug_loop (fuel : nat) (db : Session) (news_id : option Z)
    (base_slug slug : string) (counter : Z) : option string :=
  match fuel with
  | O => None
  | S fuel =>
      match first_with_slug db slug news_id with
      | None => Some slug
      | Some _ =>
          let slug := base_slug +:+ "-" +:+ pretty counter in
          let counter := (counter + 1)%Z in
          unique_slug_loop fuel db news_id base_slug slug counter
      end
  end.

Definition generate_unique_slug `{NewsModel} (fuel : nat) (db : Session)
    (title : string) (news_id : option Z) : option string :=
  let base_slug := generate_slug title in
  let slug := base_slug in
  let counter := 1%Z in
  unique_slug_loop fuel db news_id base_slug slug counter.

(** What became of the uploaded file of a request: none sent, refused by a
    check, lost by the object store, or stored under a URL. *)
Inductive upload : Type :=
| NoFile
| NotAnImage
| TooLarge
| UploadFailed
| Stored (url : string).

(** The checks on a file that was sent. *)
Definition check_image (featured_image : upload) : result unit :=
  match featured_image with
  | NotAnImage => Raise (HTTPException 400 "File must be an image" [])
  | TooLarge => Raise (HTTPException 400 "Image must be less than 5MB" [])
  | _ => Ok ()
  end.

(** [s3_service.upload_image] and the test of its result: a URL that is
    empty counts as none. *)
Definition upload_image (featured_image : upload) : result string :=
  match featured_image with
  | Stored url =>
      if bool_decide (url = "") then
        Raise (HTTPException 500 "Failed to upload image" [])
      else Ok url
  | _ => Raise (HTTPException 500 "Failed to upload image" [])
  end.

(** "Validate and upload featured image" of [create_news] *)
Definition store_image (featured_image : upload) : result (option string) :=
  match featured_image with
  | NoFile => Ok None
  | sent =>
      let? _ := check_image sent in
      let? featured_image_url := upload_image sent in
      Ok (Some featured_image_url)
  end.

(** [dt.replace(second=0, microsecond=0)] *)
Definition to_minute (t : Z) : Z := (t / 60000000 * 60000000)%Z.

Section Handlers.
Context `{Builtins} `{NewsModel} `{S3Service.Store}.

(** [create_news], for what it does to the News table.  [published_at]
    is the parsed form field ([None]: not ISO 8601), [fresh_id] the key
    the database assigns on commit; a key already taken is the
    [IntegrityError] branch.  Outer [None]: the slug loop ran out of
    fuel. *)
Definition create_news (fuel : nat) (title content : string)
    (published_at : option Z) (featured_image : upload) (fresh_id : Z)
    (db : Session) (current_user : Admin) : option (result News * Session) :=
  match published_at with
  | None =>
      Some (Raise (HTTPException 400
                     "Invalid published_at format. Use ISO 8601" []), db)
  | Some parsed_published_at =>
      let parsed_published_at := to_minute parsed_published_at in
      match generate_unique_slug fuel db title None with
      | None => None
      | Some slug =>
          match store_image featured_image with
          | Raise e => Some (Raise e, db)
          | Ok featured_image_url =>
              let db_news :=
                {| news_id := fresh_id;
                   news_title := strip title;
                   news_slug := slug;
                   news_content := strip content;
                   news_featured_image_url := featured_image_url;
                   news_published_at := parsed_published_at;
                   news_publisher_id := admin_id current_user |} in
              if bool_decide (fresh_id ∈ Models.news_id <$> news db) then
                Some (Raise (HTTPException 400 "Database error" []), db)
              else
                Some (Ok db_news,
                      {| users := users db; admins := admins db;
                         news := news db ++ [db_news] |})
          end
      end
  end.

(** The row with key [news_id] replaced. *)
Definition commit_row (db : Session) (news_id : Z) (row : News) : Session :=
  {| users := users db; admins := admins db;
     news := (λ r, if bool_decide (Models.news_id r = news_id) then row else r)
               <$> news db |}.

(** Attribute assignments on the fetched row. *)
Definition set_title_slug (r : News) (title slug : string) : News :=
  {| news_id := Models.news_id r; news_title := title; news_slug := slug;
     news_content := news_content r;
     news_featured_image_url := news_featured_image_url r;
     news_published_at := news_published_at r;
     news_publisher_id := news_publisher_id r |}.

Definition set_content (r : News) (content : string) : News :=
  {| news_id := Models.news_id r; news_title := news_title r;
     news_slug := news_slug r; news_content := content;
     news_featured_image_url := news_featured_image_url r;
     news_published_at := news_published_at r;
     news_publisher_id := news_publisher_id r |}.

Definition set_published_at (r : News) (published_at : Z) : News :=
  {| news_id := Models.news_id r; news_title := news_title r;
     news_slug := news_slug r; news_content := news_content r;
     news_featured_image_url := news_featured_image_url r;
     news_published_at := published_at;
     news_publisher_id := news_publisher_id r |}.

Definition set_featured_image_url (r : News) (url : option string) : News :=
  {| news_id := Models.news_id r; news_title := news_title r;
     news_slug := news_slug r; news_content := news_content r;
     news_featured_image_url := url;
     news_published_at := news_published_at r;
     news_publisher_id := news_publisher_id r |}.

(** The four blocks of [update_news], in order.  Each takes the row as it
    stands and the [updated] flag and hands both on.

    "Check and update title (and regenerate slug if title changes)";
    outer [None]: the slug loop ran out of fuel. *)
Definition update_title (fuel : nat) (db : Session) (news_id : Z)
    (title : option string) (db_news : News) (updated : bool)
    : option (result (News * bool)) :=
  match title with
  | None => Some (Ok (db_news, updated))
  | Some title =>
      let title_trimmed := strip title in
      if bool_decide (title_trimmed ≠ news_title db_news) then
        if (len title_trimmed <? 10)%Z || (255 <? len title_trimmed)%Z then
          Some (Raise (HTTPException 400 "Title must be 10-255 characters" []))
        else
          match generate_unique_slug fuel db title_trimmed (Some news_id) with
          | None => None
          | Some new_slug =>
              Some (Ok (set_title_slug db_news title_trimmed new_slug, true))
          end
      else Some (Ok (db_news, updated))
  end.

(** "Check and update content" *)
Definition update_content (content : option string) (db_news : News)
    (updated : bool) : result (News * bool) :=
  match content with
  | None => Ok (db_news, updated)
  | Some content =>
      let content_trimmed := strip content in
      if bool_decide (content_trimmed ≠ news_content db_news) then
        if (len content_trimmed <? 50)%Z then
          Raise (HTTPException 400 "Content must be at least 50 characters" [])
        else Ok (set_content db_news content_trimmed, true)
      else Ok (db_news, updated)
  end.

(** "Check and update published_at", compared to the minute *)
Definition update_published_at (published_at : option (option Z))
    (db_news : News) (updated : bool) : result (News * bool) :=
  match published_at with
  | None => Ok (db_news, updated)
  | Some None =>
      Raise (HTTPException 400 "Invalid published_at format. Use ISO 8601" [])
  | Some (Some parsed_date) =>
      let parsed_date := to_minute parsed_date in
      let existing_date := to_minute (news_published_at db_news) in
      if bool_decide (parsed_date ≠ existing_date) then
        Ok (set_published_at db_news parsed_date, true)
      else Ok (db_news, updated)
  end.

(** "Handle image update or removal": the old image is deleted from the
    object store before the new one is stored, and before the column is
    cleared. *)
Definition update_image (featured_image : upload) (remove_image : string)
    (db_news : News) (updated : bool) : result (News * bool) :=
  match featured_image with
  | NoFile =>
      if bool_decide (remove_image = "true")
         && Text.truthy (news_featured_image_url db_news)
      then
        let? _ := S3Service.delete_image
                    (default "" (news_featured_image_url db_news)) in
        Ok (set_featured_image_url db_news None, true)
      else Ok (db_news, updated)
  | sent =>
      let? _ := check_image sent in
      let? _ :=
        if Text.truthy (news_featured_image_url db_news)
        then S3Service.delete_image
               (default "" (news_featured_image_url db_news))
        else Ok () in
      let? new_image_url := upload_image sent in
      Ok (set_featured_image_url db_news (Some new_image_url), true)
  end.

(** [update_news], for what it does to the News table.  A form field that
    was not sent is [None]; [published_at] is [Some None] when it does
    not parse.  An exception leaves the table as it was; so does a
    request that changes nothing. *)
Definition update_news (fuel : nat) (news_id : Z) (title content : option string)
    (published_at : option (option Z)) (featured_image : upload)
    (remove_image : string) (db : Session) (current_user : Admin)
    : option (result News * Session) :=
  match find (λ r, bool_decide (Models.news_id r = news_id)) (news db) with
  | None => Some (Raise (HTTPException 404 "News not found" []), db)
  | Some db_news =>
      let updated := false in
      match update_title fuel db news_id title db_news updated with
      | None => None
      | Some (Raise e) => Some (Raise e, db)
      | Some (Ok (db_news, updated)) =>
          match
            (let? '(db_news, updated) := update_content content db_news updated in
             let? '(db_news, updated) :=
               update_published_at published_at db_news updated in
             update_image featured_image remove_image db_news updated)
          with
          | Raise e => Some (Raise e, db)
          | Ok (db_news, updated) =>
              if updated then Some (Ok db_news, commit_row db news_id db_news)
              else Some (Ok db_news, db)
          end
      end
  end.
End Handlers.

End AdminNews.

(** ** The vocabulary of the slug property *)

Module NewsSpec.
Import Models.

(** The candidates in the order the loop tries them: the base slug, then
    the base slug suffixed with [-1], [-2], ... *)
Definition candidate (base_slug : string) (k : Z) : string :=
  if bool_decide (k = 0%Z) then base_slug
  else base_slug +:+ "-" +:+ pretty k.

(** A row other than the one with key [news_id] has the slug. *)
Definition taken (db : Session) (news_id : option Z) (slug : string) : Prop :=
  ∃ r, r ∈ news db ∧ news_slug r = slug ∧ Some (Models.news_id r) ≠ news_id.

(** The rows a query of the loop hits: those with the slug and, when
    [news_id] is truthy, another key. *)
Definition hits (news_id : option Z) (slug : string) (r : News) : Prop :=
  news_slug r = slug
  ∧ (AdminNews.truthy news_id = true → Some (Models.news_id r) ≠ news_id).

Definition unique_slugs (db : Session) : Prop :=
  NoDup (news_slug <$> news db).

Definition unique_ids (db : Session) : Prop :=
  NoDup (Models.news_id <$> news db).
End NewsSpec.

(** ** [app/main.py]: what importing the application runs

    The import of the router packages executes the module-level assignments
    of [app/auth/auth.py] and of each router file; then the application
    object is created.  Nothing else looks at the JWT settings. *)

Module Main.
Import Py Py.Notations.


End Main.

(** ** Instances to run the model on

    Small stand-ins for the parameters, used to evaluate the definitions on
    concrete inputs. *)

Module Reference.
Import Py Models.

Definition text (s : string) : unicode :=
  Byte.to_N <$> String.list_byte_of_string s.

#[export] Instance builtins : Builtins :=
  {| decode_ignore b := Byte.to_N <$> List.filter is_ascii b;
     str_of v := text "None";
     int_of s := Z.of_int <$> NilZero.int_of_string s;
     strip s := s;
     len s := Z.of_nat (String.length s);
     repr_dict d := "{...}";
     repr_list l := "[" +:+ String.concat ", " l +:+ "]" |}.

(** The entropy source counts its draws; the digest lists salt and key. *)
#[export] Instance primitive : Bcrypt.Primitive :=
  {| Bcrypt.entropy := N;
     Bcrypt.urandom g := ([g; g / 64; g / 4096]%N, N.succ g);
     Bcrypt.eksblowfish c s k := Byte.to_N <$> (k ++ s) |}.

Definition boot : @Bcrypt.entropy primitive := 0%N.

(** A signature names the algorithm, the key and the subject it covers. *)
Definition tag (alg k : string) (m : option string * option (gmap string json))
    : bytes :=
  String.list_byte_of_string
    (alg +:+ ":" +:+ k +:+ ":"
       +:+ from_option (λ c, json_str (py_get c "sub")) "" m.2).

#[export] Instance backend : Jose.Backend :=
  {| Jose.constructs alg k := true;
     Jose.construct_error alg k := "Expecting a string- or bytes-formatted key.";
     Jose.sign alg k m := Some (tag alg k m);
     Jose.verify alg k m s := bool_decide (tag alg k m = s);
     Jose.compact_text j := "eyJhbGciOiJIUzI1NiJ9.e30.c2ln" |}.

#[export] Instance news_model : AdminNews.NewsModel :=
  {| AdminNews.generate_slug title := title |}.

(** An object store whose deletions succeed, and one that is down. *)
#[export] Instance store_up : S3Service.Store :=
  {| S3Service.delete_image url := Ok () |}.

Definition store_down : S3Service.Store :=
  {| S3Service.delete_image url := Raise (ValueError "connection refused") |}.

Definition settings : Auth.Settings :=
  {| Auth.SECRET_KEY := Some "s3cret";
     Auth.ALGORITHM := Some "HS256";
     Auth.ACCESS_TOKEN_EXPIRE_MINUTES := 60 |}.

Definition router_settings : RouterSettings.t :=
  {| RouterSettings.SECRET_KEY := Some "s3cret";
     RouterSettings.ALGORITHM := Some "HS256" |}.

Definition editor : AdminRole :=
  {| role_pk := 1; role_name := "editor"; role_permissions := ["news:write"] |}.

Definition alice : Admin :=
  {| admin_id := 1; admin_username := "alice"; admin_email := "alice@jkusa.org";
     admin_first_name := "Alice"; admin_last_name := "A";
     admin_is_active := true; admin_role_id := Some 1%Z;
     admin_role := Some editor |}.

Definition bob : Admin :=
  {| admin_id := 2; admin_username := "bob"; admin_email := "bob@jkusa.org";
     admin_first_name := "Bob"; admin_last_name := "B";
     admin_is_active := false; admin_role_id := Some 1%Z;
     admin_role := Some editor |}.

Definition carol : Admin :=
  {| admin_id := 3; admin_username := "carol"; admin_email := "carol@jkusa.org";
     admin_first_name := "Carol"; admin_last_name := "C";
     admin_is_active := true; admin_role_id := None; admin_role := None |}.

(** A user whose name collides with an admin's. *)
Definition alice_user : User :=
  {| user_id := 7; user_username := "alice"; user_email := "a@b.com";
     user_first_name := None; user_last_name := None;
     user_phone_number := None; user_is_active := true |}.

Definition article (id : Z) (slug : string) : News :=
  {| news_id := id; news_title := slug; news_slug := slug;
     news_content := ""; news_featured_image_url := None;
     news_published_at := 0; news_publisher_id := 1 |}.

Definition db : Session :=
  {| users := [alice_user];
     admins := [alice; bob; carol];
     news := [article 1 "welcome"; article 2 "welcome-1"] |}.

(** One ASCII letter and thirty euro signs: 91 bytes, and byte 72 falls
    inside a character. *)
Definition long_password : unicode := 97%N :: replicate 30 0x20AC%N.

Definition seventy_three : unicode := replicate 73 97%N.
Definition seventy_two : unicode := replicate 72 97%N.


(** The claims of a token issued at clock 0 with the settings above. *)
Definition claims_of (sub type : string) : gmap string json :=
  <["exp" := JInt 3600]> {[ "sub" := JStr sub; "type" := JStr type ]}.

(** The token [create_access_token] issues for a subject at clock 0. *)
Definition token_for (sub type : string) : Jose.token :=
  match Auth.create_access_token settings
          {[ "sub" := JStr sub; "type" := JStr type ]} 0 with
  | Ok t => t
  | Raise _ => Jose.Garbage ""
  end.
End Reference.

(** * The rest of the cited files *)

(** ** [app/auth/auth.py]: lookups by identifier *)

Module AuthLookup.
Import Py Models.

(** The user whose username or whose email is the identifier. *)
Definition get_user_by_identifier (db : Session) (identifier : string)
    : io (option User) :=
  ([Query "users" (JStr identifier)],
   Ok (find (λ u, bool_decide (user_username u = identifier)
                  || bool_decide (user_email u = identifier)) (users db))).

(** The admin, role loaded, whose username or whose email is the
    identifier. *)
Definition get_admin_by_identifier (db : Session) (identifier : string)
    : io (option Admin) :=
  ([Query "admins" (JStr identifier)],
   Ok (find (λ a, bool_decide (admin_username a = identifier)
                  || bool_decide (admin_email a = identifier)) (admins db))).

End AuthLookup.

(** ** [app/main.py]: the exception handlers, the health check *)

Module MainHandlers.
Import Py Py.Notations.

(** Of a request the handlers read one header; [origin] is
    [request.headers.get("Origin")]. *)
Record Request : Type := {
  origin : option string
}.

Record JSONResponse : Type := {
  status_code : Z;
  content_detail : string;
  headers : list (string * string)
}.

(** The handler registered for [HTTPException], applied to the fields of
    the exception. *)
Definition http_exception_handler (request : Request) (exc_status_code : Z)
    (exc_detail : string) (exc_headers : list (string * string)) : JSONResponse :=
  {| status_code := exc_status_code;
     content_detail := exc_detail;
     headers :=
       [("Access-Control-Allow-Origin", default "*" (origin request));
        ("Access-Control-Allow-Credentials", "true");
        ("Access-Control-Allow-Methods", "GET, POST, PUT, DELETE, OPTIONS");
        ("Access-Control-Allow-Headers", "*")] |}.

(** What reaches the handlers: an exception of the other modules, or the
    [NameError] of a name that nothing binds. *)
Inductive raised : Type :=
| Known (e : exn)
| NameError (name : string).

Definition raised_str (exc : raised) : string :=
  match exc with
  | Known e => exn_str e
  | NameError name => "name '" +:+ name +:+ "' is not defined"
  end.

(** The handler registered for [Exception]. *)
Definition general_exception_handler (request : Request) (exc : raised)
    : io JSONResponse :=
  let* _ := log ERROR ("Unhandled error: " +:+ raised_str exc) in
  ret {| status_code := 500;
         content_detail := "Internal Server Error";
         headers :=
           [("Access-Control-Allow-Origin", default "*" (origin request));
            ("Access-Control-Allow-Credentials", "true");
            ("Access-Control-Allow-Methods", "GET, POST, PUT, DELETE, OPTIONS");
            ("Access-Control-Allow-Headers", "*")] |}.

(** The framework hands an exception to the handler registered for its
    most specific class. *)
Definition handle (request : Request) (exc : raised) : io JSONResponse :=
  match exc with
  | Known (HTTPException status_code detail exc_headers) =>
      ret (http_exception_handler request status_code detail exc_headers)
  | other => general_exception_handler request other
  end.

(** The names the module binds at top level, in the order of the file: its
    imports, then its assignments and definitions. *)
Definition module_globals : list string :=
  ["FastAPI"; "HTTPException"; "Request"; "JSONResponse"; "CORSMiddleware";
   "engine"; "Base"; "Admin"; "AdminRole"; "Activity"; "Leadership";
   "CampusType"; "LeadershipCategory"; "Gallery"; "GalleryCategory"; "Event";
   "Resource"; "Club"; "student"; "LostID"; "IDType"; "IDStatus"; "Station";
   "Subscriber"; "Form"; "FormField"; "FormCondition"; "FormSubmission";
   "user_auth"; "admin_auth"; "admin_roles"; "admin_announcement";
   "admin_leadership"; "admin_event"; "admin_news"; "admin_gallery";
   "admin_resource"; "admin_activity"; "admin_club"; "students_sso";
   "ai_assistant"; "lost_id"; "admin_subscriber"; "admin_students";
   "admin_registrations"; "student_registrations";
   "public_announcement_router"; "public_news_router"; "public_event_router";
   "public_leadership_router"; "public_gallery_router";
   "public_resource_router"; "public_activity_router"; "public_club_router";
   "public_subscriber_router"; "logging"; "logger"; "app"; "origins";
   "http_exception_handler"; "general_exception_handler"; "read_root";
   "health_check"].

(** Evaluation of a global name inside a function of the module; no
    builtin is called [datetime]. *)
Definition load_global (name : string) : raised + string :=
  if bool_decide (name ∈ module_globals) then inr name
  else inl (NameError name).

(** [health_check]: the dictionary display evaluates its values in order;
    [utcnow_isoformat] is what [datetime.utcnow().isoformat()] gives once
    [datetime] is found. *)
Definition health_check (utcnow_isoformat : string)
    : raised + list (string * string) :=
  let status := "healthy" in
  let service := "JKUSA CMS Backend" in
  match load_global "datetime" with
  | inl e => inl e
  | inr _ =>
      inr [("status", status); ("service", service);
           ("timestamp", utcnow_isoformat)]
  end.

(** What the client of [GET /health] receives: the body of the endpoint
    under status 200, or the answer of the handler. *)
Definition serve_health (request : Request) (utcnow_isoformat : string)
    : io (JSONResponse + list (string * string)) :=
  match health_check utcnow_isoformat with
  | inr body => ret (inr body)
  | inl e => let* response := handle request e in ret (inl response)
  end.

End MainHandlers.

(** ** [app/routers/admin_news.py]: reads, deletion, notification *)

Module NewsReads.
Import Py Py.Notations Models.

Definition read_news (news_id : Z) (db : Session) : result News :=
  match find (λ r, bool_decide (Models.news_id r = news_id)) (news db) with
  | None => Raise (HTTPException 404 "News not found" [])
  | Some db_news => Ok db_news
  end.

Definition read_public_news (news_id : Z) (db : Session) : result News :=
  match find (λ r, bool_decide (Models.news_id r = news_id)) (news db) with
  | None => Raise (HTTPException 404 "News not found" [])
  | Some db_news => Ok db_news
  end.

Definition read_news_by_slug (slug : string) (db : Session) : result News :=
  match find (λ r, bool_decide (news_slug r = slug)) (news db) with
  | None => Raise (HTTPException 404 "News not found" [])
  | Some db_news => Ok db_news
  end.

(** [delete_news], for what it does to the News table: the image goes
    first, and a call of the object store that raises leaves the row in
    place. *)
Definition delete_news `{S3Service.Store} (news_id : Z) (db : Session)
    (current_user : Admin) : result string * Session :=
  match find (λ r, bool_decide (Models.news_id r = news_id)) (news db) with
  | None => (Raise (HTTPException 404 "News not found" []), db)
  | Some db_news =>
      match
        (if Text.truthy (news_featured_image_url db_news)
         then S3Service.delete_image (default "" (news_featured_image_url db_news))
         else Ok ())
      with
      | Raise e => (Raise e, db)
      | Ok _ =>
          (Ok "News deleted",
           {| users := users db; admins := admins db;
              news := filter (λ r, Models.news_id r ≠ Models.news_id db_news)
                        (news db) |})
      end
  end.

(** Of the missing [student] and [Subscriber] classes, the columns the
    notification block reads. *)
Record Student : Type := {
  student_email : string;
  student_full_name : string;
  student_is_active : bool
}.

Record Subscriber : Type := {
  subscriber_id : Z;
  subscriber_email : string;
  subscriber_is_active : bool;
  subscribed_at : option Z;
  unsubscribed_at : option Z
}.

#[global] Instance Subscriber_eq_dec : EqDecision Subscriber.
Proof. solve_decision. Defined.

(** An entry of [all_recipients]. *)
Record Recipient : Type := {
  recipient_email : string;
  recipient_name : string;
  recipient_type : string
}.

(** The block of [create_news] (and, word for word, of [update_news]) that
    collects whom to notify: the two queries for active rows and the two
    loops around the set [student_emails]. *)
Definition all_recipients (student_table : list Student)
    (subscriber_table : list Subscriber) : list Recipient :=
  let students := filter (λ s, student_is_active s = true) student_table in
  let subscribers :=
    filter (λ s, subscriber_is_active s = true) subscriber_table in
  let '(all_recipients, student_emails) :=
    foldl (λ '(all_recipients, student_emails) student,
             if bool_decide (student_email student ∉ (student_emails : gset string))
             then (all_recipients
                     ++ [{| recipient_email := student_email student;
                            recipient_name := student_full_name student;
                            recipient_type := "student" |}],
                   {[ student_email student ]} ∪ student_emails)
             else (all_recipients, student_emails))
      ([], ∅) students in
  foldl (λ all_recipients subscriber,
           if bool_decide (subscriber_email subscriber ∉ student_emails)
           then all_recipients
                  ++ [{| recipient_email := subscriber_email subscriber;
                         recipient_name := "Subscriber";
                         recipient_type := "subscriber" |}]
           else all_recipients)
    all_recipients subscribers.

End NewsReads.

(** ** [app/routers/admin_subscriber.py]

    The endpoints, for what they return and what they do to the Subscriber
    table. *)

Module AdminSubscriberOps.
Import Py Py.Notations Text NewsReads.

(** Of the missing [Subscriber] class: its static method, and the values
    the columns [subscribed_at] and [unsubscribed_at] of a new row take on
    commit at a given clock. *)
Class SubscriberModel : Type := {
  is_valid_email : string → bool;
  column_defaults : Z → option Z * option Z
}.

(** [db.commit()] after attribute assignments on a fetched row: the row
    with its key is replaced. *)
Definition commit (table : list Subscriber) (row : Subscriber) : list Subscriber :=
  (λ r, if bool_decide (subscriber_id r = subscriber_id row) then row else r)
    <$> table.

Section Endpoints.
Context `{Case} `{SubscriberModel}.

Definition subscribe (email : string) (utcnow fresh_id : Z)
    (table : list Subscriber) : result Subscriber * list Subscriber :=
  if negb (is_valid_email email) then
    (Raise (HTTPException 400 "Invalid email format" []), table)
  else
    match find (λ r, bool_decide (subscriber_email r = lower email)) table with
    | Some existing =>
        if subscriber_is_active existing then
          (Raise (HTTPException 400 "Email already subscribed" []), table)
        else
          let existing :=
            {| subscriber_id := subscriber_id existing;
               subscriber_email := subscriber_email existing;
               subscriber_is_active := true;
               subscribed_at := Some utcnow;
               unsubscribed_at := None |} in
          (Ok existing, commit table existing)
    | None =>
        let db_subscriber :=
          {| subscriber_id := fresh_id;
             subscriber_email := lower email;
             subscriber_is_active := true;
             subscribed_at := (column_defaults utcnow).1;
             unsubscribed_at := (column_defaults utcnow).2 |} in
        if bool_decide (fresh_id ∈ subscriber_id <$> table) then
          (Raise (HTTPException 400 "Email already exists" []), table)
        else (Ok db_subscriber, table ++ [db_subscriber])
    end.

Definition unsubscribe (email : string) (utcnow : Z) (table : list Subscriber)
    : result string * list Subscriber :=
  match find (λ r, bool_decide (subscriber_email r = lower email)) table with
  | None => (Raise (HTTPException 404 "Subscriber not found" []), table)
  | Some subscriber =>
      if negb (subscriber_is_active subscriber) then
        (Ok "Already unsubscribed", table)
      else
        let subscriber :=
          {| subscriber_id := subscriber_id subscriber;
             subscriber_email := subscriber_email subscriber;
             subscriber_is_active := false;
             subscribed_at := subscribed_at subscriber;
             unsubscribed_at := Some utcnow |} in
        (Ok "Successfully unsubscribed", commit table subscriber)
  end.

Record SubscriberStats : Type := {
  total_subscribers : Z;
  active_subscribers : Z;
  unsubscribed : Z
}.

Definition get_subscriber_stats (table : list Subscriber) : SubscriberStats :=
  let total := Z.of_nat (length table) in
  let active :=
    Z.of_nat (length (filter (λ r, subscriber_is_active r = true) table)) in
  let unsubscribed := (total - active)%Z in
  {| total_subscribers := total;
     active_subscribers := active;
     unsubscribed := unsubscribed |}.

Definition get_subscriber (subscriber_id : Z) (table : list Subscriber)
    : result Subscriber :=
  match find (λ r, bool_decide (NewsReads.subscriber_id r = subscriber_id)) table with
  | None => Raise (HTTPException 404 "Subscriber not found" [])
  | Some subscriber => Ok subscriber
  end.

(** [is_active] is the one field of the update; [None] when it is not
    sent. *)
Definition update_subscriber (subscriber_id : Z) (is_active : option bool)
    (utcnow : Z) (table : list Subscriber) : result Subscriber * list Subscriber :=
  match find (λ r, bool_decide (NewsReads.subscriber_id r = subscriber_id)) table with
  | None => (Raise (HTTPException 404 "Subscriber not found" []), table)
  | Some subscriber =>
      match is_active with
      | Some active =>
          let subscriber :=
            {| NewsReads.subscriber_id := NewsReads.subscriber_id subscriber;
               subscriber_email := subscriber_email subscriber;
               subscriber_is_active := active;
               subscribed_at := subscribed_at subscriber;
               unsubscribed_at := if negb active then Some utcnow else None |} in
          (Ok subscriber, commit table subscriber)
      | None => (Ok subscriber, table)
      end
  end.

Definition delete_subscriber (subscriber_id : Z) (table : list Subscriber)
    : result string * list Subscriber :=
  match find (λ r, bool_decide (NewsReads.subscriber_id r = subscriber_id)) table with
  | None => (Raise (HTTPException 404 "Subscriber not found" []), table)
  | Some subscriber =>
      (Ok "Subscriber deleted",
       filter (λ r, NewsReads.subscriber_id r ≠ NewsReads.subscriber_id subscriber)
         table)
  end.

Definition search_subscriber_by_email (email : string) (table : list Subscriber)
    : result Subscriber :=
  match find (λ r, bool_decide (subscriber_email r = lower email)) table with
  | None => Raise (HTTPException 404 "Subscriber not found" [])
  | Some subscriber => Ok subscriber
  end.
End Endpoints.

End AdminSubscriberOps.

(** ** [app/routers/admin_gallery.py]

    The endpoints, for what they return and what they do to the Gallery
    table. *)

Module AdminGalleryOps.
Import Py Py.Notations Text.

(** Of the missing [Gallery] class, the columns the endpoints read and
    write; a category is kept as the value of its enum member. *)
Record Gallery : Type := {
  gallery_id : Z;
  gallery_title : string;
  gallery_description : option string;
  gallery_category : string;
  gallery_year : option string;
  gallery_display_order : Z;
  gallery_image_url : option string
}.

#[global] Instance Gallery_eq_dec : EqDecision Gallery.
Proof. solve_decision. Defined.

(** Of the missing [GalleryCategory] enum and of the database driver:
    [GalleryCategory(value)] succeeds on the values of the enum and raises
    a [ValueError] with a text otherwise; [integrity_error] is the text of
    the [IntegrityError] of a refused insert. *)
Class GalleryModel : Type := {
  is_category : string → bool;
  value_error : string → string;
  integrity_error : string
}.

(** Attribute assignments on a fetched row. *)
Definition set_title (r : Gallery) (title : string) : Gallery :=
  {| gallery_id := gallery_id r; gallery_title := title;
     gallery_description := gallery_description r;
     gallery_category := gallery_category r; gallery_year := gallery_year r;
     gallery_display_order := gallery_display_order r;
     gallery_image_url := gallery_image_url r |}.

Definition set_description (r : Gallery) (description : option string) : Gallery :=
  {| gallery_id := gallery_id r; gallery_title := gallery_title r;
     gallery_description := description;
     gallery_category := gallery_category r; gallery_year := gallery_year r;
     gallery_display_order := gallery_display_order r;
     gallery_image_url := gallery_image_url r |}.

Definition set_category (r : Gallery) (category : string) : Gallery :=
  {| gallery_id := gallery_id r; gallery_title := gallery_title r;
     gallery_description := gallery_description r;
     gallery_category := category; gallery_year := gallery_year r;
     gallery_display_order := gallery_display_order r;
     gallery_image_url := gallery_image_url r |}.

Definition set_year (r : Gallery) (year : option string) : Gallery :=
  {| gallery_id := gallery_id r; gallery_title := gallery_title r;
     gallery_description := gallery_description r;
     gallery_category := gallery_category r; gallery_year := year;
     gallery_display_order := gallery_display_order r;
     gallery_image_url := gallery_image_url r |}.

Definition set_display_order (r : Gallery) (display_order : Z) : Gallery :=
  {| gallery_id := gallery_id r; gallery_title := gallery_title r;
     gallery_description := gallery_description r;
     gallery_category := gallery_category r; gallery_year := gallery_year r;
     gallery_display_order := display_order;
     gallery_image_url := gallery_image_url r |}.

Definition set_image_url (r : Gallery) (image_url : option string) : Gallery :=
  {| gallery_id := gallery_id r; gallery_title := gallery_title r;
     gallery_description := gallery_description r;
     gallery_category := gallery_category r; gallery_year := gallery_year r;
     gallery_display_order := gallery_display_order r;
     gallery_image_url := image_url |}.

(** [db.commit()] after attribute assignments on a fetched row. *)
Definition commit (table : list Gallery) (row : Gallery) : list Gallery :=
  (λ r, if bool_decide (gallery_id r = gallery_id row) then row else r) <$> table.

(** The checks on the uploaded file; [None] has no [content_type]. *)
Definition check_image (image : AdminNews.upload) : result unit :=
  match image with
  | AdminNews.NoFile => Raise AttributeError
  | AdminNews.NotAnImage => Raise (HTTPException 400 "File must be an image" [])
  | AdminNews.TooLarge => Raise (HTTPException 400 "Image must be less than 10MB" [])
  | _ => Ok ()
  end.

(** [s3_service.upload_image] and the test of its result: a URL that is
    empty counts as none. *)
Definition upload_image (image : AdminNews.upload) : result string :=
  match image with
  | AdminNews.Stored url =>
      if bool_decide (url = "") then
        Raise (HTTPException 500 "Failed to upload image" [])
      else Ok url
  | _ => Raise (HTTPException 500 "Failed to upload image" [])
  end.

Section Endpoints.
Context `{Builtins} `{Case} `{GalleryModel} `{S3Service.Store}.

(** The body of [create_gallery]; [image] is a required form field, so
    the body runs on requests that carry a file.  [fresh_id] is the key the
    database assigns on commit; a key already taken is the [IntegrityError]
    branch, which removes the stored image before it answers. *)
Definition create_gallery (title : string) (description : option string)
    (category : string) (year : option string) (display_order : Z)
    (image : AdminNews.upload) (fresh_id : Z) (table : list Gallery)
    : result Gallery * list Gallery :=
  let category_upper := upper category in
  if negb (is_category category_upper) then
    (Raise (HTTPException 400
              ("Invalid category value: " +:+ value_error category_upper) []),
     table)
  else
    let category_enum := category_upper in
    match (let? _ := check_image image in upload_image image) with
    | Raise e => (Raise e, table)
    | Ok image_url =>
        let display_order :=
          if bool_decide (display_order = 0%Z) then
            let max_order :=
              Z.of_nat (length (filter (λ r, gallery_category r = category_enum)
                                  table)) in
            (max_order + 1)%Z
          else display_order in
        let db_gallery :=
          {| gallery_id := fresh_id;
             gallery_title := strip title;
             gallery_description :=
               if truthy description then strip <$> description else None;
             gallery_category := category_enum;
             gallery_year := if truthy year then strip <$> year else None;
             gallery_display_order := display_order;
             gallery_image_url := Some image_url |} in
        if bool_decide (fresh_id ∈ gallery_id <$> table) then
          match S3Service.delete_image image_url with
          | Raise e => (Raise e, table)
          | Ok _ =>
              (Raise (HTTPException 400 ("Database error: " +:+ integrity_error)
                        []), table)
          end
        else (Ok db_gallery, table ++ [db_gallery])
    end.

Definition read_gallery (gallery_id : Z) (table : list Gallery) : result Gallery :=
  match find (λ r, bool_decide (AdminGalleryOps.gallery_id r = gallery_id)) table with
  | None => Raise (HTTPException 404 "Gallery item not found" [])
  | Some db_gallery => Ok db_gallery
  end.

(** The public twin wraps the same body in [try ... except Exception]. *)
Definition read_public_gallery (gallery_id : Z) (table : list Gallery)
    : result Gallery :=
  match
    match find (λ r, bool_decide (AdminGalleryOps.gallery_id r = gallery_id)) table with
    | None => Raise (HTTPException 404 "Gallery item not found" [])
    | Some db_gallery => Ok db_gallery
    end
  with
  | Ok db_gallery => Ok db_gallery
  | Raise e =>
      if is_Exception e then Raise (HTTPException 500 "Internal server error" [])
      else Raise e
  end.

(** The blocks of [update_gallery], in order; each takes the row as it
    stands and the [updated] flag and hands both on. *)
Definition update_title (title : option string) (db_gallery : Gallery)
    (updated : bool) : Gallery * bool :=
  match title with
  | Some title =>
      if bool_decide (strip title ≠ gallery_title db_gallery)
      then (set_title db_gallery (strip title), true)
      else (db_gallery, updated)
  | None => (db_gallery, updated)
  end.

Definition update_description (description : option string)
    (db_gallery : Gallery) (updated : bool) : Gallery * bool :=
  match description with
  | Some description =>
      if bool_decide (strip description
                      ≠ default "" (gallery_description db_gallery))
      then (set_description db_gallery
              (if bool_decide (strip description ≠ "")
               then Some (strip description) else None), true)
      else (db_gallery, updated)
  | None => (db_gallery, updated)
  end.

Definition update_category (category : option string) (db_gallery : Gallery)
    (updated : bool) : result (Gallery * bool) :=
  match category with
  | Some category =>
      let category_upper := upper category in
      if is_category category_upper then
        let category_enum := category_upper in
        if bool_decide (category_enum ≠ gallery_category db_gallery)
        then Ok (set_category db_gallery category_enum, true)
        else Ok (db_gallery, updated)
      else Raise (HTTPException 400 "Invalid category value" [])
  | None => Ok (db_gallery, updated)
  end.

Definition update_year (year : option string) (db_gallery : Gallery)
    (updated : bool) : Gallery * bool :=
  match year with
  | Some year =>
      if bool_decide (strip year ≠ default "" (gallery_year db_gallery))
      then (set_year db_gallery
              (if bool_decide (strip year ≠ "") then Some (strip year) else None),
            true)
      else (db_gallery, updated)
  | None => (db_gallery, updated)
  end.

Definition update_display_order (display_order : option Z)
    (db_gallery : Gallery) (updated : bool) : Gallery * bool :=
  match display_order with
  | Some display_order =>
      if bool_decide (display_order ≠ gallery_display_order db_gallery)
      then (set_display_order db_gallery display_order, true)
      else (db_gallery, updated)
  | None => (db_gallery, updated)
  end.

(** "Handle image update or removal": the old image is deleted before the
    new one is stored; removal alone is refused. *)
Definition update_image (image : AdminNews.upload) (remove_image : string)
    (db_gallery : Gallery) (updated : bool) : result (Gallery * bool) :=
  match image with
  | AdminNews.NoFile =>
      if bool_decide (remove_image = "true")
         && truthy (gallery_image_url db_gallery)
      then Raise (HTTPException 400
                    "Gallery items must have an image. Upload a new image instead."
                    [])
      else Ok (db_gallery, updated)
  | sent =>
      let? _ := check_image sent in
      let? _ :=
        if truthy (gallery_image_url db_gallery)
        then S3Service.delete_image (default "" (gallery_image_url db_gallery))
        else Ok () in
      let? new_image_url := upload_image sent in
      Ok (set_image_url db_gallery (Some new_image_url), true)
  end.

(** [update_gallery], for what it returns and does to the table.  A form
    field that was not sent is [None].  An exception leaves the table as it
    was; so does a request that changes nothing. *)
Definition update_gallery (gallery_id : Z)
    (title description category year : option string)
    (display_order : option Z) (image : AdminNews.upload) (remove_image : string)
    (table : list Gallery) : result Gallery * list Gallery :=
  match find (λ r, bool_decide (AdminGalleryOps.gallery_id r = gallery_id)) table with
  | None => (Raise (HTTPException 404 "Gallery item not found" []), table)
  | Some db_gallery =>
      let updated := false in
      let '(db_gallery, updated) := update_title title db_gallery updated in
      let '(db_gallery, updated) :=
        update_description description db_gallery updated in
      match
        (let? '(db_gallery, updated) :=
           update_category category db_gallery updated in
         let '(db_gallery, updated) := update_year year db_gallery updated in
         let '(db_gallery, updated) :=
           update_display_order display_order db_gallery updated in
         update_image image remove_image db_gallery updated)
      with
      | Raise e => (Raise e, table)
      | Ok (db_gallery, updated) =>
          if updated then (Ok db_gallery, commit table db_gallery)
          else (Ok db_gallery, table)
      end
  end.

(** [item[key]] *)
Inductive key_error : Type := KeyError (key : string).

(** The loop of [reorder_gallery] over the items of the request; it stops
    at the first item that lacks a key. *)
Fixpoint reorder_loop (gallery_items : list (gmap string Z)) (table : list Gallery)
    : key_error + list Gallery :=
  match gallery_items with
  | [] => inr table
  | item :: rest =>
      match item !! "id" with
      | None => inl (KeyError "id")
      | Some gallery_id =>
          match item !! "display_order" with
          | None => inl (KeyError "display_order")
          | Some new_order =>
              let table :=
                match find (λ r, bool_decide (AdminGalleryOps.gallery_id r = gallery_id))
                        table with
                | Some db_gallery =>
                    commit table (set_display_order db_gallery new_order)
                | None => table
                end in
              reorder_loop rest table
          end
      end
  end.

(** [except Exception] rolls back whatever the loop assigned. *)
Definition reorder_gallery (gallery_items : list (gmap string Z))
    (table : list Gallery) : result string * list Gallery :=
  match reorder_loop gallery_items table with
  | inr table => (Ok "Gallery items reordered successfully", table)
  | inl _ => (Raise (HTTPException 500 "Failed to reorder gallery items" []), table)
  end.

(** The image goes first; a call of the object store that raises leaves
    the row in place. *)
Definition delete_gallery (gallery_id : Z) (table : list Gallery)
    : result string * list Gallery :=
  match find (λ r, bool_decide (AdminGalleryOps.gallery_id r = gallery_id)) table with
  | None => (Raise (HTTPException 404 "Gallery item not found" []), table)
  | Some db_gallery =>
      match
        (if truthy (gallery_image_url db_gallery)
         then S3Service.delete_image (default "" (gallery_image_url db_gallery))
         else Ok ())
      with
      | Raise e => (Raise e, table)
      | Ok _ =>
          (Ok "Gallery item deleted",
           filter (λ r, AdminGalleryOps.gallery_id r
                        ≠ AdminGalleryOps.gallery_id db_gallery) table)
      end
  end.
End Endpoints.

End AdminGalleryOps.

(** ** [app/routers/admin_leadership.py]

    Creation, the reads of one profile and the update, for what they return
    and what they do to the Leadership table. *)

Module AdminLeadershipOps.
Import Py Py.Notations Text.

(** Of the missing [Leadership] class, the columns a profile shows; campus
    and category are kept as the values of their enum members. *)
Record Leadership : Type := {
  leadership_id : Z;
  leadership_name : string;
  leadership_bio : option string;
  leadership_year_of_service : string;
  leadership_campus : string;
  leadership_category : string;
  leadership_position_title : string;
  leadership_school_name : option string;
  leadership_hall_name : option string;
  leadership_display_order : Z;
  leadership_profile_image_url : option string
}.

(** Of the missing enums [CampusType] and [LeadershipCategory] and of the
    database driver: the values each enum has, the text of the [ValueError]
    of a value it has not, and the text of the [IntegrityError] of a refused
    insert. *)
Class LeadershipModel : Type := {
  is_campus : string → bool;
  is_leadership_category : string → bool;
  campus_error : string → string;
  category_error : string → string;
  leadership_integrity_error : string
}.

(** Attribute assignments on a fetched row. *)
Definition with_name (r : Leadership) (v : string) : Leadership :=
  {| leadership_id := leadership_id r; leadership_name := v;
     leadership_bio := leadership_bio r;
     leadership_year_of_service := leadership_year_of_service r;
     leadership_campus := leadership_campus r;
     leadership_category := leadership_category r;
     leadership_position_title := leadership_position_title r;
     leadership_school_name := leadership_school_name r;
     leadership_hall_name := leadership_hall_name r;
     leadership_display_order := leadership_display_order r;
     leadership_profile_image_url := leadership_profile_image_url r |}.

Definition with_bio (r : Leadership) (v : option string) : Leadership :=
  {| leadership_id := leadership_id r; leadership_name := leadership_name r;
     leadership_bio := v;
     leadership_year_of_service := leadership_year_of_service r;
     leadership_campus := leadership_campus r;
     leadership_category := leadership_category r;
     leadership_position_title := leadership_position_title r;
     leadership_school_name := leadership_school_name r;
     leadership_hall_name := leadership_hall_name r;
     leadership_display_order := leadership_display_order r;
     leadership_profile_image_url := leadership_profile_image_url r |}.

Definition with_year_of_service (r : Leadership) (v : string) : Leadership :=
  {| leadership_id := leadership_id r; leadership_name := leadership_name r;
     leadership_bio := leadership_bio r;
     leadership_year_of_service := v;
     leadership_campus := leadership_campus r;
     leadership_category := leadership_category r;
     leadership_position_title := leadership_position_title r;
     leadership_school_name := leadership_school_name r;
     leadership_hall_name := leadership_hall_name r;
     leadership_display_order := leadership_display_order r;
     leadership_profile_image_url := leadership_profile_image_url r |}.

Definition with_campus (r : Leadership) (v : string) : Leadership :=
  {| leadership_id := leadership_id r; leadership_name := leadership_name r;
     leadership_bio := leadership_bio r;
     leadership_year_of_service := leadership_year_of_service r;
     leadership_campus := v;
     leadership_category := leadership_category r;
     leadership_position_title := leadership_position_title r;
     leadership_school_name := leadership_school_name r;
     leadership_hall_name := leadership_hall_name r;
     leadership_display_order := leadership_display_order r;
     leadership_profile_image_url := leadership_profile_image_url r |}.

Definition with_category (r : Leadership) (v : string) : Leadership :=
  {| leadership_id := leadership_id r; leadership_name := leadership_name r;
     leadership_bio := leadership_bio r;
     leadership_year_of_service := leadership_year_of_service r;
     leadership_campus := leadership_campus r;
     leadership_category := v;
     leadership_position_title := leadership_position_title r;
     leadership_school_name := leadership_school_name r;
     leadership_hall_name := leadership_hall_name r;
     leadership_display_order := leadership_display_order r;
     leadership_profile_image_url := leadership_profile_image_url r |}.

Definition with_position_title (r : Leadership) (v : string) : Leadership :=
  {| leadership_id := leadership_id r; leadership_name := leadership_name r;
     leadership_bio := leadership_bio r;
     leadership_year_of_service := leadership_year_of_service r;
     leadership_campus := leadership_campus r;
     leadership_category := leadership_category r;
     leadership_position_title := v;
     leadership_school_name := leadership_school_name r;
     leadership_hall_name := leadership_hall_name r;
     leadership_display_order := leadership_display_order r;
     leadership_profile_image_url := leadership_profile_image_url r |}.

Definition with_school_name (r : Leadership) (v : option string) : Leadership :=
  {| leadership_id := leadership_id r; leadership_name := leadership_name r;
     leadership_bio := leadership_bio r;
     leadership_year_of_service := leadership_year_of_service r;
     leadership_campus := leadership_campus r;
     leadership_category := leadership_category r;
     leadership_position_title := leadership_position_title r;
     leadership_school_name := v;
     leadership_hall_name := leadership_hall_name r;
     leadership_display_order := leadership_display_order r;
     leadership_profile_image_url := leadership_profile_image_url r |}.

Definition with_hall_name (r : Leadership) (v : option string) : Leadership :=
  {| leadership_id := leadership_id r; leadership_name := leadership_name r;
     leadership_bio := leadership_bio r;
     leadership_year_of_service := leadership_year_of_service r;
     leadership_campus := leadership_campus r;
     leadership_category := leadership_category r;
     leadership_position_title := leadership_position_title r;
     leadership_school_name := leadership_school_name r;
     leadership_hall_name := v;
     leadership_display_order := leadership_display_order r;
     leadership_profile_image_url := leadership_profile_image_url r |}.

Definition with_display_order (r : Leadership) (v : Z) : Leadership :=
  {| leadership_id := leadership_id r; leadership_name := leadership_name r;
     leadership_bio := leadership_bio r;
     leadership_year_of_service := leadership_year_of_service r;
     leadership_campus := leadership_campus r;
     leadership_category := leadership_category r;
     leadership_position_title := leadership_position_title r;
     leadership_school_name := leadership_school_name r;
     leadership_hall_name := leadership_hall_name r;
     leadership_display_order := v;
     leadership_profile_image_url := leadership_profile_image_url r |}.

Definition with_profile_image_url (r : Leadership) (v : option string)
    : Leadership :=
  {| leadership_id := leadership_id r; leadership_name := leadership_name r;
     leadership_bio := leadership_bio r;
     leadership_year_of_service := leadership_year_of_service r;
     leadership_campus := leadership_campus r;
     leadership_category := leadership_category r;
     leadership_position_title := leadership_position_title r;
     leadership_school_name := leadership_school_name r;
     leadership_hall_name := leadership_hall_name r;
     leadership_display_order := leadership_display_order r;
     leadership_profile_image_url := v |}.

(** [db.commit()] after attribute assignments on a fetched row. *)
Definition commit (table : list Leadership) (row : Leadership)
    : list Leadership :=
  (λ r, if bool_decide (leadership_id r = leadership_id row) then row else r)
    <$> table.

(** The checks on the uploaded file. *)
Definition check_image (image : AdminNews.upload) : result unit :=
  match image with
  | AdminNews.NoFile => Raise AttributeError
  | AdminNews.NotAnImage => Raise (HTTPException 400 "File must be an image" [])
  | AdminNews.TooLarge => Raise (HTTPException 400 "Image must be less than 5MB" [])
  | _ => Ok ()
  end.

(** [s3_service.upload_image] and the test of its result. *)
Definition upload_image (image : AdminNews.upload) : result string :=
  match image with
  | AdminNews.Stored url =>
      if bool_decide (url = "") then
        Raise (HTTPException 500 "Failed to upload image" [])
      else Ok url
  | _ => Raise (HTTPException 500 "Failed to upload image" [])
  end.

Section Endpoints.
Context `{Builtins} `{Case} `{LeadershipModel} `{S3Service.Store}.

(** [create_leadership]: campus and category are upper-cased before the
    enums see them.  [fresh_id] is the key the database assigns on commit; a
    key already taken is the [IntegrityError] branch. *)
Definition create_leadership (name : string) (bio : option string)
    (year_of_service campus category position_title : string)
    (school_name hall_name : option string) (display_order : Z)
    (profile_image : AdminNews.upload) (fresh_id : Z) (table : list Leadership)
    : result Leadership * list Leadership :=
  let campus_upper := upper campus in
  let category_upper := upper category in
  if negb (is_campus campus_upper) then
    (Raise (HTTPException 400
              ("Invalid enum value: " +:+ campus_error campus_upper) []), table)
  else if negb (is_leadership_category category_upper) then
    (Raise (HTTPException 400
              ("Invalid enum value: " +:+ category_error category_upper) []),
     table)
  else
    let campus_enum := campus_upper in
    let category_enum := category_upper in
    match
      match profile_image with
      | AdminNews.NoFile => Ok None
      | sent =>
          let? _ := check_image sent in
          let? profile_image_url := upload_image sent in
          Ok (Some profile_image_url)
      end
    with
    | Raise e => (Raise e, table)
    | Ok profile_image_url =>
        let display_order :=
          if bool_decide (display_order = 0%Z) then
            let max_order :=
              Z.of_nat (length (filter (λ r, leadership_campus r = campus_enum
                                             ∧ leadership_category r = category_enum)
                                  table)) in
            (max_order + 1)%Z
          else display_order in
        let db_leadership :=
          {| leadership_id := fresh_id;
             leadership_name := strip name;
             leadership_bio := if truthy bio then strip <$> bio else None;
             leadership_year_of_service := strip year_of_service;
             leadership_campus := campus_enum;
             leadership_category := category_enum;
             leadership_position_title := strip position_title;
             leadership_school_name :=
               if truthy school_name then strip <$> school_name else None;
             leadership_hall_name :=
               if truthy hall_name then strip <$> hall_name else None;
             leadership_display_order := display_order;
             leadership_profile_image_url := profile_image_url |} in
        if bool_decide (fresh_id ∈ leadership_id <$> table) then
          (Raise (HTTPException 400
                    ("Database error: " +:+ leadership_integrity_error) []),
           table)
        else (Ok db_leadership, table ++ [db_leadership])
    end.

Definition read_leadership (leadership_id : Z) (table : list Leadership)
    : result Leadership :=
  match find (λ r, bool_decide (AdminLeadershipOps.leadership_id r = leadership_id))
          table with
  | None => Raise (HTTPException 404 "Leadership profile not found" [])
  | Some db_leadership => Ok db_leadership
  end.

(** The public twin wraps the same body in [try ... except Exception]. *)
Definition read_public_leadership (leadership_id : Z) (table : list Leadership)
    : result Leadership :=
  match
    match find (λ r, bool_decide (AdminLeadershipOps.leadership_id r = leadership_id))
            table with
    | None => Raise (HTTPException 404 "Leadership profile not found" [])
    | Some db_leadership => Ok db_leadership
    end
  with
  | Ok db_leadership => Ok db_leadership
  | Raise e =>
      if is_Exception e then Raise (HTTPException 500 "Internal server error" [])
      else Raise e
  end.

(** The blocks of [update_leadership]: a text column that cannot be empty,
    and one that can. *)
Definition update_text (sent : option string) (column : Leadership → string)
    (assign : Leadership → string → Leadership) (db_leadership : Leadership)
    (updated : bool) : Leadership * bool :=
  match sent with
  | Some v =>
      if bool_decide (strip v ≠ column db_leadership)
      then (assign db_leadership (strip v), true)
      else (db_leadership, updated)
  | None => (db_leadership, updated)
  end.

Definition update_optional_text (sent : option string)
    (column : Leadership → option string)
    (assign : Leadership → option string → Leadership)
    (db_leadership : Leadership) (updated : bool) : Leadership * bool :=
  match sent with
  | Some v =>
      if bool_decide (strip v ≠ default "" (column db_leadership))
      then (assign db_leadership
              (if bool_decide (strip v ≠ "") then Some (strip v) else None),
            true)
      else (db_leadership, updated)
  | None => (db_leadership, updated)
  end.

(** The enums see campus and category as they were sent. *)
Definition update_campus (campus : option string) (db_leadership : Leadership)
    (updated : bool) : result (Leadership * bool) :=
  match campus with
  | Some campus =>
      if is_campus campus then
        let campus_enum := campus in
        if bool_decide (campus_enum ≠ leadership_campus db_leadership)
        then Ok (with_campus db_leadership campus_enum, true)
        else Ok (db_leadership, updated)
      else Raise (HTTPException 400 "Invalid campus value" [])
  | None => Ok (db_leadership, updated)
  end.

Definition update_category (category : option string)
    (db_leadership : Leadership) (updated : bool)
    : result (Leadership * bool) :=
  match category with
  | Some category =>
      if is_leadership_category category then
        let category_enum := category in
        if bool_decide (category_enum ≠ leadership_category db_leadership)
        then Ok (with_category db_leadership category_enum, true)
        else Ok (db_leadership, updated)
      else Raise (HTTPException 400 "Invalid category value" [])
  | None => Ok (db_leadership, updated)
  end.

Definition update_display_order (display_order : option Z)
    (db_leadership : Leadership) (updated : bool) : Leadership * bool :=
  match display_order with
  | Some display_order =>
      if bool_decide (display_order ≠ leadership_display_order db_leadership)
      then (with_display_order db_leadership display_order, true)
      else (db_leadership, updated)
  | None => (db_leadership, updated)
  end.

(** "Handle image update or removal" *)
Definition update_image (profile_image : AdminNews.upload)
    (remove_image : string) (db_leadership : Leadership) (updated : bool)
    : result (Leadership * bool) :=
  match profile_image with
  | AdminNews.NoFile =>
      if bool_decide (remove_image = "true")
         && truthy (leadership_profile_image_url db_leadership)
      then
        let? _ := S3Service.delete_image
                    (default "" (leadership_profile_image_url db_leadership)) in
        Ok (with_profile_image_url db_leadership None, true)
      else Ok (db_leadership, updated)
  | sent =>
      let? _ := check_image sent in
      let? _ :=
        if truthy (leadership_profile_image_url db_leadership)
        then S3Service.delete_image
               (default "" (leadership_profile_image_url db_leadership))
        else Ok () in
      let? new_image_url := upload_image sent in
      Ok (with_profile_image_url db_leadership (Some new_image_url), true)
  end.

(** [update_leadership], for what it returns and does to the table.  A form
    field that was not sent is [None].  An exception leaves the table as it
    was; so does a request that changes nothing. *)
Definition update_leadership (leadership_id : Z)
    (name bio year_of_service campus category position_title school_name
       hall_name : option string)
    (display_order : option Z) (profile_image : AdminNews.upload)
    (remove_image : string) (table : list Leadership)
    : result Leadership * list Leadership :=
  match find (λ r, bool_decide (AdminLeadershipOps.leadership_id r = leadership_id))
          table with
  | None => (Raise (HTTPException 404 "Leadership profile not found" []), table)
  | Some db_leadership =>
      let updated := false in
      let '(db_leadership, updated) :=
        update_text name leadership_name with_name db_leadership updated in
      let '(db_leadership, updated) :=
        update_optional_text bio leadership_bio with_bio db_leadership updated in
      let '(db_leadership, updated) :=
        update_text year_of_service leadership_year_of_service
          with_year_of_service db_leadership updated in
      match
        (let? '(db_leadership, updated) :=
           update_campus campus db_leadership updated in
         let? '(db_leadership, updated) :=
           update_category category db_leadership updated in
         let '(db_leadership, updated) :=
           update_text position_title leadership_position_title
             with_position_title db_leadership updated in
         let '(db_leadership, updated) :=
           update_optional_text school_name leadership_school_name
             with_school_name db_leadership updated in
         let '(db_leadership, updated) :=
           update_optional_text hall_name leadership_hall_name with_hall_name
             db_leadership updated in
         let '(db_leadership, updated) :=
           update_display_order display_order db_leadership updated in
         update_image profile_image remove_image db_leadership updated)
      with
      | Raise e => (Raise e, table)
      | Ok (db_leadership, updated) =>
          if updated then (Ok db_leadership, commit table db_leadership)
          else (Ok db_leadership, table)
      end
  end.
End Endpoints.

End AdminLeadershipOps.

(** ** The route tables of two routers

    Reference model of how the framework (Starlette under FastAPI) picks
    the endpoint of a request: the routes of a router are tried in the order
    in which the decorators registered them, and the first whose method and
    path both match takes the request.  A path is given by its segments
    after the prefix of the router; a parameter matches any one segment that
    is not empty, whatever type the endpoint declares for it. *)

Module Routing.

Inductive method : Type := GET | POST | PUT | DELETE.

#[global] Instance method_eq_dec : EqDecision method.
Proof. solve_decision. Defined.

Inductive segment : Type :=
| Lit (text : string)
| Param (name : string).

Record route : Type := {
  route_method : method;
  route_path : list segment;
  endpoint : string
}.

Definition segment_matches (p : segment) (s : string) : bool :=
  match p with
  | Lit text => bool_decide (s = text)
  | Param _ => bool_decide (s ≠ "")
  end.

Fixpoint path_matches (pattern : list segment) (path : list string) : bool :=
  match pattern, path with
  | [], [] => true
  | p :: pattern, s :: path => segment_matches p s && path_matches pattern path
  | _, _ => false
  end.

Definition dispatch (routes : list route) (m : method) (path : list string)
    : option route :=
  find (λ r, bool_decide (route_method r = m)
             && path_matches (route_path r) path) routes.

(** The decorators of [router] in [admin_gallery.py], top to bottom. *)
Definition admin_gallery_routes : list route :=
  [ {| route_method := POST; route_path := [Lit ""];
       endpoint := "create_gallery" |};
    {| route_method := GET; route_path := [Lit ""];
       endpoint := "read_gallery_list" |};
    {| route_method := GET; route_path := [Lit "summary"];
       endpoint := "get_gallery_summary" |};
    {| route_method := GET; route_path := [Lit "by-category"];
       endpoint := "get_gallery_by_category" |};
    {| route_method := GET; route_path := [Param "gallery_id"];
       endpoint := "read_gallery" |};
    {| route_method := PUT; route_path := [Param "gallery_id"];
       endpoint := "update_gallery" |};
    {| route_method := PUT; route_path := [Lit "reorder"];
       endpoint := "reorder_gallery" |};
    {| route_method := DELETE; route_path := [Param "gallery_id"];
       endpoint := "delete_gallery" |};
    {| route_method := GET; route_path := [Lit "years"; Lit "available"];
       endpoint := "get_available_years" |};
    {| route_method := GET; route_path := [Lit "enums"; Lit "categories"];
       endpoint := "get_gallery_categories" |} ].

(** The decorators of [router] in [admin_leadership.py], top to bottom. *)
Definition admin_leadership_routes : list route :=
  [ {| route_method := POST; route_path := [Lit ""];
       endpoint := "create_leadership" |};
    {| route_method := GET; route_path := [Lit ""];
       endpoint := "read_leadership_list" |};
    {| route_method := GET; route_path := [Lit "organizational-structure"];
       endpoint := "get_organizational_structure" |};
    {| route_method := GET; route_path := [Param "leadership_id"];
       endpoint := "read_leadership" |};
    {| route_method := PUT; route_path := [Param "leadership_id"];
       endpoint := "update_leadership" |};
    {| route_method := PUT; route_path := [Lit "reorder"];
       endpoint := "reorder_leadership" |};
    {| route_method := DELETE; route_path := [Param "leadership_id"];
       endpoint := "delete_leadership" |};
    {| route_method := GET; route_path := [Lit "years"; Lit "available"];
       endpoint := "get_available_years" |};
    {| route_method := GET; route_path := [Lit "enums"; Lit "campus-types"];
       endpoint := "get_campus_types" |};
    {| route_method := GET;
       route_path := [Lit "enums"; Lit "leadership-categories"];
       endpoint := "get_leadership_categories" |} ].

End Routing.

(** ** More instances and sample data *)

Module Samples.
Import Py Models NewsReads AdminGalleryOps Reference.

Fixpoint map_chars (f : Ascii.ascii → Ascii.ascii) (s : string) : string :=
  match s with
  | EmptyString => EmptyString
  | String c s' => String (f c) (map_chars f s')
  end.

(** Case conversion of the ASCII letters. *)
#[export] Instance case : Text.Case :=
  {| Text.lower := map_chars
       (λ c, let n := Ascii.nat_of_ascii c in
             if (65 <=? n)%nat && (n <=? 90)%nat
             then Ascii.ascii_of_nat (n + 32) else c);
     Text.upper := map_chars
       (λ c, let n := Ascii.nat_of_ascii c in
             if (97 <=? n)%nat && (n <=? 122)%nat
             then Ascii.ascii_of_nat (n - 32) else c) |}.

#[export] Instance subscriber_model : AdminSubscriberOps.SubscriberModel :=
  {| AdminSubscriberOps.is_valid_email s :=
       bool_decide (String.index 0 "@" s ≠ None);
     AdminSubscriberOps.column_defaults now := (Some now, None) |}.

#[export] Instance gallery_model : GalleryModel :=
  {| is_category s := bool_decide (s ∈ ["EVENTS"; "SPORTS"; "CULTURE"]);
     value_error s := "'" +:+ s +:+ "' is not a valid GalleryCategory";
     integrity_error := "duplicate key" |}.

#[export] Instance leadership_model : AdminLeadershipOps.LeadershipModel :=
  {| AdminLeadershipOps.is_campus s := bool_decide (s ∈ ["MAIN"; "KAREN"]);
     AdminLeadershipOps.is_leadership_category s :=
       bool_decide (s ∈ ["EXECUTIVE"; "SCHOOL_REP"; "HALL_REP"]);
     AdminLeadershipOps.campus_error s :=
       "'" +:+ s +:+ "' is not a valid CampusType";
     AdminLeadershipOps.category_error s :=
       "'" +:+ s +:+ "' is not a valid LeadershipCategory";
     AdminLeadershipOps.leadership_integrity_error := "duplicate key" |}.


(** A user whose account is switched off. *)
Definition dave_user : User :=
  {| user_id := 8; user_username := "dave"; user_email := "dave@jkusa.org";
     user_first_name := Some "Dave"; user_last_name := None;
     user_phone_number := None; user_is_active := false |}.

Definition db_users : Session :=
  {| users := [Reference.alice_user; dave_user];
     admins := admins Reference.db;
     news := news Reference.db |}.

(** What [get_password_hash] stores for a password at the first draw. *)
Definition stored_hash : unicode :=
  match outcome (Auth.get_password_hash (Str (Reference.text "hunter2"))
                   Reference.boot).1 with
  | Ok h => h
  | Raise _ => []
  end.

(** Two rows of one student, a student who left, and three subscribers of
    whom one is a student and one has unsubscribed. *)
Definition students : list Student :=
  [ {| student_email := "amina@jkusa.org"; student_full_name := "Amina";
       student_is_active := true |};
    {| student_email := "amina@jkusa.org"; student_full_name := "Amina W.";
       student_is_active := true |};
    {| student_email := "brian@jkusa.org"; student_full_name := "Brian";
       student_is_active := false |} ].

Definition subscribers : list Subscriber :=
  [ {| subscriber_id := 1; subscriber_email := "amina@jkusa.org";
       subscriber_is_active := true; subscribed_at := Some 10%Z;
       unsubscribed_at := None |};
    {| subscriber_id := 2; subscriber_email := "chege@jkusa.org";
       subscriber_is_active := true; subscribed_at := Some 20%Z;
       unsubscribed_at := None |};
    {| subscriber_id := 3; subscriber_email := "dora@jkusa.org";
       subscriber_is_active := false; subscribed_at := Some 5%Z;
       unsubscribed_at := Some 30%Z |} ].

(** The row of a new subscriber. *)
Definition eve : Subscriber :=
  {| subscriber_id := 4; subscriber_email := "eve@jkusa.org";
     subscriber_is_active := true; subscribed_at := Some 70%Z;
     unsubscribed_at := None |}.

Definition chair : AdminLeadershipOps.Leadership :=
  {| AdminLeadershipOps.leadership_id := 1;
     AdminLeadershipOps.leadership_name := "Wanjiru";
     AdminLeadershipOps.leadership_bio := None;
     AdminLeadershipOps.leadership_year_of_service := "2024/2025";
     AdminLeadershipOps.leadership_campus := "MAIN";
     AdminLeadershipOps.leadership_category := "EXECUTIVE";
     AdminLeadershipOps.leadership_position_title := "Chairperson";
     AdminLeadershipOps.leadership_school_name := None;
     AdminLeadershipOps.leadership_hall_name := None;
     AdminLeadershipOps.leadership_display_order := 1;
     AdminLeadershipOps.leadership_profile_image_url := None |}.

Definition gallery : list Gallery :=
  [ {| gallery_id := 1; gallery_title := "Sports day";
       gallery_description := None; gallery_category := "SPORTS";
       gallery_year := Some "2024"; gallery_display_order := 1;
       gallery_image_url := Some "https://cdn.jkusa.org/gallery/1.jpg" |};
    {| gallery_id := 2; gallery_title := "Culture week";
       gallery_description := Some "Dances"; gallery_category := "CULTURE";
       gallery_year := Some "2024"; gallery_display_order := 1;
       gallery_image_url := Some "https://cdn.jkusa.org/gallery/2.jpg" |};
    {| gallery_id := 3; gallery_title := "Finals";
       gallery_description := None; gallery_category := "SPORTS";
       gallery_year := Some "2025"; gallery_display_order := 2;
       gallery_image_url := Some "https://cdn.jkusa.org/gallery/3.jpg" |} ].

End Samples.

(** * Properties *)

(** ** UTF-8 on ASCII text *)

Section Utf8Facts.
Import Py.

Lemma to_N_octet (n : N) : (n < 256)%N → Byte.to_N (octet n) = n.
Proof.
  intros Hn. unfold octet.
  destruct (Byte.of_N n) as [x|] eqn:E; simpl.
  - by apply Byte.to_of_N.
  - apply Byte.of_N_None_iff in E. lia.
Qed.

Lemma octet_to_N (x : byte) : octet (Byte.to_N x) = x.
Proof. unfold octet. by rewrite Byte.of_to_N. Qed.

Lemma utf8_decode_ascii (b : bytes) :
  forallb is_ascii b = true → utf8_decode b = Some (Byte.to_N <$> b).
Proof.
  induction b as [|x b IH]; [done|].
  rewrite fmap_cons. cbn [forallb utf8_decode].
  intros [Hx Hb]%andb_true_iff. unfold is_ascii in Hx.
  rewrite Hx, (IH Hb). done.
Qed.

Lemma utf8_encode_ascii (b : bytes) :
  forallb is_ascii b = true → utf8_encode (Byte.to_N <$> b) = Some b.
Proof.
  induction b as [|x b IH]; [done|].
  rewrite fmap_cons. cbn [forallb utf8_encode].
  intros [Hx Hb]%andb_true_iff. unfold is_ascii in Hx.
  unfold utf8_encode_cp. rewrite Hx, (IH Hb), octet_to_N. done.
Qed.

(** Decoding an ASCII byte string gives a text that encodes back to it. *)
Lemma decode_encode_ascii (b : bytes) :
  forallb is_ascii b = true →
  ∃ u, decode b = Ok u ∧ encode u = Ok b.
Proof.
  intros Hb. exists (Byte.to_N <$> b). unfold decode, encode.
  by rewrite utf8_decode_ascii, utf8_encode_ascii.
Qed.
End Utf8Facts.

(** ** The bcrypt model *)

Section BcryptFacts.
Import Py Bcrypt.
Context `{Primitive}.

Lemma radix64_char_alphabet (n : N) : radix64_char n ∈ alphabet.
Proof.
  unfold radix64_char. apply list_elem_of_In, nth_In.
  change (length alphabet) with 64%nat.
  pose proof (N.mod_upper_bound n 64). lia.
Qed.

Lemma radix64_length (len : nat) (digits : list N) :
  length (radix64 len digits) = len.
Proof.
  unfold radix64. rewrite length_fmap, length_take, length_app, length_replicate.
  lia.
Qed.

Lemma radix64_is_radix64 (len : nat) (digits : list N) :
  forallb is_radix64 (radix64 len digits) = true.
Proof.
  unfold radix64. apply forallb_forall. intros x Hx%list_elem_of_In.
  apply list_elem_of_fmap in Hx as (n & -> & _).
  unfold is_radix64. apply bool_decide_eq_true, radix64_char_alphabet.
Qed.

Lemma alphabet_ascii (x : byte) : x ∈ alphabet → is_ascii x = true.
Proof.
  intros Hx%list_elem_of_In.
  assert (Hall : forallb is_ascii alphabet = true) by (vm_compute; done).
  rewrite forallb_forall in Hall. by apply Hall.
Qed.

Lemma is_radix64_ascii (l : bytes) :
  forallb is_radix64 l = true → forallb is_ascii l = true.
Proof.
  rewrite !forallb_forall. intros Hl x Hx.
  apply alphabet_ascii. specialize (Hl x Hx).
  unfold is_radix64 in Hl. by apply bool_decide_eq_true in Hl.
Qed.

Lemma digit_val_digit (n : N) : (n < 10)%N → digit_val (digit n) = Some n.
Proof.
  intros Hn. unfold digit_val, digit. rewrite to_N_octet by lia.
  destruct (48 <=? 48 + n)%N eqn:E1; [|apply N.leb_gt in E1; lia].
  destruct (48 + n <=? 57)%N eqn:E2; [|apply N.leb_gt in E2; lia].
  simpl. f_equal. lia.
Qed.

Lemma digit_digit_val (x : byte) (n : N) :
  digit_val x = Some n → x = digit n ∧ (n < 10)%N.
Proof.
  unfold digit_val, digit.
  destruct (48 <=? Byte.to_N x)%N eqn:E1; simpl; [|done].
  destruct (Byte.to_N x <=? 57)%N eqn:E2; simpl; [|done].
  apply N.leb_le in E1, E2. intros [= <-]. split; [|lia].
  replace (48 + (Byte.to_N x - 48))%N with (Byte.to_N x) by lia.
  by rewrite octet_to_N.
Qed.

Lemma parse_salt_cons (d0 two m d1 c1 c2 d2 : byte) (rest : bytes) :
  parse_salt (d0 :: two :: m :: d1 :: c1 :: c2 :: d2 :: rest) =
  if bool_decide (d0 = "$"%byte) && bool_decide (two = "2"%byte)
     && minor_ok m && bool_decide (d1 = "$"%byte)
     && bool_decide (d2 = "$"%byte) then
    match digit_val c1, digit_val c2 with
    | Some hi, Some lo =>
        let rounds := (10 * hi + lo)%N in
        if (4 <=? rounds)%N && (rounds <=? 31)%N
           && (22 <=? length rest)%nat
           && forallb is_radix64 (take 22 rest) then
          Some {| minor := m; cost := rounds; salt22 := take 22 rest |}
        else None
    | _, _ => None
    end
  else None.
Proof. reflexivity. Qed.

Lemma parse_format (f : salt_fields) (tail : bytes) :
  valid_fields f → parse_salt (format_salt f ++ tail) = Some f.
Proof.
  intros (Hm & Hc & Hl & Hs). destruct f as [m c s]; cbn [minor cost salt22] in *.
  change (format_salt {| minor := m; cost := c; salt22 := s |} ++ tail)
    with ("$"%byte :: "2"%byte :: m :: "$"%byte :: digit (c / 10)
            :: digit (c mod 10) :: "$"%byte :: (s ++ tail)).
  rewrite parse_salt_cons.
  rewrite !bool_decide_eq_true_2 by done. rewrite Hm. cbn [andb].
  assert (c / 10 < 10)%N by (apply N.Div0.div_lt_upper_bound; lia).
  assert (c mod 10 < 10)%N by (apply N.mod_upper_bound; lia).
  rewrite !digit_val_digit by done. cbv zeta.
  replace (10 * (c / 10) + c mod 10)%N with c
    by (rewrite (N.div_mod c 10) at 1; lia).
  rewrite take_app_length' by done.
  destruct (4 <=? c)%N eqn:E1; [|apply N.leb_gt in E1; lia].
  destruct (c <=? 31)%N eqn:E2; [|apply N.leb_gt in E2; lia].
  rewrite Hs.
  destruct (22 <=? length (s ++ tail))%nat eqn:E3; [done|].
  apply Nat.leb_gt in E3. rewrite length_app in E3. lia.
Qed.

Lemma parse_salt_inv (s : bytes) (f : salt_fields) :
  parse_salt s = Some f →
  valid_fields f ∧ ∃ tail, s = format_salt f ++ tail.
Proof.
  destruct s as [|d0 [|two [|m [|d1 [|c1 [|c2 [|d2 rest]]]]]]]; try done.
  rewrite parse_salt_cons.
  destruct (bool_decide (d0 = "$"%byte)) eqn:E0; cbn [andb]; [|done].
  destruct (bool_decide (two = "2"%byte)) eqn:E1; cbn [andb]; [|done].
  destruct (minor_ok m) eqn:Em; cbn [andb]; [|done].
  destruct (bool_decide (d1 = "$"%byte)) eqn:E2; cbn [andb]; [|done].
  destruct (bool_decide (d2 = "$"%byte)) eqn:E3; cbn [andb]; [|done].
  apply bool_decide_eq_true in E0, E1, E2, E3. subst.
  destruct (digit_val c1) as [hi|] eqn:Ehi; [|done].
  destruct (digit_val c2) as [lo|] eqn:Elo; [|done].
  apply digit_digit_val in Ehi as [-> Hhi], Elo as [-> Hlo]. cbv zeta.
  destruct (4 <=? 10 * hi + lo)%N eqn:E4; cbn [andb]; [|done].
  destruct (10 * hi + lo <=? 31)%N eqn:E5; cbn [andb]; [|done].
  destruct (22 <=? length rest)%nat eqn:E6; cbn [andb]; [|done].
  destruct (forallb is_radix64 (take 22 rest)) eqn:E7; [|done].
  apply N.leb_le in E4, E5. apply Nat.leb_le in E6.
  intros [= <-]. split.
  - repeat split; cbn [minor cost salt22]; try done. by rewrite length_take_le.
  - exists (drop 22 rest). unfold format_salt; cbn [minor cost salt22].
    replace ((10 * hi + lo) / 10)%N with hi
      by (apply N.div_unique with lo; lia).
    replace ((10 * hi + lo) mod 10)%N with lo
      by (apply N.mod_unique with hi; lia).
    by rewrite <- app_assoc, take_drop.
Qed.

Lemma hashpw_inv (password salt h : bytes) :
  hashpw password salt = Ok h →
  ∃ f, parse_salt salt = Some f ∧ valid_fields f
       ∧ h = format_salt f
               ++ radix64 31 (eksblowfish (cost f) (salt22 f) (take 72 password)).
Proof.
  unfold hashpw. destruct (parse_salt salt) as [f|] eqn:E; [|done].
  intros [= <-]. exists f. split; [done|]. split; [|done].
  by apply parse_salt_inv in E as [? _].
Qed.

(** A hash is its own salt: hashing again under it reproduces it. *)
Lemma hashpw_again (password salt h : bytes) :
  hashpw password salt = Ok h → hashpw password h = Ok h.
Proof.
  intros (f & _ & Hf & ->)%hashpw_inv.
  unfold hashpw. by rewrite parse_format.
Qed.

Lemma checkpw_own_hash (password salt h : bytes) :
  hashpw password salt = Ok h → checkpw password (Bytes h) = Ok true.
Proof.
  intros Hh. unfold checkpw. rewrite (hashpw_again _ _ _ Hh). simpl.
  by rewrite bool_decide_eq_true_2.
Qed.

Lemma format_salt_length (f : salt_fields) :
  length (format_salt f) = (7 + length (salt22 f))%nat.
Proof. done. Qed.

Lemma hashpw_well_formed (password salt h : bytes) :
  hashpw password salt = Ok h → well_formed h = true.
Proof.
  intros (f & _ & Hf & ->)%hashpw_inv.
  pose proof Hf as (_ & _ & Hl & _).
  unfold well_formed. rewrite (parse_format f _ Hf).
  rewrite bool_decide_eq_true_2 by eauto.
  rewrite length_app, format_salt_length, radix64_length, Hl.
  cbn [Nat.add Nat.eqb andb].
  rewrite drop_app_length' by (rewrite format_salt_length; lia).
  apply radix64_is_radix64.
Qed.

(** Only a well-formed hash is ever accepted. *)
Lemma checkpw_true_well_formed (password h : bytes) :
  checkpw password (Bytes h) = Ok true → well_formed h = true.
Proof.
  unfold checkpw. destruct (hashpw password h) as [again|] eqn:E; [|done].
  simpl. intros [= Heq%bool_decide_eq_true]. subst again.
  by apply hashpw_well_formed in E.
Qed.

Lemma minor_ok_ascii (m : byte) : minor_ok m = true → is_ascii m = true.
Proof.
  unfold minor_ok. intros Hm%bool_decide_eq_true.
  repeat (apply elem_of_cons in Hm as [->|Hm]; [done|]).
  by apply elem_of_nil in Hm.
Qed.

Lemma digit_ascii (n : N) : (n < 10)%N → is_ascii (digit n) = true.
Proof.
  intros Hn. unfold is_ascii, digit. rewrite to_N_octet by lia.
  apply N.ltb_lt. lia.
Qed.

Lemma hashpw_ascii (password salt h : bytes) :
  hashpw password salt = Ok h → forallb is_ascii h = true.
Proof.
  intros (f & _ & (Hm & Hc & Hl & Hs) & ->)%hashpw_inv.
  rewrite forallb_app. apply andb_true_iff. split.
  - unfold format_salt. rewrite forallb_app. simpl.
    rewrite (minor_ok_ascii _ Hm).
    rewrite !digit_ascii; [| apply N.mod_upper_bound; lia
                           | apply N.Div0.div_lt_upper_bound; lia].
    simpl. by apply is_radix64_ascii.
  - apply is_radix64_ascii, radix64_is_radix64.
Qed.

(** [gensalt(12)] never fails, and what it returns is a salt [hashpw]
    accepts. *)
Lemma gensalt_12 (g : entropy) :
  ∃ f, gensalt 12 g = (Ok (format_salt f), (urandom g).2)
       ∧ valid_fields f ∧ f = {| minor := "b"%byte; cost := 12;
                                 salt22 := radix64 22 (urandom g).1 |}.
Proof.
  unfold gensalt. simpl. destruct (urandom g) as [digits g'] eqn:E. simpl.
  eexists. split; [done|]. split; [|done].
  repeat split; simpl; try done; try lia.
  - apply radix64_length.
  - apply radix64_is_radix64.
Qed.

Lemma hashpw_gensalt (password : bytes) (g : entropy) :
  ∃ salt h, gensalt 12 g = (Ok salt, (urandom g).2)
            ∧ hashpw password salt = Ok h.
Proof.
  destruct (gensalt_12 g) as (f & Hg & Hf & _).
  exists (format_salt f). eexists. split; [done|].
  unfold hashpw. pose proof (parse_format f [] Hf) as Hp.
  rewrite app_nil_r in Hp. rewrite Hp. done.
Qed.

(** The key schedule sees 72 bytes at most. *)
Lemma hashpw_take_72 (password salt : bytes) :
  hashpw (take 72 password) salt = hashpw password salt.
Proof. unfold hashpw. by rewrite take_take. Qed.
End BcryptFacts.

(** ** Password hashing and verification *)

Section PasswordFacts.
Import Py Bcrypt Auth.
Context `{Builtins} `{Primitive}.

Lemma truncate_take (b : bytes) :
  (if (72 <? length b)%nat then take 72 b else b) = take 72 b.
Proof.
  destruct (72 <? length b)%nat eqn:E; [done|].
  apply Nat.ltb_ge in E. by rewrite take_ge.
Qed.

(** [except Exception] turns every failure of the body into [False]. *)
Lemma verify_password_outcome (plain hashed : value) :
  ∃ b, outcome (verify_password plain hashed) = Ok b.
Proof.
  unfold verify_password, try_except.
  match goal with |- context [match ?m with _ => _ end] => destruct m as [t [b|e]] end.
  - by exists b.
  - by exists false.
Qed.

Lemma verify_password_str (p h : unicode) (pb hb : bytes) :
  utf8_encode p = Some pb → utf8_encode h = Some hb →
  verify_password (Str p) (Str h) =
  match checkpw (take 72 pb) (Bytes hb) with
  | Ok b => ([], Ok b)
  | Raise e => ([Log ERROR ("Password verification error: " +:+ exn_str e)],
                Ok false)
  end.
Proof.
  intros Hp Hh. unfold verify_password, encode. cbn [lift bind app].
  rewrite Hh. cbn [of_option rbind lift bind app]. rewrite Hp.
  cbn [of_option rbind lift bind app]. rewrite truncate_take.
  by destruct (checkpw _ _).
Qed.

(** What [get_password_hash] computes on a text that has an encoding. *)
Lemma get_password_hash_str (p : unicode) (pb : bytes) (g : entropy) :
  utf8_encode p = Some pb →
  ∃ salt hb h,
    gensalt 12 g = (Ok salt, (urandom g).2)
    ∧ hashpw (take 72 pb) salt = Ok hb
    ∧ utf8_decode hb = Some h ∧ utf8_encode h = Some hb
    ∧ get_password_hash (Str p) g = (([], Ok h), (urandom g).2).
Proof.
  intros Hp.
  destruct (hashpw_gensalt (take 72 pb) g) as (salt & hb & Hg & Hh).
  pose proof (hashpw_ascii _ _ _ Hh) as Hascii.
  exists salt, hb, (Byte.to_N <$> hb).
  rewrite utf8_decode_ascii, utf8_encode_ascii by done.
  repeat split; try done.
  unfold get_password_hash, encode. rewrite Hp. cbn [of_option].
  rewrite truncate_take, Hg. cbn [rbind]. rewrite Hh. cbn [rbind].
  unfold decode. rewrite utf8_decode_ascii by done. done.
Qed.

(** A stored hash that bcrypt would not have produced is never accepted. *)
Lemma verify_password_malformed (plain : value) (h : bytes) :
  well_formed h = false →
  outcome (verify_password plain (Bytes h)) = Ok false.
Proof.
  intros Hwf. unfold verify_password, try_except.
  match goal with |- context [match ?m with _ => _ end] =>
    destruct m as [t [b|e]] eqn:E end; [|done].
  destruct b; [|done]. exfalso.
  assert (∃ pw, checkpw pw (Bytes h) = Ok true) as [pw Hpw].
  { destruct plain as [s|b| |z]; cbn [lift bind] in E; try done.
    - destruct (encode s) as [pb|]; cbn [lift bind] in E; [|done].
      destruct (checkpw _ (Bytes h)) as [[]|] eqn:Ec; [eauto|done|done].
    - destruct (encode (decode_ignore b)) as [pb|]; cbn [lift bind] in E; [|done].
      destruct (checkpw _ (Bytes h)) as [[]|] eqn:Ec; [eauto|done|done]. }
  apply checkpw_true_well_formed in Hpw. congruence.
Qed.

Lemma verify_password_malformed_str (plain : value) (s : unicode) (h : bytes) :
  encode s = Ok h → well_formed h = false →
  outcome (verify_password plain (Str s)) = Ok false.
Proof.
  intros Hs Hwf.
  pose proof (verify_password_malformed plain h Hwf) as Hb.
  unfold verify_password in *. rewrite Hs. cbn [rbind]. exact Hb.
Qed.
End PasswordFacts.

Section PasswordClaims.
Import Py Bcrypt Auth.
Context `{Builtins} `{Primitive}.

(** C5.  For every password [p] that has a UTF-8 encoding, of whatever
    length (72 bytes or fewer, or more), and whatever salt the entropy
    source yields, [get_password_hash p] returns a hash [h] without
    raising, and [verify_password p h] returns [True]. *)
Theorem verify_password_accepts_own_hash (p : unicode) (g : entropy) :
  is_Some (utf8_encode p) →
  ∃ h, (get_password_hash (Str p) g).1 = ([], Ok h)
       ∧ verify_password (Str p) (Str h) = ([], Ok true).
Proof.
  intros [pb Hp].
  destruct (get_password_hash_str p pb g Hp)
    as (salt & hb & h & _ & Hh & _ & He & Hget).
  exists h. rewrite Hget. split; [done|].
  rewrite (verify_password_str p h pb hb Hp He).
  by rewrite (checkpw_own_hash _ _ _ Hh).
Qed.

(** C6, as amended.  Hashing is salted: for a password [p] whose encoding
    exceeds 72 bytes and a text [p'] whose encoding is the first 72 bytes
    of it, [get_password_hash] returns the same hash for both when both
    calls draw the same salt, and that hash verifies each of the two. *)
Theorem get_password_hash_truncation (p p' : unicode) (b : bytes) (g : entropy) :
  utf8_encode p = Some b → (72 < length b)%nat →
  utf8_encode p' = Some (take 72 b) →
  get_password_hash (Str p) g = get_password_hash (Str p') g
  ∧ ∃ h, (get_password_hash (Str p) g).1 = ([], Ok h)
         ∧ verify_password (Str p) (Str h) = ([], Ok true)
         ∧ verify_password (Str p') (Str h) = ([], Ok true).
Proof.
  intros Hp Hlen Hp'.
  destruct (get_password_hash_str p b g Hp)
    as (salt & hb & h & Hg & Hh & Hd & He & Hget).
  destruct (get_password_hash_str p' (take 72 b) g Hp')
    as (salt' & hb' & h' & Hg' & Hh' & Hd' & He' & Hget').
  assert (Htt : take 72 (take 72 b) = take 72 b) by by rewrite take_take.
  rewrite Htt in Hh'. rewrite Hg in Hg'. injection Hg' as <-.
  rewrite Hh in Hh'. injection Hh' as <-.
  assert (h' = h) as -> by (apply (inj Some); congruence).
  split; [congruence|]. exists h. rewrite Hget. split; [done|].
  rewrite (verify_password_str p h b hb Hp He).
  rewrite (verify_password_str p' h (take 72 b) hb Hp' He).
  rewrite Htt. by rewrite (checkpw_own_hash _ _ _ Hh).
Qed.

(** C7.  [verify_password] never raises: on any two arguments it returns a
    boolean, and when the stored hash, given as bytes or as text, is not a
    well-formed bcrypt hash, that boolean is [False]. *)
Theorem verify_password_total (plain hashed : value) :
  (∃ b, outcome (verify_password plain hashed) = Ok b)
  ∧ (∀ h, hashed = Bytes h → well_formed h = false →
          outcome (verify_password plain hashed) = Ok false)
  ∧ (∀ s h, hashed = Str s → utf8_encode s = Some h → well_formed h = false →
            outcome (verify_password plain hashed) = Ok false).
Proof.
  split; [apply verify_password_outcome|]. split.
  - intros h -> Hwf. by apply verify_password_malformed.
  - intros s h -> Hs Hwf. apply (verify_password_malformed_str plain s h); [|done].
    unfold encode. by rewrite Hs.
Qed.
End PasswordClaims.

Section PasswordExamples.
Import Py Bcrypt Auth Reference.

Lemma verify_password_accepts_own_hash_witness :
  is_Some (utf8_encode long_password)
  ∧ ∃ h, (get_password_hash (Str long_password) boot).1 = ([], Ok h)
         ∧ verify_password (Str long_password) (Str h) = ([], Ok true).
Proof.
  split; [vm_compute; eauto|].
  apply verify_password_accepts_own_hash. vm_compute; eauto.
Defined.

Lemma get_password_hash_truncation_witness :
  get_password_hash (Str seventy_three) boot
    = get_password_hash (Str seventy_two) boot
  ∧ ∃ h, (get_password_hash (Str seventy_three) boot).1 = ([], Ok h)
         ∧ verify_password (Str seventy_three) (Str h) = ([], Ok true)
         ∧ verify_password (Str seventy_two) (Str h) = ([], Ok true).
Proof.
  apply (get_password_hash_truncation seventy_three seventy_two
           (replicate 73 "a"%byte) boot); [done| |done].
  vm_compute. lia.
Defined.

(** C6 as stated fails: two calls draw two salts, so hashing a 73-byte
    password and then its first 72 bytes gives two different strings. *)
Lemma get_password_hash_truncation_counterexample :
  utf8_encode seventy_three = Some (replicate 73 "a"%byte)
  ∧ utf8_encode seventy_two = Some (take 72 (replicate 73 "a"%byte))
  ∧ ∃ h1 g1 h2 g2,
      get_password_hash (Str seventy_three) boot = (([], Ok h1), g1)
      ∧ get_password_hash (Str seventy_two) g1 = (([], Ok h2), g2)
      ∧ h1 ≠ h2.
Proof.
  split; [done|]. split; [done|].
  do 4 eexists. split; [vm_compute; reflexivity|].
  split; [vm_compute; reflexivity|]. discriminate.
Qed.

Lemma verify_password_total_witness :
  well_formed (String.list_byte_of_string "$2b$12$tooshort") = false
  ∧ outcome (verify_password (Str (text "hunter2"))
               (Bytes (String.list_byte_of_string "$2b$12$tooshort")))
    = Ok false.
Proof.
  split; [done|].
  destruct (verify_password_total (Str (text "hunter2"))
              (Bytes (String.list_byte_of_string "$2b$12$tooshort")))
    as (_ & Hbytes & _).
  by apply (Hbytes (String.list_byte_of_string "$2b$12$tooshort")).
Defined.
End PasswordExamples.

(** ** Tokens *)

Section JoseFacts.
Import Py Jose.
Context `{Builtins} `{B : Backend}.

(** What [int] of a claim can raise. *)
Lemma py_int_raises (v : json) (e : exn) :
  py_int v = Raise e →
  (∃ msg, e = ValueError msg) ∨ (∃ msg, e = TypeError msg)
  ∨ (∃ msg, e = OverflowError msg).
Proof.
  destruct v as [|b|s|z|printed [z| |]|t|printed|printed]; cbn [py_int];
    try (intros [= <-]; eauto); try done.
  destruct (int_of s); cbn [of_option]; [done|]. intros [= <-]. eauto.
Qed.

Lemma numeric_date_raises (what : string) (v : json) (e : exn) :
  numeric_date what v = Raise e →
  is_JWTError e = true ∨ (∃ msg, e = TypeError msg)
  ∨ (∃ msg, e = OverflowError msg).
Proof.
  unfold numeric_date. destruct (py_int v) as [z|e'] eqn:E; [done|].
  destruct (py_int_raises v e' E) as [[msg ->]|[[msg ->]|[msg ->]]];
    intros [= <-]; eauto.
Qed.

(** The validation of the claims raises [JWTError] and its subclasses, or
    lets through what [int] raised on a claim. *)
Lemma validate_claims_raises (c : gmap string json) (now : Z) (e : exn) :
  validate_claims c now = Raise e →
  is_JWTError e = true ∨ (∃ msg, e = TypeError msg)
  ∨ (∃ msg, e = OverflowError msg).
Proof.
  unfold validate_claims, validate_iat, validate_nbf, validate_exp.
  destruct (c !! "iat") as [iat|]; cbn [rbind].
  - destruct (numeric_date _ iat) as [z|e'] eqn:E; cbn [rbind];
      [|intros [= <-]; by apply numeric_date_raises in E].
    destruct (c !! "nbf") as [nbf|]; cbn [rbind].
    + destruct (numeric_date _ nbf) as [z'|e'] eqn:E'; cbn [rbind];
        [|intros [= <-]; by apply numeric_date_raises in E'].
      destruct (_ <? z')%Z; cbn [rbind]; [intros [= <-]; by left|].
      destruct (c !! "exp") as [exp|]; cbn [rbind].
      * destruct (numeric_date _ exp) as [z''|e'] eqn:E''; cbn [rbind];
          [|intros [= <-]; by apply numeric_date_raises in E''].
        destruct (z'' <? _)%Z; cbn [rbind]; [intros [= <-]; by left|].
        unfold validate_aud, validate_str, validate_at_hash.
        repeat case_match; cbn [rbind]; intros [= <-]; by left.
      * unfold validate_aud, validate_str, validate_at_hash.
        repeat case_match; cbn [rbind]; intros [= <-]; by left.
    + destruct (c !! "exp") as [exp|]; cbn [rbind].
      * destruct (numeric_date _ exp) as [z''|e'] eqn:E''; cbn [rbind];
          [|intros [= <-]; by apply numeric_date_raises in E''].
        destruct (z'' <? _)%Z; cbn [rbind]; [intros [= <-]; by left|].
        unfold validate_aud, validate_str, validate_at_hash.
        repeat case_match; cbn [rbind]; intros [= <-]; by left.
      * unfold validate_aud, validate_str, validate_at_hash.
        repeat case_match; cbn [rbind]; intros [= <-]; by left.
  - destruct (c !! "nbf") as [nbf|]; cbn [rbind].
    + destruct (numeric_date _ nbf) as [z'|e'] eqn:E'; cbn [rbind];
        [|intros [= <-]; by apply numeric_date_raises in E'].
      destruct (_ <? z')%Z; cbn [rbind]; [intros [= <-]; by left|].
      destruct (c !! "exp") as [exp|]; cbn [rbind].
      * destruct (numeric_date _ exp) as [z''|e'] eqn:E''; cbn [rbind];
          [|intros [= <-]; by apply numeric_date_raises in E''].
        destruct (z'' <? _)%Z; cbn [rbind]; [intros [= <-]; by left|].
        unfold validate_aud, validate_str, validate_at_hash.
        repeat case_match; cbn [rbind]; intros [= <-]; by left.
      * unfold validate_aud, validate_str, validate_at_hash.
        repeat case_match; cbn [rbind]; intros [= <-]; by left.
    + destruct (c !! "exp") as [exp|]; cbn [rbind].
      * destruct (numeric_date _ exp) as [z''|e'] eqn:E''; cbn [rbind];
          [|intros [= <-]; by apply numeric_date_raises in E''].
        destruct (z'' <? _)%Z; cbn [rbind]; [intros [= <-]; by left|].
        unfold validate_aud, validate_str, validate_at_hash.
        repeat case_match; cbn [rbind]; intros [= <-]; by left.
      * unfold validate_aud, validate_str, validate_at_hash.
        repeat case_match; cbn [rbind]; intros [= <-]; by left.
Qed.

(** [decode] raises [JWTError] or a subclass, or lets through the
    [JWKError] of the key and what [int] raised on a claim. *)
Lemma decode_raises (t : token) (key : option string)
    (algorithms : list (option string)) (now : Z) (e : exn) :
  decode t key algorithms now = Raise e →
  is_JWTError e = true ∨ (∃ msg, e = JWKError msg) ∨ (∃ msg, e = TypeError msg)
  ∨ (∃ msg, e = OverflowError msg).
Proof.
  unfold decode. destruct t as [j|text]; [|intros [= <-]; by left].
  destruct (header_alg j) as [alg|]; [|intros [= <-]; by left].
  case_bool_decide; [|intros [= <-]; by left].
  destruct (construct alg key) as [k|e'] eqn:Hk; cbn [rbind].
  - destruct (verify alg k _ _); [|intros [= <-]; by left].
    destruct (payload j) as [c|]; [|intros [= <-]; by left].
    destruct (validate_claims c now) eqn:E; cbn [rbind]; [done|].
    intros [= <-]. apply validate_claims_raises in E as [?|[?|?]]; auto.
  - intros [= <-]. unfold construct in Hk. right. left.
    destruct key as [k|]; [destruct (_ && _); [done|]|]; injection Hk as <-; eauto.
Qed.

(** In particular it never raises an [HTTPException]. *)
Lemma decode_not_http (t : token) (key : option string)
    (algorithms : list (option string)) (now : Z) (e : exn) :
  decode t key algorithms now = Raise e → is_HTTPException e = false.
Proof.
  intros [He|[[msg ->]|[[msg ->]|[msg ->]]]]%decode_raises; try done.
  by destruct e.
Qed.



(** The claims of a token issued for a subject and a principal type. *)
Lemma issued_claims_valid (s t : string) (exp now : Z) :
  (timegm now ≤ exp)%Z →
  validate_claims
    (<["exp" := JInt exp]> {[ "sub" := JStr s; "type" := JStr t ]}) now = Ok tt.
Proof.
  intros Hexp.
  unfold validate_claims, validate_iat, validate_nbf, validate_exp,
    validate_aud, validate_str, validate_at_hash.
  simplify_map_eq. cbn [numeric_date py_int rbind].
  destruct (exp <? timegm now)%Z eqn:E; [apply Z.ltb_lt in E; lia|].
  done.
Qed.

(** The sum of two datetimes' distance is a [timedelta]. *)
Lemma timedelta_minutes_in_range (m t : Z) :
  (datetime_min ≤ t ≤ datetime_max)%Z →
  (datetime_min ≤ t + minutes m ≤ datetime_max)%Z →
  timedelta_minutes m = Ok (minutes m)
  ∧ datetime_add t (minutes m) = Ok (t + minutes m)%Z.
Proof.
  unfold timedelta_minutes, datetime_add, minutes, datetime_min, datetime_max.
  intros Ht Hsum.
  assert (Hlo : (-999999999 ≤ m * 60000000 / 86400000000)%Z).
  { apply Z.div_le_lower_bound; lia. }
  assert (Hhi : (m * 60000000 / 86400000000 ≤ 999999999)%Z).
  { apply Z.div_le_upper_bound; lia. }
  rewrite (proj2 (Z.ltb_ge _ _)) by lia.
  rewrite (proj2 (Z.ltb_ge _ _)) by lia. cbn [orb].
  rewrite (proj2 (Z.ltb_ge _ _)) by lia.
  rewrite (proj2 (Z.ltb_ge _ _)) by lia. done.
Qed.
End JoseFacts.

Section TokenClaims.
Import Py Models Auth.
Context `{Builtins} `{B : Jose.Backend}.

(** C1.  With a configured secret and a supported algorithm whose key
    class accepts the secret and can sign, for every subject [s], every
    principal type [t] (["user"], ["admin"], or any other string) and every
    clock [now] from which the expiration is still a [datetime]: the token
    [create_access_token] issues at [now] for [{sub: s, type: t}] decodes,
    under the same secret and algorithm and at any clock [now'] not past
    its expiration, to claims whose subject is [s] and whose type is [t]. *)
Theorem token_round_trip (cfg : Settings) (k alg s t : string) (now now' : Z) :
  Jose.sound B →
  SECRET_KEY cfg = Some k → ALGORITHM cfg = Some alg →
  alg ∈ Jose.SUPPORTED →
  Jose.constructs alg k = true →
  (∀ m, is_Some (Jose.sign alg k m)) →
  (datetime_min ≤ now ≤ datetime_max)%Z →
  (datetime_min ≤ now + Jose.minutes (ACCESS_TOKEN_EXPIRE_MINUTES cfg)
   ≤ datetime_max)%Z →
  (Jose.timegm now'
     ≤ Jose.timegm (now + Jose.minutes (ACCESS_TOKEN_EXPIRE_MINUTES cfg)))%Z →
  ∃ token payload,
    create_access_token cfg {[ "sub" := JStr s; "type" := JStr t ]} now = Ok token
    ∧ Jose.decode token (SECRET_KEY cfg) [ALGORITHM cfg] now' = Ok payload
    ∧ py_get payload "sub" = JStr s
    ∧ py_get payload "type" = JStr t.
Proof.
  intros Hsound Hk Halg Hsup Hcons Hsign Hnow Hrange Hexp.
  set (exp := Jose.timegm (now + Jose.minutes (ACCESS_TOKEN_EXPIRE_MINUTES cfg))) in *.
  set (c := <["exp" := JInt exp]>
              ({[ "sub" := JStr s; "type" := JStr t ]} : gmap string json)).
  destruct (Hsign (Some alg, Some c)) as [sg Hsg].
  assert (Hkey : Jose.construct alg (Some k) = Ok k).
  { unfold Jose.construct. by rewrite bool_decide_eq_true_2, Hcons by done. }
  exists (Jose.Compact {| Jose.header_alg := Some alg; Jose.payload := Some c;
                          Jose.signature := sg |}), c.
  split; [|split; [|split]].
  - unfold create_access_token.
    destruct (timedelta_minutes_in_range (ACCESS_TOKEN_EXPIRE_MINUTES cfg) now
                Hnow Hrange) as [Hdelta Hsum].
    rewrite Hdelta. cbn [rbind]. rewrite Hsum. cbn [rbind].
    unfold Jose.encode. rewrite Hk, Halg.
    assert (Hc : Jose.intdate "nbf" (Jose.intdate "iat" (Jose.intdate "exp"
              (<["exp" := JDatetime (now + Jose.minutes
                                            (ACCESS_TOKEN_EXPIRE_MINUTES cfg))]>
                 {[ "sub" := JStr s; "type" := JStr t ]}))) = c).
    { unfold Jose.intdate at 3. rewrite lookup_insert_eq, insert_insert_eq.
      fold exp. fold c. unfold Jose.intdate, c. by simplify_map_eq. }
    rewrite Hc. rewrite bool_decide_eq_true_2 by done.
    assert (Hser : Jose.serializable c = true).
    { unfold Jose.serializable, c. apply bool_decide_eq_true.
      repeat apply map_Forall_insert_2; try done; by apply map_Forall_singleton. }
    rewrite Hser, Hkey, Hsg. done.
  - unfold Jose.decode. cbn [Jose.header_alg Jose.payload Jose.signature].
    rewrite Hk, Halg. rewrite bool_decide_eq_true_2 by apply list_elem_of_here.
    rewrite Hkey. cbn [rbind]. rewrite (Hsound _ _ _ _ Hsg).
    unfold c. by rewrite issued_claims_valid.
  - unfold py_get, c. by simplify_map_eq.
  - unfold py_get, c. by simplify_map_eq.
Qed.
End TokenClaims.

(** ** Resolution of the principal *)

Section ResolverFacts.
Import Py Models Auth.
Context `{Builtins} `{B : Jose.Backend}.

(** With unique usernames the query by username finds the record. *)
Lemma find_by_username (l : list Admin) (a : Admin) :
  a ∈ l → NoDup (admin_username <$> l) →
  find (λ x, bool_decide (JStr (admin_username x) = JStr (admin_username a))) l
  = Some a.
Proof.
  induction l as [|x l IH]; intros Hin Hnd; [by apply elem_of_nil in Hin|].
  rewrite fmap_cons in Hnd. apply NoDup_cons in Hnd as [Hx Hnd].
  cbn [find]. case_bool_decide as Heq.
  - apply elem_of_cons in Hin as [->|Hin]; [done|].
    exfalso. apply Hx. injection Heq as ->.
    apply list_elem_of_fmap. eauto.
  - apply elem_of_cons in Hin as [->|Hin]; [done|]. by apply IH.
Qed.

(** What is left of [get_current_admin] once the token has passed. *)
Lemma get_current_admin_lookup (cfg : Settings) (token : Jose.token)
    (db : Session) (now : Z) (payload : gmap string json) (u : string) :
  Jose.decode token (SECRET_KEY cfg) [ALGORITHM cfg] now = Ok payload →
  py_get payload "sub" = JStr u → py_get payload "type" = JStr "admin" →
  get_current_admin cfg token db now =
  match find (λ a, bool_decide (JStr (admin_username a) = JStr u)) (admins db) with
  | None =>
      ([Query "admins" (JStr u);
        Log WARNING ("Admin not found for username: " +:+ u)],
       Raise (HTTPException 401 "Could not validate admin credentials"
                [("WWW-Authenticate", "Bearer")]))
  | Some admin =>
      if admin_is_active admin then
        match admin_role admin with
        | Some role =>
            ([Query "admins" (JStr u);
              Log DEBUG ("Admin " +:+ admin_username admin
                           +:+ " loaded with role: " +:+ role_name role
                           +:+ ", permissions: "
                           +:+ repr_list (role_permissions role))],
             Ok admin)
        | None =>
            ([Query "admins" (JStr u);
              Log WARNING ("Admin " +:+ admin_username admin
                             +:+ " has no role assigned (role_id: "
                             +:+ from_option pretty "None" (admin_role_id admin)
                             +:+ ")")],
             Ok admin)
        end
      else ([Query "admins" (JStr u)],
            Raise (HTTPException 403 "Admin account is inactive" []))
  end.
Proof.
  intros Hdec Hsub Htype. unfold get_current_admin.
  rewrite Hdec. cbn [lift bind try_except app]. rewrite Hsub, Htype.
  rewrite bool_decide_eq_false_2 by done.
  rewrite bool_decide_eq_false_2 by (intros Hne; by apply Hne).
  cbn [orb ret bind try_except app].
  destruct (find _ (admins db)) as [admin|]; cbn [log raise bind app json_str];
    [|done].
  destruct (admin_is_active admin); cbn [negb raise]; [|done].
  by destruct (admin_role admin).
Qed.

(** What the two resolvers do when [decode] raises: a [JWTError] becomes
    the 401, anything else leaves the resolver as it is. *)
Lemma get_current_user_on_error (cfg : Settings) (token : Jose.token)
    (db : Session) (now : Z) (e : exn) :
  Jose.decode token (SECRET_KEY cfg) [ALGORITHM cfg] now = Raise e →
  get_current_user cfg token db now
  = ([], Raise (if is_JWTError e
                then HTTPException 401 "Could not validate user credentials"
                       [("WWW-Authenticate", "Bearer")]
                else e)).
Proof.
  intros Hdec. unfold get_current_user. rewrite Hdec.
  cbn [lift bind try_except app]. by destruct (is_JWTError e).
Qed.

Lemma get_current_admin_on_error (cfg : Settings) (token : Jose.token)
    (db : Session) (now : Z) (e : exn) :
  Jose.decode token (SECRET_KEY cfg) [ALGORITHM cfg] now = Raise e →
  get_current_admin cfg token db now
  = if is_JWTError e
    then ([Log ERROR ("JWT decode error: " +:+ exn_str e)],
          Raise (HTTPException 401 "Could not validate admin credentials"
                   [("WWW-Authenticate", "Bearer")]))
    else ([], Raise e).
Proof.
  intros Hdec. unfold get_current_admin. rewrite Hdec.
  cbn [lift bind try_except app]. by destruct (is_JWTError e).
Qed.
End ResolverFacts.

Section ResolverClaims.
Import Py Models Auth.
Context `{Builtins} `{B : Jose.Backend}.

(** C2.  For every admin record of the table whose active flag is false
    and every token that decodes (valid signature, not expired) to type
    [admin] with that admin's username as subject, [get_current_admin]
    raises HTTP 403, not 401, and does so after the query by username has
    been sent and has found the record. *)
Theorem get_current_admin_inactive (cfg : Settings) (token : Jose.token)
    (db : Session) (now : Z) (payload : gmap string json) (a : Admin) :
  Jose.decode token (SECRET_KEY cfg) [ALGORITHM cfg] now = Ok payload →
  py_get payload "sub" = JStr (admin_username a) →
  py_get payload "type" = JStr "admin" →
  a ∈ admins db → NoDup (admin_username <$> admins db) →
  admin_is_active a = false →
  find (λ x, bool_decide (JStr (admin_username x) = JStr (admin_username a)))
    (admins db) = Some a
  ∧ get_current_admin cfg token db now =
    ([Query "admins" (JStr (admin_username a))],
     Raise (HTTPException 403 "Admin account is inactive" [])).
Proof.
  intros Hdec Hsub Htype Hin Hnd Hact.
  pose proof (find_by_username _ _ Hin Hnd) as Hfind. split; [done|].
  rewrite (get_current_admin_lookup _ _ _ _ _ _ Hdec Hsub Htype).
  by rewrite Hfind, Hact.
Qed.

(** C8.  For every active admin record of the table that references no
    role and every token that decodes to type [admin] with that admin's
    username as subject, [get_current_admin] returns the record, role
    absent, and logs one warning. *)
Theorem get_current_admin_without_role (cfg : Settings) (token : Jose.token)
    (db : Session) (now : Z) (payload : gmap string json) (a : Admin) :
  Jose.decode token (SECRET_KEY cfg) [ALGORITHM cfg] now = Ok payload →
  py_get payload "sub" = JStr (admin_username a) →
  py_get payload "type" = JStr "admin" →
  a ∈ admins db → NoDup (admin_username <$> admins db) →
  admin_is_active a = true → admin_role a = None →
  get_current_admin cfg token db now =
  ([Query "admins" (JStr (admin_username a));
    Log WARNING ("Admin " +:+ admin_username a
                   +:+ " has no role assigned (role_id: "
                   +:+ from_option pretty "None" (admin_role_id a) +:+ ")")],
   Ok a).
Proof.
  intros Hdec Hsub Htype Hin Hnd Hact Hrole.
  rewrite (get_current_admin_lookup _ _ _ _ _ _ Hdec Hsub Htype).
  by rewrite (find_by_username _ _ Hin Hnd), Hact, Hrole.
Qed.

(** C4.  For every token that decodes to claims whose type is not
    ["user"] (["admin"], absent, any other value), and for every token that
    jose refuses with a [JWTError], [get_current_user] raises HTTP 401
    whatever the database holds, and sends no query: the type is checked
    before any lookup. *)
Theorem get_current_user_type_first (cfg : Settings) (token : Jose.token)
    (db : Session) (now : Z) :
  match Jose.decode token (SECRET_KEY cfg) [ALGORITHM cfg] now with
  | Ok payload => py_get payload "type" ≠ JStr "user"
  | Raise e => is_JWTError e = true
  end →
  get_current_user cfg token db now =
  ([], Raise (HTTPException 401 "Could not validate user credentials"
                [("WWW-Authenticate", "Bearer")])).
Proof.
  destruct (Jose.decode token (SECRET_KEY cfg) [ALGORITHM cfg] now)
    as [payload|e] eqn:Hdec.
  - intros Htype. unfold get_current_user. rewrite Hdec.
    cbn [lift bind try_except app].
    rewrite (bool_decide_eq_true_2 (py_get payload "type" ≠ JStr "user")) by done.
    rewrite orb_true_r. done.
  - intros He. rewrite (get_current_user_on_error _ _ _ _ _ Hdec). by rewrite He.
Qed.
End ResolverClaims.

(** ** The resolvers of the router modules *)

Section RouterFacts.
Import Py Models.
Context `{Builtins} `{B : Jose.Backend}.

Lemma router_resolver_accepts (cfg : RouterSettings.t) (token : Jose.token)
    (db : Session) (now : Z) (payload : gmap string json) (a : Admin) :
  Jose.decode token (RouterSettings.SECRET_KEY cfg)
    [RouterSettings.ALGORITHM cfg] now = Ok payload →
  py_get payload "sub" = JStr (admin_username a) →
  py_get payload "type" = JStr "admin" →
  a ∈ admins db → NoDup (admin_username <$> admins db) →
  AdminResolver.get_current_admin cfg token db now =
  ([Log DEBUG ("Validating token: "
                 +:+ String.substring 0 10 (Jose.token_text token) +:+ "...");
    Log DEBUG ("Token payload: " +:+ repr_dict payload);
    Query "admins" (JStr (admin_username a));
    Log DEBUG ("Authenticated admin: " +:+ admin_username a)],
   Ok a).
Proof.
  intros Hdec Hsub Htype Hin Hnd. unfold AdminResolver.get_current_admin.
  rewrite Hdec. cbn [lift log bind try_except app]. rewrite Hsub, Htype.
  rewrite bool_decide_eq_false_2 by done.
  rewrite bool_decide_eq_false_2 by (intros Hne; by apply Hne).
  cbn [orb]. rewrite (find_by_username _ _ Hin Hnd).
  done.
Qed.

(** What the resolver does when [decode] raises. *)
Lemma router_resolver_on_error (cfg : RouterSettings.t) (token : Jose.token)
    (db : Session) (now : Z) (e : exn) :
  Jose.decode token (RouterSettings.SECRET_KEY cfg)
    [RouterSettings.ALGORITHM cfg] now = Raise e →
  AdminResolver.get_current_admin cfg token db now
  = if is_JWTError e
    then ([Log DEBUG ("Validating token: "
                        +:+ String.substring 0 10 (Jose.token_text token)
                        +:+ "...");
           Log ERROR ("JWT decode error: " +:+ exn_str e)],
          Raise (HTTPException 401 "Could not validate admin credentials"
                   [("WWW-Authenticate", "Bearer")]))
    else ([Log DEBUG ("Validating token: "
                        +:+ String.substring 0 10 (Jose.token_text token)
                        +:+ "...")],
          Raise e).
Proof.
  intros Hdec. unfold AdminResolver.get_current_admin. rewrite Hdec.
  cbn [lift log bind try_except app]. by destruct (is_JWTError e).
Qed.

(** The resolver raises its 401, or what [decode] raised and it did not
    catch. *)
Lemma router_resolver_raises (cfg : RouterSettings.t) (token : Jose.token)
    (db : Session) (now : Z) (e : exn) :
  outcome (AdminResolver.get_current_admin cfg token db now) = Raise e →
  e = HTTPException 401 "Could not validate admin credentials"
        [("WWW-Authenticate", "Bearer")]
  ∨ (Jose.decode token (RouterSettings.SECRET_KEY cfg)
       [RouterSettings.ALGORITHM cfg] now = Raise e
     ∧ is_JWTError e = false).
Proof.
  destruct (Jose.decode token (RouterSettings.SECRET_KEY cfg)
              [RouterSettings.ALGORITHM cfg] now) as [payload|e'] eqn:Hdec.
  - unfold AdminResolver.get_current_admin. rewrite Hdec.
    cbn [lift log bind try_except app].
    destruct (bool_decide (py_get payload "sub" = JNull)
              || bool_decide (py_get payload "type" ≠ JStr "admin"));
      cbn [log raise bind try_except app is_JWTError outcome snd].
    + intros [= <-]. by left.
    + destruct (find _ (admins db));
        cbn [log raise ret bind try_except app is_JWTError outcome snd].
      * done.
      * intros [= <-]. by left.
  - rewrite (router_resolver_on_error _ _ _ _ _ Hdec).
    destruct (is_JWTError e') eqn:He; cbn [outcome snd]; intros [= <-]; auto.
Qed.
End RouterFacts.

Section RouterClaims.
Import Py Models.
Context `{Builtins} `{B : Jose.Backend}.

(** C3.  The resolver each of the four router modules defines for itself
    never looks at the active flag.  For every token that decodes to type
    [admin] with the username of an admin record of the table as subject,
    it returns that record, active or not; and the only exception it ever
    raises is HTTP 401, never 403. *)
Theorem router_resolvers_skip_active_flag
    (resolver : RouterSettings.t → Jose.token → Session → Z → io Admin) :
  resolver ∈ [AdminGallery.get_current_admin; AdminLeadership.get_current_admin;
              AdminNews.get_current_admin; AdminSubscriber.get_current_admin] →
  (∀ cfg token db now payload a,
     Jose.decode token (RouterSettings.SECRET_KEY cfg)
       [RouterSettings.ALGORITHM cfg] now = Ok payload →
     py_get payload "sub" = JStr (admin_username a) →
     py_get payload "type" = JStr "admin" →
     a ∈ admins db → NoDup (admin_username <$> admins db) →
     outcome (resolver cfg token db now) = Ok a)
  ∧ (∀ cfg token db now status_code detail headers,
       outcome (resolver cfg token db now)
         = Raise (HTTPException status_code detail headers) →
       status_code = 401%Z).
Proof.
  intros Hin.
  assert (resolver = AdminResolver.get_current_admin) as ->.
  { repeat (apply elem_of_cons in Hin as [->|Hin]; [reflexivity|]).
    by apply elem_of_nil in Hin. }
  split.
  - intros cfg token db now payload a Hdec Hsub Htype Ha Hnd.
    by rewrite (router_resolver_accepts _ _ _ _ _ _ Hdec Hsub Htype Ha Hnd).
  - intros cfg token db now status_code detail headers Hraise.
    apply router_resolver_raises in Hraise as [Heq|[Hdec _]].
    + by injection Heq as -> _ _.
    + by apply decode_not_http in Hdec.
Qed.
End RouterClaims.

(** ** Start-up without a secret *)

Section StartupClaims.
Import Py Models Auth.
Context `{Builtins} `{B : Jose.Backend}.

End StartupClaims.

(** ** Slug allocation *)

Section SlugFacts.
Import Py Models AdminNews NewsSpec.

Lemma string_length_app (a b : string) :
  String.length (a +:+ b) = (String.length a + String.length b)%nat.
Proof. induction a as [|c a IH]; simpl; [done|]. by rewrite IH. Qed.

Lemma candidate_inj (base_slug : string) (i j : Z) :
  candidate base_slug i = candidate base_slug j → i = j.
Proof.
  unfold candidate. do 2 case_bool_decide; subst; try done.
  - intros Heq. apply (f_equal String.length) in Heq.
    rewrite !string_length_app in Heq. simpl in Heq. lia.
  - intros Heq. apply (f_equal String.length) in Heq.
    rewrite !string_length_app in Heq. simpl in Heq. lia.
  - intros Heq%(inj (String.append base_slug))%(inj (String.append "-")).
    by apply (inj pretty).
Qed.

Lemma first_with_slug_None (db : Session) (slug : string) (news_id : option Z) :
  first_with_slug db slug news_id = None
  ↔ ∀ r, r ∈ news db → ¬ hits news_id slug r.
Proof.
  unfold first_with_slug, hits. rewrite head_None. split.
  - intros Hnil r Hr [Hslug Hid].
    assert (Hin : r ∈ filter (λ r, news_slug r = slug) (news db))
      by by apply list_elem_of_filter.
    destruct (truthy news_id).
    + assert (r ∈ filter (λ r, Some (Models.news_id r) ≠ news_id)
                    (filter (λ r, news_slug r = slug) (news db))) as Hin'
        by (apply list_elem_of_filter; auto).
      rewrite Hnil in Hin'. by apply elem_of_nil in Hin'.
    + rewrite Hnil in Hin. by apply elem_of_nil in Hin.
  - intros Hfree. destruct (truthy news_id).
    + apply elem_of_nil_inv. intros r Hr.
      apply list_elem_of_filter in Hr as [Hid Hr].
      apply list_elem_of_filter in Hr as [Hslug Hr].
      apply (Hfree r Hr). by split.
    + apply elem_of_nil_inv. intros r Hr.
      apply list_elem_of_filter in Hr as [Hslug Hr].
      apply (Hfree r Hr). split; [done|]. by intros [=].
Qed.

Lemma first_with_slug_Some (db : Session) (slug : string) (news_id : option Z)
    (r : News) :
  first_with_slug db slug news_id = Some r → r ∈ news db ∧ hits news_id slug r.
Proof.
  unfold first_with_slug, hits. intros Hr%head_Some_elem_of.
  destruct (truthy news_id).
  - apply list_elem_of_filter in Hr as [Hid Hr].
    apply list_elem_of_filter in Hr as [Hslug Hr]. auto.
  - apply list_elem_of_filter in Hr as [Hslug Hr]. split; [done|].
    split; [done|]. by intros [=].
Qed.

(** Unless the key is 0 and a row has it, a row that a query hits is a row
    with another key. *)
Lemma hits_other_key (db : Session) (slug : string) (news_id : option Z)
    (r : News) :
  (news_id = Some 0%Z → 0%Z ∉ Models.news_id <$> news db) →
  r ∈ news db → hits news_id slug r → Some (Models.news_id r) ≠ news_id.
Proof.
  intros Hid Hr [_ Hne]. destruct news_id as [n|]; [|done].
  destruct (decide (n = 0%Z)) as [->|Hn].
  - intros [= Hr0]. apply (Hid eq_refl). rewrite <- Hr0.
    by apply list_elem_of_fmap_2.
  - apply Hne. unfold truthy. by apply bool_decide_eq_true.
Qed.

(** Then a query hits exactly the rows that make a slug taken. *)
Lemma first_with_slug_taken (db : Session) (slug : string) (news_id : option Z) :
  (news_id = Some 0%Z → 0%Z ∉ Models.news_id <$> news db) →
  (first_with_slug db slug news_id = None ↔ ¬ taken db news_id slug).
Proof.
  intros Hid. rewrite first_with_slug_None. unfold taken. split.
  - intros Hfree (r & Hr & Hslug & Hne). apply (Hfree r Hr). by split.
  - intros Hfree r Hr Hhit. apply Hfree. exists r.
    split; [done|]. split; [by destruct Hhit|].
    by apply (hits_other_key db slug).
Qed.

(** The loop, started on candidate [k] with the rows that can still hit a
    later candidate counted by [l], returns the first candidate from [k] on
    that no query hits. *)
Lemma unique_slug_loop_first (db : Session) (news_id : option Z)
    (base_slug : string) (fuel : nat) :
  ∀ (l : list News) (k : Z),
    (0 ≤ k)%Z →
    (∀ r j, r ∈ news db → (k ≤ j)%Z →
            hits news_id (candidate base_slug j) r → r ∈ l) →
    (length l < fuel)%nat →
    ∃ j, (k ≤ j)%Z
         ∧ unique_slug_loop fuel db news_id base_slug
             (candidate base_slug k) (k + 1) = Some (candidate base_slug j)
         ∧ first_with_slug db (candidate base_slug j) news_id = None
         ∧ ∀ i, (k ≤ i < j)%Z →
                first_with_slug db (candidate base_slug i) news_id ≠ None.
Proof.
  induction fuel as [|fuel IH]; intros l k Hk Hl Hlen; [lia|].
  cbn [unique_slug_loop].
  destruct (first_with_slug db (candidate base_slug k) news_id) as [r|] eqn:E.
  - apply first_with_slug_Some in E as E'. destruct E' as [Hr Hhit].
    destruct (IH (filter (λ r, news_slug r ≠ candidate base_slug k) l) (k + 1)%Z)
      as (j & Hj & Hloop & Hfree & Hmin).
    + lia.
    + intros r' j' Hr' Hj' Hhit'. apply list_elem_of_filter. split.
      * destruct Hhit' as [-> _]. intros Heq%candidate_inj. lia.
      * apply (Hl r' j'); [done|lia|done].
    + assert (length (filter (λ r, news_slug r ≠ candidate base_slug k) l)
              < length l)%nat; [|lia].
      apply (length_filter_lt _ _ r).
      * apply (Hl r k); [done|lia|done].
      * destruct Hhit as [-> _]. by intros Hne.
    + exists j. split; [lia|]. split.
      * replace (base_slug +:+ "-" +:+ pretty (k + 1)%Z)
          with (candidate base_slug (k + 1)); [done|].
        unfold candidate. rewrite bool_decide_eq_false_2 by lia. done.
      * split; [done|]. intros i Hi.
        destruct (decide (i = k)) as [->|]; [by rewrite E|].
        apply Hmin. lia.
  - exists k. split; [lia|]. split; [done|]. split; [done|]. lia.
Qed.

Context `{NewsModel}.

(** [generate_unique_slug] returns, given enough fuel, the first candidate
    that its query does not hit. *)
Lemma generate_unique_slug_first (db : Session) (title : string)
    (news_id : option Z) (fuel : nat) :
  (length (news db) < fuel)%nat →
  ∃ k, (0 ≤ k)%Z
       ∧ generate_unique_slug fuel db title news_id
         = Some (candidate (generate_slug title) k)
       ∧ first_with_slug db (candidate (generate_slug title) k) news_id = None
       ∧ ∀ i, (0 ≤ i < k)%Z →
              first_with_slug db (candidate (generate_slug title) i) news_id
              ≠ None.
Proof.
  intros Hfuel. unfold generate_unique_slug.
  apply (unique_slug_loop_first db news_id (generate_slug title) fuel
           (news db) 0%Z); [lia| |done].
  by intros r j Hr _ _.
Qed.

(** Whatever the key, no row with another key has the slug returned. *)
Lemma generate_unique_slug_fresh (db : Session) (title : string)
    (news_id : option Z) (fuel : nat) (slug : string) :
  generate_unique_slug fuel db title news_id = Some slug →
  ∀ r, r ∈ news db → Some (Models.news_id r) ≠ news_id → news_slug r ≠ slug.
Proof.
  unfold generate_unique_slug.
  generalize (generate_slug title) at 2 as start. generalize 1%Z as counter.
  induction fuel as [|fuel IH]; intros counter start; [done|].
  cbn [unique_slug_loop].
  destruct (first_with_slug db start news_id) eqn:E.
  - apply IH.
  - intros [= <-] r Hr Hid Hslug.
    rewrite first_with_slug_None in E. apply (E r Hr). by split.
Qed.
End SlugFacts.

Section HandlerFacts.
Import Py Models AdminNews NewsSpec.
Context `{Builtins} `{NewsModel} `{S3Service.Store}.

(** What [create_news] can do to the table. *)
Lemma create_news_effect (fuel : nat) (title content : string)
    (published_at : option Z) (featured_image : upload) (fresh_id : Z)
    (db : Session) (current_user : Admin) (res : result News) (db' : Session) :
  create_news fuel title content published_at featured_image fresh_id db
    current_user = Some (res, db') →
  db' = db
  ∨ ∃ row, generate_unique_slug fuel db title None = Some (news_slug row)
           ∧ Models.news_id row = fresh_id
           ∧ (fresh_id ∉ Models.news_id <$> news db)
           ∧ news db' = news db ++ [row].
Proof.
  unfold create_news. intros Hc.
  destruct published_at; [|left; congruence].
  destruct (generate_unique_slug fuel db title None) as [slug|]; [|done].
  destruct (store_image featured_image); [|left; congruence].
  case_bool_decide; [left; congruence|].
  injection Hc as <- <-. right. eexists. by repeat split.
Qed.

Lemma create_news_returns (fuel : nat) (title content : string)
    (published_at : option Z) (featured_image : upload) (fresh_id : Z)
    (db : Session) (current_user : Admin) :
  (length (news db) < fuel)%nat →
  is_Some (create_news fuel title content published_at featured_image fresh_id
             db current_user).
Proof.
  intros Hfuel. unfold create_news. destruct published_at; [|done].
  destruct (generate_unique_slug_first db title None fuel Hfuel)
    as (k & _ & -> & _).
  destruct (store_image featured_image); [|done].
  by case_bool_decide.
Qed.

Lemma update_content_keeps (content : option string) (r r' : News)
    (u u' : bool) :
  update_content content r u = Ok (r', u') →
  Models.news_id r' = Models.news_id r ∧ news_slug r' = news_slug r.
Proof.
  unfold update_content. repeat case_match; by intros [= <- <-].
Qed.

Lemma update_published_at_keeps (published_at : option (option Z))
    (r r' : News) (u u' : bool) :
  update_published_at published_at r u = Ok (r', u') →
  Models.news_id r' = Models.news_id r ∧ news_slug r' = news_slug r.
Proof.
  unfold update_published_at. repeat case_match; by intros [= <- <-].
Qed.

Lemma update_image_keeps (featured_image : upload) (remove_image : string)
    (r r' : News) (u u' : bool) :
  update_image featured_image remove_image r u = Ok (r', u') →
  Models.news_id r' = Models.news_id r ∧ news_slug r' = news_slug r.
Proof.
  unfold update_image.
  destruct featured_image; cbn [check_image upload_image rbind]; try done.
  - destruct (_ && _); [|by intros [= <- <-]].
    destruct (S3Service.delete_image _); cbn [rbind]; [|done].
    by intros [= <- <-].
  - destruct (if Text.truthy _ then _ else _); cbn [rbind]; done.
  - destruct (if Text.truthy _ then _ else _); cbn [rbind]; [|done].
    case_bool_decide; cbn [rbind]; [done|]. by intros [= <- <-].
Qed.

Lemma update_title_keeps (fuel : nat) (db : Session) (news_id : Z)
    (title : option string) (r r' : News) (u u' : bool) :
  update_title fuel db news_id title r u = Some (Ok (r', u')) →
  Models.news_id r' = Models.news_id r
  ∧ (news_slug r' = news_slug r
     ∨ ∃ t, generate_unique_slug fuel db t (Some news_id) = Some (news_slug r')).
Proof.
  unfold update_title. repeat case_match; intros [= <- <-]; eauto.
Qed.

(** What [update_news] can do to the table. *)
Lemma update_news_effect (fuel : nat) (news_id : Z) (title content : option string)
    (published_at : option (option Z)) (featured_image : upload)
    (remove_image : string) (db : Session) (current_user : Admin)
    (res : result News) (db' : Session) :
  update_news fuel news_id title content published_at featured_image
    remove_image db current_user = Some (res, db') →
  db' = db
  ∨ ∃ old row,
      db' = commit_row db news_id row
      ∧ old ∈ news db ∧ Models.news_id old = news_id
      ∧ Models.news_id row = news_id
      ∧ (news_slug row = news_slug old
         ∨ ∃ t, generate_unique_slug fuel db t (Some news_id)
                = Some (news_slug row)).
Proof.
  unfold update_news. intros Hu.
  destruct (find _ (news db)) as [old|] eqn:Hfind; [|left; congruence].
  apply find_some in Hfind as [Hold%list_elem_of_In Hid%bool_decide_eq_true].
  destruct (update_title fuel db news_id title old false)
    as [[[r1 u1]|e]|] eqn:Ht; [|left; congruence|done].
  apply update_title_keeps in Ht as [Hid1 Hslug1].
  destruct (update_content content r1 u1) as [[r2 u2]|e] eqn:Hc;
    cbn [rbind] in Hu; [|left; congruence].
  apply update_content_keeps in Hc as [Hid2 Hslug2].
  destruct (update_published_at published_at r2 u2) as [[r3 u3]|e] eqn:Hp;
    cbn [rbind] in Hu; [|left; congruence].
  apply update_published_at_keeps in Hp as [Hid3 Hslug3].
  destruct (update_image featured_image remove_image r3 u3)
    as [[r4 u4]|e] eqn:Hi; [|left; congruence].
  apply update_image_keeps in Hi as [Hid4 Hslug4].
  destruct u4; [|left; congruence].
  injection Hu as <- <-. right. exists old, r4.
  split; [done|]. split; [done|]. split; [done|]. split; [congruence|].
  destruct Hslug1 as [Hs|[t Ht]]; [left; congruence|].
  right. exists t. congruence.
Qed.
Lemma update_news_returns (fuel : nat) (news_id : Z) (title content : option string)
    (published_at : option (option Z)) (featured_image : upload)
    (remove_image : string) (db : Session) (current_user : Admin) :
  (length (news db) < fuel)%nat →
  is_Some (update_news fuel news_id title content published_at featured_image
             remove_image db current_user).
Proof.
  intros Hfuel. unfold update_news.
  destruct (find _ (news db)) as [old|]; [|done].
  assert (is_Some (update_title fuel db news_id title old false)) as [t ->].
  { unfold update_title. destruct title as [title|]; [|done].
    case_bool_decide; [|done].
    destruct (_ || _); [done|].
    by destruct (generate_unique_slug_first db (strip title) (Some news_id)
                   fuel Hfuel) as (k & _ & -> & _). }
  destruct t as [[r1 u1]|e]; [|done].
  destruct (rbind _ _) as [[r4 u4]|e]; [|done].
  by destruct u4.
Qed.

(** Two rows of a table with unique slugs that share a slug are one row. *)
Lemma unique_slugs_inj (l : list News) (r r' : News) :
  NoDup (news_slug <$> l) → r ∈ l → r' ∈ l → news_slug r = news_slug r' →
  r = r'.
Proof.
  induction l as [|x l IH]; intros Hnd Hr Hr' Heq; [by apply elem_of_nil in Hr|].
  rewrite fmap_cons in Hnd. apply NoDup_cons in Hnd as [Hx Hnd].
  apply elem_of_cons in Hr as [->|Hr], Hr' as [->|Hr']; try done.
  - exfalso. apply Hx. rewrite Heq. by apply list_elem_of_fmap_2.
  - exfalso. apply Hx. rewrite <- Heq. by apply list_elem_of_fmap_2.
  - by apply IH.
Qed.

Lemma commit_row_ids (db : Session) (news_id : Z) (row : News) :
  Models.news_id row = news_id →
  Models.news_id <$> news (commit_row db news_id row) = Models.news_id <$> news db.
Proof.
  intros Hid. unfold commit_row. cbn [news]. rewrite <- list_fmap_compose.
  apply list_fmap_ext. intros i r _. cbn. by case_bool_decide; congruence.
Qed.

(** Replacing the row with key [news_id] keeps the slugs unique when no row
    with another key has the slug of the replacement. *)
Lemma commit_row_unique_slugs (db : Session) (news_id : Z) (row : News) :
  unique_ids db → unique_slugs db →
  (∀ r, r ∈ news db → Models.news_id r ≠ news_id → news_slug r ≠ news_slug row) →
  unique_slugs (commit_row db news_id row).
Proof.
  unfold unique_ids, unique_slugs, commit_row. cbn [news].
  induction (news db) as [|x l IH]; intros Hids Hslugs Hfresh; [done|].
  rewrite !fmap_cons in *.
  apply NoDup_cons in Hids as [Hxid Hids], Hslugs as [Hxslug Hslugs].
  apply NoDup_cons. split.
  - rewrite <- list_fmap_compose. intros Hin.
    apply list_elem_of_fmap in Hin as (r & Heq & Hr). cbn in Heq.
    case_bool_decide as Hx; case_bool_decide as Hr'.
    + apply Hxid. rewrite Hx, <- Hr'. by apply list_elem_of_fmap_2.
    + apply (Hfresh r); [by right|done|done].
    + apply (Hfresh x); [by left|done|done].
    + apply Hxslug. rewrite Heq. by apply list_elem_of_fmap_2.
  - apply IH; [done|done|]. intros r Hr. apply Hfresh. by right.
Qed.
End HandlerFacts.

Section SlugFurther.
Import Py Models AdminNews NewsSpec.
Context `{Builtins} `{NewsModel} `{S3Service.Store}.

(** X25.  In every state of the News table the loop of
    [generate_unique_slug] ends.  For every title and every [news_id],
    unless [news_id] is 0 and a row has the key 0, it returns a slug that no
    row other than the row with key [news_id] has: the base slug of the
    title if no such row has it, otherwise the base slug suffixed with [-k]
    for the smallest positive [k] that no such row has.  [create_news] and
    [update_news] return as well, and both keep keys and slugs unique,
    whatever the key of the row updated. *)
Theorem slug_allocation (db : Session) (fuel : nat) :
  (length (news db) < fuel)%nat →
  (∀ title news_id,
     (news_id = Some 0%Z → 0%Z ∉ Models.news_id <$> news db) →
     ∃ k, (0 ≤ k)%Z
          ∧ generate_unique_slug fuel db title news_id
            = Some (candidate (generate_slug title) k)
          ∧ ¬ taken db news_id (candidate (generate_slug title) k)
          ∧ ∀ i, (0 ≤ i < k)%Z →
                 taken db news_id (candidate (generate_slug title) i))
  ∧ (∀ title content published_at featured_image fresh_id current_user,
       ∃ res db',
         create_news fuel title content published_at featured_image fresh_id
           db current_user = Some (res, db')
         ∧ (unique_ids db → unique_slugs db →
            unique_ids db' ∧ unique_slugs db'))
  ∧ (∀ news_id title content published_at featured_image remove_image
       current_user,
       ∃ res db',
         update_news fuel news_id title content published_at featured_image
           remove_image db current_user = Some (res, db')
         ∧ (unique_ids db → unique_slugs db →
            unique_ids db' ∧ unique_slugs db')).
Proof.
  intros Hfuel. split; [|split].
  - intros title news_id Hid.
    destruct (generate_unique_slug_first db title news_id fuel Hfuel)
      as (k & Hk & Hgen & Hfree & Hmin).
    exists k. split; [done|]. split; [done|]. split.
    + by apply first_with_slug_taken.
    + intros i Hi. specialize (Hmin i Hi).
      destruct (first_with_slug db (candidate (generate_slug title) i) news_id)
        as [r|] eqn:E; [|done].
      apply first_with_slug_Some in E as (Hr & Hhit).
      exists r. split; [done|]. split; [by destruct Hhit|].
      by apply (hits_other_key db (candidate (generate_slug title) i)).
  - intros title content published_at featured_image fresh_id current_user.
    destruct (create_news_returns fuel title content published_at
                featured_image fresh_id db current_user Hfuel)
      as [[res db'] Hc].
    exists res, db'. split; [done|]. intros Hids Hslugs.
    apply create_news_effect in Hc as [->|(row & Hgen & Hid & Hnew & Hdb')];
      [done|].
    unfold unique_ids, unique_slugs in *. rewrite Hdb', !fmap_app. cbn.
    split.
    + apply NoDup_app. split; [done|]. split; [|apply NoDup_singleton].
      intros x Hx ->%list_elem_of_singleton. by rewrite Hid in Hx.
    + apply NoDup_app. split; [done|]. split; [|apply NoDup_singleton].
      intros x Hx ->%list_elem_of_singleton.
      apply list_elem_of_fmap in Hx as (r & Heq & Hr).
      by apply (generate_unique_slug_fresh _ _ _ _ _ Hgen r Hr).
  - intros news_id title content published_at featured_image remove_image
      current_user.
    destruct (update_news_returns fuel news_id title content published_at
                featured_image remove_image db current_user Hfuel)
      as [[res db'] Hu].
    exists res, db'. split; [done|]. intros Hids Hslugs.
    apply update_news_effect in Hu
      as [->|(old & row & -> & Hold & Hoid & Hrid & Hslug)]; [done|].
    split.
    + unfold unique_ids. by rewrite commit_row_ids.
    + apply commit_row_unique_slugs; [done|done|].
      intros r Hr Hne. destruct Hslug as [Hsame|[t Hgen]].
      * rewrite Hsame. intros Heq.
        apply Hne. rewrite <- Hoid. f_equal.
        by apply (unique_slugs_inj (news db)).
      * apply (generate_unique_slug_fresh _ _ _ _ _ Hgen r Hr). congruence.
Qed.
End SlugFurther.

(** ** The statements above, run on the reference instances *)

Section Examples.
Import Py Models Auth NewsSpec Reference.

Lemma reference_backend_sound : Jose.sound backend.
Proof.
  intros alg k m sg. cbn. intros [= <-]. by apply bool_decide_eq_true.
Qed.

Lemma token_round_trip_witness :
  (Jose.timegm 5 ≤ Jose.timegm (0 + Jose.minutes 60))%Z
  ∧ ∃ token payload,
      create_access_token settings {[ "sub" := JStr "alice"; "type" := JStr "admin" ]} 0
      = Ok token
      ∧ Jose.decode token (SECRET_KEY settings) [ALGORITHM settings] 5 = Ok payload
      ∧ py_get payload "sub" = JStr "alice"
      ∧ py_get payload "type" = JStr "admin".
Proof.
  split; [by vm_compute|].
  apply (token_round_trip settings "s3cret" "HS256" "alice" "admin" 0 5).
  - exact reference_backend_sound.
  - reflexivity.
  - reflexivity.
  - by repeat constructor.
  - reflexivity.
  - intros m. by eexists.
  - by vm_compute.
  - by vm_compute.
  - by vm_compute.
Defined.
Lemma reference_usernames_unique : NoDup (admin_username <$> admins db).
Proof. apply (bool_decide_unpack _). by vm_compute. Qed.

Lemma get_current_admin_inactive_witness :
  admin_is_active bob = false
  ∧ find (λ x, bool_decide (JStr (admin_username x) = JStr (admin_username bob)))
      (admins db) = Some bob
  ∧ get_current_admin settings (token_for "bob" "admin") db 5 =
    ([Query "admins" (JStr (admin_username bob))],
     Raise (HTTPException 403 "Admin account is inactive" [])).
Proof.
  split; [reflexivity|].
  apply (get_current_admin_inactive settings (token_for "bob" "admin") db 5
           (claims_of "bob" "admin") bob).
  - vm_compute. reflexivity.
  - vm_compute. reflexivity.
  - vm_compute. reflexivity.
  - by repeat constructor.
  - exact reference_usernames_unique.
  - reflexivity.
Defined.

Lemma get_current_admin_without_role_witness :
  admin_is_active carol = true ∧ admin_role carol = None
  ∧ get_current_admin settings (token_for "carol" "admin") db 5 =
    ([Query "admins" (JStr "carol");
      Log WARNING "Admin carol has no role assigned (role_id: None)"],
     Ok carol).
Proof.
  split; [reflexivity|]. split; [reflexivity|].
  apply (get_current_admin_without_role settings (token_for "carol" "admin")
           db 5 (claims_of "carol" "admin") carol).
  - vm_compute. reflexivity.
  - vm_compute. reflexivity.
  - vm_compute. reflexivity.
  - by repeat constructor.
  - exact reference_usernames_unique.
  - reflexivity.
  - reflexivity.
Defined.

(** An admin token whose subject is also the name of a user. *)
Lemma get_current_user_type_first_witness :
  alice_user ∈ users db ∧ user_username alice_user = "alice"
  ∧ get_current_user settings (token_for "alice" "admin") db 5 =
    ([], Raise (HTTPException 401 "Could not validate user credentials"
                  [("WWW-Authenticate", "Bearer")])).
Proof.
  split; [by repeat constructor|]. split; [reflexivity|].
  apply (get_current_user_type_first settings (token_for "alice" "admin") db 5).
  vm_compute. discriminate.
Defined.

(** bob is inactive, and the news router lets him in. *)
Lemma router_resolvers_skip_active_flag_witness :
  admin_is_active bob = false
  ∧ outcome (AdminNews.get_current_admin router_settings
               (token_for "bob" "admin") db 5) = Ok bob.
Proof.
  split; [reflexivity|].
  destruct (router_resolvers_skip_active_flag AdminNews.get_current_admin)
    as [Haccepts _]; [by repeat constructor|].
  apply (Haccepts router_settings (token_for "bob" "admin") db 5%Z
           (claims_of "bob" "admin") bob).
  - vm_compute. reflexivity.
  - vm_compute. reflexivity.
  - vm_compute. reflexivity.
  - by repeat constructor.
  - exact reference_usernames_unique.
Defined.




Lemma slug_allocation_witness :
  (length (news db) < 3)%nat
  ∧ AdminNews.generate_unique_slug 3 db "welcome" None = Some "welcome-2"
  ∧ AdminNews.generate_unique_slug 3 db "welcome" (Some 1%Z) = Some "welcome"
  ∧ ∃ k, (0 ≤ k)%Z
         ∧ AdminNews.generate_unique_slug 3 db "welcome" (Some 2%Z)
           = Some (candidate "welcome" k)
         ∧ ¬ taken db (Some 2%Z) (candidate "welcome" k)
         ∧ ∀ i, (0 ≤ i < k)%Z → taken db (Some 2%Z) (candidate "welcome" i).
Proof.
  split; [cbn; lia|]. split; [reflexivity|]. split; [reflexivity|].
  destruct (slug_allocation db 3) as [Hgen _]; [cbn; lia|].
  by apply (Hgen "welcome" (Some 2%Z)).
Defined.
End Examples.

(** * Further properties of the cited files *)

(** ** Lookups by identifier *)

Section LookupFacts.
Import Py Models AuthLookup.

(** The first element that answers a test is found when no other element
    answers it. *)
Lemma find_the_one {A} (f : A → bool) (l : list A) (a : A) :
  a ∈ l → f a = true → (∀ x, x ∈ l → f x = true → x = a) → find f l = Some a.
Proof.
  induction l as [|x l IH]; intros Hin Ha Hone; [by apply elem_of_nil in Hin|].
  cbn [find]. destruct (f x) eqn:Hx.
  - f_equal. apply Hone; [by left|done].
  - apply elem_of_cons in Hin as [->|Hin]; [congruence|].
    apply IH; [done|done|]. intros y Hy. apply Hone. by right.
Qed.

(** X1.  An admin record is found under its username and under its email,
    and so is a user record, when no other record of its table answers to
    either string (as username or as email). *)
Theorem identifier_lookup_round_trip (db : Session) (a : Admin) (u : User) :
  a ∈ admins db → u ∈ users db →
  (∀ x, x ∈ admins db →
        admin_username x = admin_username a ∨ admin_email x = admin_username a
        ∨ admin_username x = admin_email a ∨ admin_email x = admin_email a →
        x = a) →
  (∀ y, y ∈ users db →
        user_username y = user_username u ∨ user_email y = user_username u
        ∨ user_username y = user_email u ∨ user_email y = user_email u →
        y = u) →
  outcome (get_admin_by_identifier db (admin_username a)) = Ok (Some a)
  ∧ outcome (get_admin_by_identifier db (admin_email a)) = Ok (Some a)
  ∧ outcome (get_user_by_identifier db (user_username u)) = Ok (Some u)
  ∧ outcome (get_user_by_identifier db (user_email u)) = Ok (Some u).
Proof.
  intros Ha Hu Hadm Husr.
  unfold get_admin_by_identifier, get_user_by_identifier, outcome. cbn [snd].
  split_and!; f_equal; apply find_the_one; try done.
  - apply orb_true_iff. left. by apply bool_decide_eq_true.
  - intros x Hx [H%bool_decide_eq_true|H%bool_decide_eq_true]%orb_true_iff;
      apply Hadm; auto.
  - apply orb_true_iff. right. by apply bool_decide_eq_true.
  - intros x Hx [H%bool_decide_eq_true|H%bool_decide_eq_true]%orb_true_iff;
      apply Hadm; auto.
  - apply orb_true_iff. left. by apply bool_decide_eq_true.
  - intros x Hx [H%bool_decide_eq_true|H%bool_decide_eq_true]%orb_true_iff;
      apply Husr; auto.
  - apply orb_true_iff. right. by apply bool_decide_eq_true.
  - intros x Hx [H%bool_decide_eq_true|H%bool_decide_eq_true]%orb_true_iff;
      apply Husr; auto.
Qed.
End LookupFacts.

(** ** More on tokens and resolvers *)

Section IssuedTokenFacts.
Import Py Models Auth.
Context `{Builtins} `{B : Jose.Backend}.

Lemma intdate_lookup_ne (k k' : string) (c : gmap string json) :
  k ≠ k' → Jose.intdate k c !! k' = c !! k'.
Proof.
  intros Hne. unfold Jose.intdate.
  destruct (c !! k) as [[]|]; try done. by rewrite lookup_insert_ne.
Qed.

(** What [jwt.encode] returns when it returns: the key was constructed. *)
Lemma encode_inv (c : gmap string json) (key algorithm : option string)
    (token : Jose.token) :
  Jose.encode c key algorithm = Ok token →
  ∃ alg k sg,
    algorithm = Some alg
    ∧ Jose.construct alg key = Ok k
    ∧ token = Jose.Compact
                {| Jose.header_alg := Some alg;
                   Jose.payload :=
                     Some (Jose.intdate "nbf" (Jose.intdate "iat"
                             (Jose.intdate "exp" c)));
                   Jose.signature := sg |}.
Proof.
  unfold Jose.encode. destruct algorithm as [alg|]; [|done].
  case_bool_decide; [|done]. destruct (Jose.serializable _); [|done].
  destruct (Jose.construct alg key) as [k|e] eqn:Hk; [|done].
  destruct (Jose.sign _ _ _) as [sg|]; [|done].
  intros [= <-]. by exists alg, k, sg.
Qed.

(** The claims [decode] returns are those the token carries. *)
Lemma decode_payload (j : Jose.jws) (key : option string)
    (algorithms : list (option string)) (now : Z) (p : gmap string json) :
  Jose.decode (Jose.Compact j) key algorithms now = Ok p → Jose.payload j = Some p.
Proof.
  unfold Jose.decode. destruct (Jose.header_alg j) as [alg|]; [|done].
  case_bool_decide; [|done].
  destruct (Jose.construct alg key) as [k|e]; cbn [rbind]; [|done].
  destruct (Jose.verify _ _ _ _); [|done].
  destruct (Jose.payload j) as [c|]; [|done].
  destruct (Jose.validate_claims c now); cbn [rbind]; [|done].
  by intros [= <-].
Qed.

(** Claims without [iat] and [nbf] whose expiration is an integer: what
    their validation raises is a [JWTError], and past the expiration it
    does raise. *)
Lemma validate_claims_issued (c : gmap string json) (now exp : Z) (e : exn) :
  c !! "iat" = None → c !! "nbf" = None → c !! "exp" = Some (JInt exp) →
  Jose.validate_claims c now = Raise e → is_JWTError e = true.
Proof.
  intros Hiat Hnbf Hexp.
  unfold Jose.validate_claims, Jose.validate_iat, Jose.validate_nbf,
    Jose.validate_exp, Jose.validate_aud, Jose.validate_str,
    Jose.validate_at_hash.
  rewrite Hiat, Hnbf, Hexp. cbn [Jose.numeric_date py_int rbind].
  destruct (exp <? Jose.timegm now)%Z; cbn [rbind]; [by intros [= <-]|].
  destruct (c !! "aud"); cbn [rbind]; [by intros [= <-]|].
  destruct (c !! "sub") as [[]|]; cbn [rbind]; try by intros [= <-].
  - destruct (c !! "jti") as [[]|]; cbn [rbind]; try by intros [= <-].
    + destruct (c !! "at_hash"); [by intros [= <-]|done].
    + destruct (c !! "at_hash"); [by intros [= <-]|done].
  - destruct (c !! "jti") as [[]|]; cbn [rbind]; try by intros [= <-].
    + destruct (c !! "at_hash"); [by intros [= <-]|done].
    + destruct (c !! "at_hash"); [by intros [= <-]|done].
Qed.

Lemma validate_claims_expired (c : gmap string json) (now exp : Z) :
  c !! "iat" = None → c !! "nbf" = None →
  c !! "exp" = Some (JInt exp) → (exp < Jose.timegm now)%Z →
  ∃ e, Jose.validate_claims c now = Raise e.
Proof.
  intros Hiat Hnbf Hexp Hlt.
  unfold Jose.validate_claims, Jose.validate_iat, Jose.validate_nbf,
    Jose.validate_exp.
  rewrite Hiat, Hnbf, Hexp. cbn [Jose.numeric_date py_int rbind].
  destruct (exp <? Jose.timegm now)%Z eqn:E; [cbn [rbind]; eauto|].
  apply Z.ltb_ge in E. lia.
Qed.

(** The claims of an issued token: those of [data], the expiration as an
    integer; the key it was signed with was constructed. *)
Lemma issued_token_inv (cfg : Settings) (data : gmap string json) (now : Z)
    (token : Jose.token) :
  create_access_token cfg data now = Ok token →
  ∃ alg k j c,
    ALGORITHM cfg = Some alg
    ∧ Jose.construct alg (SECRET_KEY cfg) = Ok k
    ∧ token = Jose.Compact j ∧ Jose.header_alg j = Some alg
    ∧ Jose.payload j = Some c
    ∧ c !! "exp"
      = Some (JInt (Jose.timegm
                      (now + Jose.minutes (ACCESS_TOKEN_EXPIRE_MINUTES cfg))))
    ∧ (∀ k, k ≠ "exp" → k ≠ "iat" → k ≠ "nbf" → c !! k = data !! k)
    ∧ (data !! "iat" = None → c !! "iat" = None)
    ∧ (data !! "nbf" = None → c !! "nbf" = None).
Proof.
  unfold create_access_token, timedelta_minutes, datetime_add.
  destruct (_ || _); cbn [rbind]; [done|].
  destruct (_ || _); cbn [rbind]; [done|].
  intros (alg & k & sg & Halg & Hkey & ->)%encode_inv.
  exists alg, k. eexists _, _. split; [done|]. split; [done|].
  split; [done|]. split; [done|]. split; [done|].
  set (c0 := Jose.intdate "exp" _).
  assert (Hexp : c0 !! "exp"
                 = Some (JInt (Jose.timegm
                                 (now + Jose.minutes
                                          (ACCESS_TOKEN_EXPIRE_MINUTES cfg))))).
  { unfold c0, Jose.intdate. rewrite lookup_insert_eq.
    by rewrite lookup_insert_eq. }
  assert (Hother : ∀ k', k' ≠ "exp" → c0 !! k' = data !! k').
  { intros k' Hne. unfold c0. rewrite intdate_lookup_ne by done.
    by rewrite lookup_insert_ne. }
  split; [|split; [|split]].
  - by rewrite !intdate_lookup_ne.
  - intros k' Hexp' Hiat Hnbf. rewrite !intdate_lookup_ne by done.
    by apply Hother.
  - intros Hiat. rewrite intdate_lookup_ne by done.
    unfold Jose.intdate. rewrite Hother, Hiat by done. by rewrite Hother.
  - intros Hnbf. unfold Jose.intdate at 1.
    assert (Hn : Jose.intdate "iat" c0 !! "nbf" = None).
    { rewrite intdate_lookup_ne by done. by rewrite Hother. }
    by rewrite Hn.
Qed.

(** Under the key and the algorithm it was issued with, a token whose data
    carry no [iat] and no [nbf] decodes, or [decode] raises a [JWTError]. *)
Lemma issued_token_decode (cfg : Settings) (data : gmap string json)
    (now now' : Z) (token : Jose.token) (e : exn) :
  create_access_token cfg data now = Ok token →
  data !! "iat" = None → data !! "nbf" = None →
  Jose.decode token (SECRET_KEY cfg) [ALGORITHM cfg] now' = Raise e →
  is_JWTError e = true.
Proof.
  intros (alg & k & j & c & Halg & Hkey & -> & Hj & Hc & Hexp & _ & Hi & Hn)
           %issued_token_inv Hiat Hnbf.
  unfold Jose.decode. rewrite Hj, Halg.
  rewrite bool_decide_eq_true_2; [|by apply list_elem_of_singleton].
  rewrite Hkey. cbn [rbind].
  destruct (Jose.verify _ _ _ _); [|by intros [= <-]].
  rewrite Hc.
  destruct (Jose.validate_claims c now') as [[]|e'] eqn:Hv; cbn [rbind]; [done|].
  intros [= <-]. by apply (validate_claims_issued c now' _ _ (Hi Hiat) (Hn Hnbf) Hexp).
Qed.

(** X4.  A token that [create_access_token] issued for data without an
    [iat] and an [nbf] claim is refused with HTTP 401 by both resolvers of
    the auth module at every clock whose second lies after the second of
    its expiration, and neither resolver queries the database. *)
Theorem issued_token_expires (cfg : Settings) (data : gmap string json)
    (now now' : Z) (token : Jose.token) (db : Session) :
  create_access_token cfg data now = Ok token →
  data !! "iat" = None → data !! "nbf" = None →
  (Jose.timegm (now + Jose.minutes (ACCESS_TOKEN_EXPIRE_MINUTES cfg))
   < Jose.timegm now')%Z →
  get_current_user cfg token db now'
  = ([], Raise (HTTPException 401 "Could not validate user credentials"
                  [("WWW-Authenticate", "Bearer")]))
  ∧ ∃ e, get_current_admin cfg token db now'
         = ([Log ERROR ("JWT decode error: " +:+ exn_str e)],
            Raise (HTTPException 401 "Could not validate admin credentials"
                     [("WWW-Authenticate", "Bearer")])).
Proof.
  intros Hissued Hiat Hnbf Hlate.
  assert (∃ e, Jose.decode token (SECRET_KEY cfg) [ALGORITHM cfg] now'
               = Raise e) as [e He].
  { destruct (issued_token_inv _ _ _ _ Hissued)
      as (alg & k & j & c & Halg & Hkey & -> & Hj & Hc & Hexp & _ & Hi & Hn).
    unfold Jose.decode. rewrite Hj.
    case_bool_decide; [|eauto]. rewrite Hkey. cbn [rbind].
    destruct (Jose.verify _ _ _ _); [|eauto]. rewrite Hc.
    destruct (validate_claims_expired c now' _ (Hi Hiat) (Hn Hnbf) Hexp Hlate)
      as [e ->].
    cbn [rbind]. eauto. }
  pose proof (issued_token_decode _ _ _ _ _ _ Hissued Hiat Hnbf He) as Hjwt.
  split.
  - rewrite (get_current_user_on_error _ _ db _ _ He). by rewrite Hjwt.
  - exists e. rewrite (get_current_admin_on_error _ _ db _ _ He). by rewrite Hjwt.
Qed.

(** X2.  Whenever [get_current_admin] of the auth module returns a record,
    the token decoded to claims of type ["admin"] whose subject is the
    username of that record, the record is in the Admin table, and it is
    active. *)
Theorem get_current_admin_returns_active (cfg : Settings) (token : Jose.token)
    (db : Session) (now : Z) (a : Admin) :
  outcome (get_current_admin cfg token db now) = Ok a →
  a ∈ admins db ∧ admin_is_active a = true
  ∧ ∃ payload,
      Jose.decode token (SECRET_KEY cfg) [ALGORITHM cfg] now = Ok payload
      ∧ py_get payload "sub" = JStr (admin_username a)
      ∧ py_get payload "type" = JStr "admin".
Proof.
  unfold get_current_admin.
  destruct (Jose.decode token (SECRET_KEY cfg) [ALGORITHM cfg] now)
    as [payload|e] eqn:Hdec; cbn [lift bind try_except app].
  - do 2 case_bool_decide; cbn [orb raise ret bind try_except app is_JWTError];
      try done.
    destruct (find _ (admins db)) as [x|] eqn:Hfind;
      cbn [log raise bind app]; [|done].
    apply find_some in Hfind as [Hx%list_elem_of_In Hname%bool_decide_eq_true].
    destruct (admin_is_active x) eqn:Hact; cbn [negb raise]; [|done].
    intros Hret.
    assert (x = a) as ->.
    { destruct (admin_role x); cbn [log ret bind app outcome snd] in Hret;
        congruence. }
    split; [done|]. split; [done|]. exists payload. split; [done|].
    split; [done|]. destruct (decide (py_get payload "type" = JStr "admin")); [done|].
    by exfalso.
  - by destruct (is_JWTError e).
Qed.
End IssuedTokenFacts.

Section ResolverMoreFacts.
Import Py Models Auth.
Context `{Builtins} `{B : Jose.Backend}.

(** The users' counterpart of the query by username. *)
Lemma find_user_by_username (l : list User) (u : User) :
  u ∈ l → NoDup (user_username <$> l) →
  find (λ x, bool_decide (JStr (user_username x) = JStr (user_username u))) l
  = Some u.
Proof.
  induction l as [|x l IH]; intros Hin Hnd; [by apply elem_of_nil in Hin|].
  rewrite fmap_cons in Hnd. apply NoDup_cons in Hnd as [Hx Hnd].
  cbn [find]. case_bool_decide as Heq.
  - apply elem_of_cons in Hin as [->|Hin]; [done|].
    exfalso. apply Hx. injection Heq as ->.
    apply list_elem_of_fmap. eauto.
  - apply elem_of_cons in Hin as [->|Hin]; [done|]. by apply IH.
Qed.

(** X3.  [get_current_user] has no active-account gate: for every user
    record of the table, active or not, and every token that decodes to
    type ["user"] with that user's username as subject, it returns the view
    of that record, [is_active] copied as it is. *)
Theorem get_current_user_ignores_active_flag (cfg : Settings)
    (token : Jose.token) (db : Session) (now : Z) (payload : gmap string json)
    (u : User) :
  Jose.decode token (SECRET_KEY cfg) [ALGORITHM cfg] now = Ok payload →
  py_get payload "sub" = JStr (user_username u) →
  py_get payload "type" = JStr "user" →
  u ∈ users db → NoDup (user_username <$> users db) →
  get_current_user cfg token db now =
  ([Query "users" (JStr (user_username u))],
   Ok {| id := user_id u; username := user_username u; email := user_email u;
         first_name := user_first_name u; last_name := user_last_name u;
         phone_number := user_phone_number u;
         is_active := user_is_active u |}).
Proof.
  intros Hdec Hsub Htype Hin Hnd. unfold get_current_user. rewrite Hdec.
  cbn [lift bind try_except app]. rewrite Hsub, Htype.
  rewrite bool_decide_eq_false_2 by done.
  rewrite bool_decide_eq_false_2 by (intros Hne; by apply Hne).
  cbn [orb ret bind try_except app]. unfold get_user.
  cbn [bind app]. by rewrite (find_user_by_username _ _ Hin Hnd).
Qed.

(** X5.  A token issued for a principal type other than ["admin"] never
    authorizes an admin: at every clock and for every database,
    [get_current_admin] of the auth module and the resolver of each router
    module, which reads the same secret and algorithm from the environment,
    raise HTTP 401, and none of them queries the database. *)
Theorem issued_token_of_other_type_refused (cfg : Settings)
    (rcfg : RouterSettings.t) (s t : string) (now now' : Z)
    (token : Jose.token) (db : Session)
    (resolver : RouterSettings.t → Jose.token → Session → Z → io Admin) :
  create_access_token cfg {[ "sub" := JStr s; "type" := JStr t ]} now = Ok token →
  RouterSettings.SECRET_KEY rcfg = SECRET_KEY cfg →
  RouterSettings.ALGORITHM rcfg = ALGORITHM cfg →
  t ≠ "admin" →
  resolver ∈ [AdminGallery.get_current_admin; AdminLeadership.get_current_admin;
              AdminNews.get_current_admin; AdminSubscriber.get_current_admin] →
  (outcome (get_current_admin cfg token db now')
   = Raise (HTTPException 401 "Could not validate admin credentials"
              [("WWW-Authenticate", "Bearer")])
   ∧ ∀ table key, Query table key ∉ (get_current_admin cfg token db now').1)
  ∧ (outcome (resolver rcfg token db now')
     = Raise (HTTPException 401 "Could not validate admin credentials"
                [("WWW-Authenticate", "Bearer")])
     ∧ ∀ table key, Query table key ∉ (resolver rcfg token db now').1).
Proof.
  intros Hissued Hrkey Hralg Ht Hin.
  assert (Herr : ∀ e, Jose.decode token (SECRET_KEY cfg) [ALGORITHM cfg] now'
                      = Raise e → is_JWTError e = true).
  { intros e. by apply (issued_token_decode cfg _ now now' token e Hissued). }
  destruct (issued_token_inv _ _ _ _ Hissued)
    as (alg & k & j & c & _ & _ & -> & _ & Hc & _ & Hdata & _).
  assert (Htype : ∀ key algs p,
            Jose.decode (Jose.Compact j) key algs now' = Ok p →
            bool_decide (py_get p "type" ≠ JStr "admin") = true).
  { intros key algs p Hp%decode_payload. rewrite Hc in Hp. injection Hp as <-.
    apply bool_decide_eq_true. unfold py_get. rewrite Hdata by done.
    rewrite lookup_insert_ne by done. rewrite lookup_singleton_eq. cbn.
    congruence. }
  assert (resolver = AdminResolver.get_current_admin) as ->.
  { repeat (apply elem_of_cons in Hin as [->|Hin]; [reflexivity|]).
    by apply elem_of_nil in Hin. }
  split.
  - destruct (Jose.decode (Jose.Compact j) (SECRET_KEY cfg) [ALGORITHM cfg] now')
      as [p|e] eqn:Hdec.
    + unfold get_current_admin. rewrite Hdec. cbn [lift bind try_except app].
      rewrite (Htype _ _ _ Hdec), orb_true_r.
      cbn [raise bind try_except app is_JWTError outcome fst snd].
      split; [done|]. intros table key Hq. by apply elem_of_nil in Hq.
    + rewrite (get_current_admin_on_error _ _ db _ _ Hdec), (Herr e eq_refl).
      cbn [outcome fst snd]. split; [done|].
      intros table key Hq. apply list_elem_of_singleton in Hq. done.
  - destruct (Jose.decode (Jose.Compact j) (RouterSettings.SECRET_KEY rcfg)
                [RouterSettings.ALGORITHM rcfg] now') as [p|e] eqn:Hdec.
    + unfold AdminResolver.get_current_admin. rewrite Hdec.
      cbn [lift log bind try_except app].
      rewrite (Htype _ _ _ Hdec), orb_true_r.
      cbn [log raise bind try_except app is_JWTError outcome fst snd].
      split; [done|]. intros table key Hq.
      repeat (apply elem_of_cons in Hq as [Hq|Hq]; [done|]).
      by apply elem_of_nil in Hq.
    + rewrite (router_resolver_on_error _ _ db _ _ Hdec).
      rewrite Hrkey, Hralg in Hdec. rewrite (Herr e Hdec).
      cbn [outcome fst snd]. split; [done|].
      intros table key Hq.
      repeat (apply elem_of_cons in Hq as [Hq|Hq]; [done|]).
      by apply elem_of_nil in Hq.
Qed.

(** What [get_current_admin] can raise: its 401, its 403, or what [decode]
    raised and [except JWTError] did not catch. *)
Lemma get_current_admin_raises (cfg : Settings) (token : Jose.token)
    (db : Session) (now : Z) (e : exn) :
  outcome (get_current_admin cfg token db now) = Raise e →
  e = HTTPException 401 "Could not validate admin credentials"
        [("WWW-Authenticate", "Bearer")]
  ∨ e = HTTPException 403 "Admin account is inactive" []
  ∨ (Jose.decode token (SECRET_KEY cfg) [ALGORITHM cfg] now = Raise e
     ∧ is_JWTError e = false).
Proof.
  destruct (Jose.decode token (SECRET_KEY cfg) [ALGORITHM cfg] now)
    as [payload|e'] eqn:Hdec.
  - unfold get_current_admin. rewrite Hdec. cbn [lift bind try_except app].
    destruct (_ || _); cbn [raise ret bind try_except app is_JWTError outcome snd].
    + intros [= <-]. by left.
    + destruct (find _ (admins db)) as [x|]; cbn [log raise bind app outcome snd].
      * destruct (admin_is_active x); cbn [negb raise outcome snd].
        -- by destruct (admin_role x).
        -- intros [= <-]. right. by left.
      * intros [= <-]. by left.
  - rewrite (get_current_admin_on_error _ _ db _ _ Hdec).
    destruct (is_JWTError e') eqn:He; cbn [outcome snd]; intros [= <-]; auto.
Qed.

(** X9.  Whatever makes [get_current_admin] fail, the client receives one
    of three answers under exactly the four CORS headers of the handlers:
    the 401 of the credentials exception or the 403 of an inactive account,
    with its detail and nothing logged, or, when [jwt.decode] raised what
    [except JWTError] does not catch, the 500 of the handler for
    [Exception], which logs the error.  The [WWW-Authenticate] header that
    the credentials exception carries is never passed on. *)
Theorem admin_failure_response (request : MainHandlers.Request) (cfg : Settings)
    (token : Jose.token) (db : Session) (now : Z) (e : exn) :
  outcome (get_current_admin cfg token db now) = Raise e →
  let cors :=
    [("Access-Control-Allow-Origin", default "*" (MainHandlers.origin request));
     ("Access-Control-Allow-Credentials", "true");
     ("Access-Control-Allow-Methods", "GET, POST, PUT, DELETE, OPTIONS");
     ("Access-Control-Allow-Headers", "*")] in
  ((e = HTTPException 401 "Could not validate admin credentials"
          [("WWW-Authenticate", "Bearer")]
    ∧ MainHandlers.handle request (MainHandlers.Known e)
      = ([], Ok {| MainHandlers.status_code := 401;
                   MainHandlers.content_detail :=
                     "Could not validate admin credentials";
                   MainHandlers.headers := cors |}))
   ∨ (e = HTTPException 403 "Admin account is inactive" []
      ∧ MainHandlers.handle request (MainHandlers.Known e)
        = ([], Ok {| MainHandlers.status_code := 403;
                     MainHandlers.content_detail := "Admin account is inactive";
                     MainHandlers.headers := cors |}))
   ∨ (Jose.decode token (SECRET_KEY cfg) [ALGORITHM cfg] now = Raise e
      ∧ is_JWTError e = false
      ∧ MainHandlers.handle request (MainHandlers.Known e)
        = ([Log ERROR ("Unhandled error: " +:+ exn_str e)],
           Ok {| MainHandlers.status_code := 500;
                 MainHandlers.content_detail := "Internal Server Error";
                 MainHandlers.headers := cors |})))
  ∧ ∀ trace response,
      MainHandlers.handle request (MainHandlers.Known e) = (trace, Ok response) →
      "WWW-Authenticate" ∉ (MainHandlers.headers response).*1.
Proof.
  intros Hraise cors.
  assert (Hcors : "WWW-Authenticate" ∉ cors.*1).
  { cbn. intros Hin.
    repeat (apply elem_of_cons in Hin as [Hin|Hin]; [done|]).
    by apply elem_of_nil in Hin. }
  apply get_current_admin_raises in Hraise as [->|[->|[Hdec Hjwt]]].
  - split; [by left|]. by intros trace response [= <- <-].
  - split; [right; by left|]. by intros trace response [= <- <-].
  - pose proof (decode_not_http _ _ _ _ _ Hdec) as Hhttp.
    assert (Hgen : MainHandlers.handle request (MainHandlers.Known e)
                   = ([Log ERROR ("Unhandled error: " +:+ exn_str e)],
                      Ok {| MainHandlers.status_code := 500;
                            MainHandlers.content_detail := "Internal Server Error";
                            MainHandlers.headers := cors |})).
    { by destruct e. }
    split; [right; right; done|].
    rewrite Hgen. by intros trace response [= <- <-].
Qed.
End ResolverMoreFacts.

(** ** More on the password utilities *)

Section PasswordMoreFacts.
Import Py Bcrypt Auth.
Context `{Builtins} `{Primitive}.

(** The stored form of a hash that [get_password_hash] returns. *)
Lemma get_password_hash_bytes (p : unicode) (pb : bytes) (g : entropy) :
  utf8_encode p = Some pb →
  ∃ f hb h,
    f = {| minor := "b"%byte; cost := 12;
           salt22 := radix64 22 (urandom g).1 |}
    ∧ valid_fields f
    ∧ hb = format_salt f ++ radix64 31 (eksblowfish 12 (salt22 f) (take 72 pb))
    ∧ utf8_encode h = Some hb
    ∧ h = Byte.to_N <$> hb
    ∧ get_password_hash (Str p) g = (([], Ok h), (urandom g).2).
Proof.
  intros Hp.
  destruct (gensalt_12 g) as (f & Hg & Hf & Hfeq).
  assert (Hh : hashpw (take 72 pb) (format_salt f)
               = Ok (format_salt f
                       ++ radix64 31 (eksblowfish 12 (salt22 f) (take 72 pb)))).
  { unfold hashpw. pose proof (parse_format f [] Hf) as Hpf.
    rewrite app_nil_r in Hpf. rewrite Hpf.
    assert (take 72 (take 72 pb) = take 72 pb) as ->
      by (rewrite take_take; f_equal; lia).
    by rewrite Hfeq. }
  pose proof (hashpw_ascii _ _ _ Hh) as Hascii.
  exists f. eexists. exists (Byte.to_N <$> (format_salt f
                       ++ radix64 31 (eksblowfish 12 (salt22 f) (take 72 pb)))).
  split; [done|]. split; [done|]. split; [reflexivity|].
  split; [by apply utf8_encode_ascii|]. split; [done|].
  unfold get_password_hash, encode. rewrite Hp. cbn [of_option].
  rewrite truncate_take, Hg. cbn [rbind]. rewrite Hh. cbn [rbind].
  unfold decode. rewrite utf8_decode_ascii by done. done.
Qed.

(** X6.  On every password text that has a UTF-8 encoding
    [get_password_hash] logs nothing, draws from the entropy source once and
    returns 60 characters: the encoding of the result is a well-formed
    bcrypt hash whose leading fields read minor version [b] and cost 12. *)
Theorem get_password_hash_shape (p : unicode) (pb : bytes) (g : entropy) :
  utf8_encode p = Some pb →
  ∃ h hb f,
    get_password_hash (Str p) g = (([], Ok h), (urandom g).2)
    ∧ length h = 60%nat
    ∧ utf8_encode h = Some hb
    ∧ well_formed hb = true
    ∧ parse_salt hb = Some f
    ∧ minor f = "b"%byte ∧ cost f = 12%N
    ∧ salt22 f = radix64 22 (urandom g).1.
Proof.
  intros Hp.
  destruct (get_password_hash_bytes p pb g Hp)
    as (f & hb & h & Hf & Hv & Hhb & Henc & Hh & Hget).
  exists h, hb, f. split; [done|].
  assert (Hpf : parse_salt hb = Some f) by (rewrite Hhb; by apply parse_format).
  assert (Hlen : length hb = 60%nat).
  { rewrite Hhb, length_app, format_salt_length, radix64_length.
    destruct Hv as (_ & _ & -> & _). done. }
  split; [by rewrite Hh, length_fmap|]. split; [done|].
  split.
  { unfold well_formed. rewrite Hpf, bool_decide_eq_true_2 by eauto.
    rewrite Hlen. cbn [Nat.eqb andb]. rewrite Hhb.
    rewrite drop_app_length'
      by (rewrite format_salt_length; destruct Hv as (_ & _ & -> & _); done).
    apply radix64_is_radix64. }
  split; [done|]. by rewrite Hf.
Qed.

Lemma utf8_encode_cp_surrogate (c : N) :
  is_surrogate c = true → utf8_encode_cp c = None.
Proof.
  intros Hs. unfold utf8_encode_cp. rewrite Hs.
  unfold is_surrogate in Hs. apply andb_true_iff in Hs as [Hlo _].
  apply N.leb_le in Hlo.
  destruct (c <? 128)%N eqn:E1; [apply N.ltb_lt in E1; lia|].
  destruct (c <? 2048)%N eqn:E2; [apply N.ltb_lt in E2; lia|]. done.
Qed.

Lemma utf8_encode_surrogate (p : unicode) (c : N) :
  c ∈ p → is_surrogate c = true → utf8_encode p = None.
Proof.
  intros Hin Hs. induction p as [|x p IH]; [by apply elem_of_nil in Hin|].
  cbn [utf8_encode]. apply elem_of_cons in Hin as [<-|Hin].
  - by rewrite (utf8_encode_cp_surrogate c Hs).
  - rewrite (IH Hin). by destruct (utf8_encode_cp x).
Qed.

(** X7.  A password text that holds a surrogate code point has no UTF-8
    encoding: [get_password_hash] logs the error and raises
    [UnicodeEncodeError] again, without a draw from the entropy source, and
    [verify_password] logs the error and answers [False] whatever the stored
    hash is. *)
Theorem surrogate_password (p : unicode) (c : N) (g : entropy)
    (hashed_password : value) :
  c ∈ p → is_surrogate c = true →
  get_password_hash (Str p) g
  = (([Log ERROR ("Error hashing password: " +:+ exn_str UnicodeEncodeError)],
      Raise UnicodeEncodeError), g)
  ∧ verify_password (Str p) hashed_password
    = ([Log ERROR ("Password verification error: "
                     +:+ exn_str UnicodeEncodeError)], Ok false).
Proof.
  intros Hin Hs. pose proof (utf8_encode_surrogate p c Hin Hs) as Hnone. split.
  - unfold get_password_hash, encode. rewrite Hnone. done.
  - unfold verify_password, encode.
    destruct hashed_password as [s|b| |z]; cbn [lift bind app].
    + destruct (utf8_encode s) as [sb|];
        cbn [of_option rbind lift bind app try_except]; [|done].
      rewrite Hnone. done.
    + rewrite Hnone. done.
    + rewrite Hnone. done.
    + rewrite Hnone. done.
Qed.

(** X8.  What [verify_password] decides on a hash that [get_password_hash]
    returned: it logs nothing and answers whether the digest of the first 72
    bytes of the candidate, under cost 12 and the salt of that hash, is the
    digest of the first 72 bytes of the hashed password. *)
Theorem verify_password_compares_digests (p p' : unicode) (pb pb' : bytes)
    (g : entropy) (h : unicode) :
  utf8_encode p = Some pb → utf8_encode p' = Some pb' →
  outcome (get_password_hash (Str p) g).1 = Ok h →
  verify_password (Str p') (Str h)
  = ([], Ok (bool_decide
               (radix64 31 (eksblowfish 12 (radix64 22 (urandom g).1)
                              (take 72 pb'))
                = radix64 31 (eksblowfish 12 (radix64 22 (urandom g).1)
                                (take 72 pb))))).
Proof.
  intros Hp Hp' Hout.
  destruct (get_password_hash_bytes p pb g Hp)
    as (f & hb & h0 & Hf & Hv & Hhb & Henc & Hh & Hget).
  rewrite Hget in Hout. cbn [fst snd outcome] in Hout. injection Hout as <-.
  rewrite (verify_password_str p' h0 pb' hb Hp' Henc).
  unfold checkpw, hashpw. rewrite Hhb at 1. rewrite (parse_format f _ Hv).
  cbn [rbind].
  assert (take 72 (take 72 pb') = take 72 pb') as ->
    by (rewrite take_take; f_equal; lia).
  assert (Hc : cost f = 12%N) by (by rewrite Hf).
  assert (Hs : salt22 f = radix64 22 (urandom g).1) by (by rewrite Hf).
  rewrite Hhb, Hc, Hs. f_equal. f_equal.
  apply bool_decide_ext. split.
  - by intros ?%app_inv_head.
  - by intros ->.
Qed.
End PasswordMoreFacts.

(** ** [app/main.py]: the health check *)

Section HealthFacts.
Import Py MainHandlers.

(** X10.  [GET /health] never reports a healthy service: the name
    [datetime] is bound nowhere in the module, the endpoint raises
    [NameError] on every call, and what the client receives, whatever the
    request and the clock, is the handler's 500 "Internal Server Error",
    with one ERROR record in the log. *)
Theorem health_check_answers_500 (request : Request) (utcnow_isoformat : string) :
  health_check utcnow_isoformat = inl (NameError "datetime")
  ∧ serve_health request utcnow_isoformat
    = ([Log ERROR "Unhandled error: name 'datetime' is not defined"],
       Ok (inl {| status_code := 500;
                  content_detail := "Internal Server Error";
                  headers :=
                    [("Access-Control-Allow-Origin",
                      default "*" (origin request));
                     ("Access-Control-Allow-Credentials", "true");
                     ("Access-Control-Allow-Methods",
                      "GET, POST, PUT, DELETE, OPTIONS");
                     ("Access-Control-Allow-Headers", "*")] |})).
Proof.
  assert (Hg : load_global "datetime" = inl (NameError "datetime")).
  { by vm_compute. }
  unfold serve_health, health_check. rewrite Hg. split; reflexivity.
Qed.
End HealthFacts.

(** ** Lists as tables *)

Section TableFacts.
Context {A : Type}.

Lemma find_app_last (f : A → bool) (l : list A) (x : A) :
  find f (l ++ [x])
  = match find f l with
    | Some y => Some y
    | None => if f x then Some x else None
    end.
Proof.
  induction l as [|y l IH]; cbn [find app]; [done|]. by destruct (f y).
Qed.

Lemma find_None_iff (f : A → bool) (l : list A) :
  find f l = None ↔ ∀ x, x ∈ l → f x = false.
Proof.
  induction l as [|y l IH]; cbn [find].
  - split; [|done]. intros _ x Hx. by apply elem_of_nil in Hx.
  - destruct (f y) eqn:E.
    + split; [done|]. intros Hall. rewrite Hall in E; [done|]. left.
    + rewrite IH. split.
      * intros Hall x [->|Hx]%elem_of_cons; auto.
      * intros Hall x Hx. apply Hall. by right.
Qed.

Lemma find_Some_elem (f : A → bool) (l : list A) (x : A) :
  find f l = Some x → x ∈ l ∧ f x = true.
Proof.
  induction l as [|y l IH]; cbn [find]; [done|].
  destruct (f y) eqn:E.
  - intros [= <-]. split; [left|done].
  - intros [Hx Hf]%IH. split; [by right|done].
Qed.

(** A filter that keeps everything the search accepts does not show. *)
Lemma find_filter_keeps (f : A → bool) (P : A → Prop) `{∀ x, Decision (P x)}
    (l : list A) :
  (∀ x, f x = true → P x) → find f (filter P l) = find f l.
Proof.
  intros Hk. induction l as [|y l IH]; [done|].
  rewrite filter_cons. cbn [find]. destruct (decide (P y)) as [Hy|Hy].
  - cbn [find]. by rewrite IH.
  - destruct (f y) eqn:E; [by apply Hk in E|done].
Qed.

(** A filter that drops everything the search accepts leaves nothing. *)
Lemma find_filter_drops (f : A → bool) (P : A → Prop) `{∀ x, Decision (P x)}
    (l : list A) :
  (∀ x, f x = true → ¬ P x) → find f (filter P l) = None.
Proof.
  intros Hd. apply find_None_iff. intros x [HP Hx]%list_elem_of_filter.
  destruct (f x) eqn:E; [|done]. by apply Hd in E.
Qed.

Lemma NoDup_fmap_filter {B} (g : A → B) (P : A → Prop) `{∀ x, Decision (P x)}
    (l : list A) :
  NoDup (g <$> l) → NoDup (g <$> filter P l).
Proof.
  intros Hnd. eapply sublist_NoDup; [exact Hnd|].
  apply fmap_sublist, sublist_filter.
Qed.
End TableFacts.

(** ** [app/routers/admin_news.py]: reads and deletion *)

Section NewsReadFacts.
Import Py Models AdminNews NewsSpec NewsReads.
Context `{Builtins} `{NewsModel}.

(** X11.  A row that [create_news] returns can be read back at once: by
    its key through the admin and the public endpoint and by its slug, each
    time the very row; every other key reads as before. *)
Theorem create_news_read_back (fuel : nat) (title content : string)
    (published_at : option Z) (featured_image : upload) (fresh_id : Z)
    (db db' : Session) (current_user : Admin) (row : News) :
  create_news fuel title content published_at featured_image fresh_id db
    current_user = Some (Ok row, db') →
  read_news (Models.news_id row) db' = Ok row
  ∧ read_public_news (Models.news_id row) db' = Ok row
  ∧ read_news_by_slug (news_slug row) db' = Ok row
  ∧ ∀ news_id, news_id ≠ Models.news_id row →
               read_news news_id db' = read_news news_id db.
Proof.
  unfold create_news. destruct published_at as [parsed|]; [|done].
  destruct (generate_unique_slug fuel db title None) as [slug|] eqn:Hslug; [|done].
  destruct (store_image featured_image) as [url|e]; [|done].
  case_bool_decide as Hfresh; [done|]. intros [= <- <-].
  cbn [Models.news_id news_slug].
  assert (Hid : find (λ r, bool_decide (Models.news_id r = fresh_id)) (news db)
                = None).
  { apply find_None_iff. intros r Hr. apply bool_decide_eq_false. intros Heq.
    apply Hfresh. apply list_elem_of_fmap. eauto. }
  assert (Hsl : find (λ r, bool_decide (news_slug r = slug)) (news db) = None).
  { apply find_None_iff. intros r Hr. apply bool_decide_eq_false.
    by apply (generate_unique_slug_fresh _ _ _ _ _ Hslug). }
  unfold read_news, read_public_news, read_news_by_slug. cbn [news].
  rewrite !find_app_last, Hid, Hsl. cbn [Models.news_id news_slug].
  rewrite !bool_decide_eq_true_2 by done. split_and!; try done.
  intros news_id Hne. rewrite find_app_last. cbn [Models.news_id].
  rewrite (bool_decide_eq_false_2 (fresh_id = news_id)) by done.
  by destruct (find (λ r, bool_decide (Models.news_id r = news_id)) (news db)).
Qed.
End NewsReadFacts.

Section NewsDeleteFacts.
Import Py Models AdminNews NewsSpec NewsReads.
Context `{S3Service.Store}.

(** X12.  [delete_news] either fails and leaves the database as it was
    (no row with the key, or the object store raised while the image was
    removed), or it succeeds: then the key reads 404 through every endpoint,
    every other key reads as before, users and admins are untouched, and
    keys and slugs that were unique stay unique. *)
Theorem delete_news_effect (news_id : Z) (db db' : Session)
    (current_user : Admin) (r : result string) :
  delete_news news_id db current_user = (r, db') →
  match r with
  | Raise e => db' = db
  | Ok detail =>
      detail = "News deleted"
      ∧ read_news news_id db' = Raise (HTTPException 404 "News not found" [])
      ∧ read_public_news news_id db'
        = Raise (HTTPException 404 "News not found" [])
      ∧ (∀ other, other ≠ news_id → read_news other db' = read_news other db)
      ∧ users db' = users db ∧ admins db' = admins db
      ∧ (unique_ids db → unique_ids db')
      ∧ (unique_slugs db → unique_slugs db')
  end.
Proof.
  unfold delete_news.
  destruct (find _ (news db)) as [db_news|] eqn:Hfind; [|by intros [= <- <-]].
  apply find_Some_elem in Hfind as [Hin Hid%bool_decide_eq_true].
  destruct (if Text.truthy _ then _ else _) as [[]|e]; intros [= <- <-]; [|done].
  rewrite Hid. unfold read_news, read_public_news, unique_ids, unique_slugs.
  cbn [news users admins]. split_and!; try done.
  - rewrite find_filter_drops; [done|].
    by intros x Hx%bool_decide_eq_true Hne.
  - rewrite find_filter_drops; [done|].
    by intros x Hx%bool_decide_eq_true Hne.
  - intros other Hne. rewrite find_filter_keeps; [done|].
    intros x Hx%bool_decide_eq_true. congruence.
  - apply NoDup_fmap_filter.
  - apply NoDup_fmap_filter.
Qed.
End NewsDeleteFacts.

(** ** [update_news]: sending a form twice *)

Section NewsUpdateFacts.
Import Py Models AdminNews NewsSpec NewsReads.
Context `{Builtins} `{NewsModel} `{S3Service.Store}.










End NewsUpdateFacts.

(** ** Whom a new article is announced to *)

Section RecipientFacts.
Import NewsReads.

(** The first loop, from any state of the list and of the set. *)
Lemma students_loop (l : list Student) :
  ∀ (acc : list Recipient) (seen : gset string),
  ∃ new seen',
    foldl (λ '(all_recipients, student_emails) student,
             if bool_decide (student_email student ∉ (student_emails : gset string))
             then (all_recipients
                     ++ [{| recipient_email := student_email student;
                            recipient_name := student_full_name student;
                            recipient_type := "student" |}],
                   {[ student_email student ]} ∪ student_emails)
             else (all_recipients, student_emails))
      (acc, seen) l = (acc ++ new, seen')
    ∧ (∀ x, x ∈ seen' ↔ x ∈ seen ∨ x ∈ student_email <$> l)
    ∧ (∀ r, r ∈ new →
            recipient_type r = "student"
            ∧ (recipient_email r ∉ seen)
            ∧ ∃ s, s ∈ l ∧ recipient_email r = student_email s
                   ∧ recipient_name r = student_full_name s)
    ∧ (∀ s, s ∈ l → student_email s ∉ seen →
            student_email s ∈ recipient_email <$> new)
    ∧ NoDup (recipient_email <$> new).
Proof.
  induction l as [|s l IH]; intros acc seen.
  - exists [], seen. cbn [foldl]. rewrite app_nil_r. split; [done|].
    split; [set_solver|]. split; [set_solver|]. split; [set_solver|].
    constructor.
  - cbn [foldl]. case_bool_decide as Hs.
    + destruct (IH (acc ++ [{| recipient_email := student_email s;
                               recipient_name := student_full_name s;
                               recipient_type := "student" |}])
                  ({[ student_email s ]} ∪ seen))
        as (new & seen' & Hfold & Hseen & Hnew & Hcov & Hnd).
      exists ({| recipient_email := student_email s;
                 recipient_name := student_full_name s;
                 recipient_type := "student" |} :: new), seen'.
      split; [by rewrite Hfold, <- app_assoc|].
      split; [intros x; rewrite Hseen, fmap_cons; set_solver|].
      split.
      { intros r [->|Hr]%elem_of_cons.
        - cbn. split; [done|]. split; [done|]. exists s. split; [left|done].
        - destruct (Hnew r Hr) as (Ht & Hnotin & s' & Hs' & He & Hn).
          split; [done|]. split; [set_solver|].
          exists s'. split; [by right|done]. }
      split.
      { intros s' Hs' Hnotin. rewrite fmap_cons. cbn [recipient_email].
        destruct (decide (student_email s' = student_email s)) as [->|Hne];
          [left|].
        right. apply elem_of_cons in Hs' as [->|Hs']; [done|].
        apply Hcov; [done|]. set_solver. }
      rewrite fmap_cons. cbn [recipient_email]. constructor; [|done].
      intros (r & He & Hr)%list_elem_of_fmap.
      destruct (Hnew r Hr) as (_ & Hnotin & _). set_solver.
    + destruct (IH acc seen) as (new & seen' & Hfold & Hseen & Hnew & Hcov & Hnd).
      exists new, seen'. split; [done|].
      assert (Hin : student_email s ∈ seen).
      { destruct (decide (student_email s ∈ seen)); [done|]. by exfalso. }
      split; [intros x; rewrite Hseen, fmap_cons; set_solver|].
      split.
      { intros r Hr. destruct (Hnew r Hr) as (Ht & Hnotin & s' & Hs' & He & Hn).
        split; [done|]. split; [done|]. exists s'. split; [by right|done]. }
      split; [|done].
      intros s' [->|Hs']%elem_of_cons Hnotin; [done|]. by apply Hcov.
Qed.

(** The second loop appends the subscribers that the set does not hold. *)
Lemma subscribers_loop (seen : gset string) (l : list Subscriber) :
  ∀ acc : list Recipient,
  foldl (λ all_recipients subscriber,
           if bool_decide (subscriber_email subscriber ∉ seen)
           then all_recipients
                  ++ [{| recipient_email := subscriber_email subscriber;
                         recipient_name := "Subscriber";
                         recipient_type := "subscriber" |}]
           else all_recipients) acc l
  = acc ++ ((λ s, {| recipient_email := subscriber_email s;
                     recipient_name := "Subscriber";
                     recipient_type := "subscriber" |})
              <$> filter (λ s, subscriber_email s ∉ seen) l).
Proof.
  induction l as [|s l IH]; intros acc; cbn [foldl].
  - by rewrite app_nil_r.
  - rewrite filter_cons, IH.
    destruct (decide (subscriber_email s ∉ seen)) as [Hs|Hs].
    + rewrite bool_decide_eq_true_2 by done.
      by rewrite fmap_cons, <- app_assoc.
    + by rewrite bool_decide_eq_false_2 by done.
Qed.

(** X14.  The list of recipients that [create_news] and [update_news]
    build: every active student and every active subscriber is reached at
    their address; every entry is an active student, under the student's
    name, or an active subscriber whose address no active student has; and
    when the active subscribers have distinct addresses no address occurs
    twice. *)
Theorem all_recipients_complete_and_distinct (student_table : list Student)
    (subscriber_table : list Subscriber) :
  (∀ s, s ∈ student_table → student_is_active s = true →
        ∃ r, r ∈ all_recipients student_table subscriber_table
             ∧ recipient_email r = student_email s
             ∧ recipient_type r = "student")
  ∧ (∀ s, s ∈ subscriber_table → subscriber_is_active s = true →
          subscriber_email s
          ∈ recipient_email <$> all_recipients student_table subscriber_table)
  ∧ (∀ r, r ∈ all_recipients student_table subscriber_table →
          (recipient_type r = "student"
           ∧ ∃ s, s ∈ student_table ∧ student_is_active s = true
                  ∧ recipient_email r = student_email s
                  ∧ recipient_name r = student_full_name s)
          ∨ (recipient_type r = "subscriber"
             ∧ recipient_name r = "Subscriber"
             ∧ (∃ s, s ∈ subscriber_table ∧ subscriber_is_active s = true
                     ∧ recipient_email r = subscriber_email s)
             ∧ ∀ s, s ∈ student_table → student_is_active s = true →
                    student_email s ≠ recipient_email r))
  ∧ (NoDup (subscriber_email
              <$> filter (λ s, subscriber_is_active s = true) subscriber_table) →
     NoDup (recipient_email <$> all_recipients student_table subscriber_table)).
Proof.
  unfold all_recipients.
  destruct (students_loop
              (filter (λ s, student_is_active s = true) student_table) [] ∅)
    as (new & seen' & Hfold & Hseen & Hnew & Hcov & Hnd).
  rewrite Hfold. cbn [app]. rewrite subscribers_loop.
  set (subs := filter (λ s, subscriber_is_active s = true) subscriber_table).
  assert (Hstud : ∀ x, x ∈ seen' ↔
            ∃ s, s ∈ student_table ∧ student_is_active s = true
                 ∧ student_email s = x).
  { intros x. rewrite Hseen. split.
    - intros [Hx|(s & -> & [Ha Hs]%list_elem_of_filter)%list_elem_of_fmap];
        [set_solver|]. eauto.
    - intros (s & Hs & Ha & <-). right. apply list_elem_of_fmap.
      exists s. split; [done|]. by apply list_elem_of_filter. }
  split_and!.
  - intros s Hs Ha.
    assert (Hc : student_email s ∈ recipient_email <$> new).
    { apply Hcov; [by apply list_elem_of_filter|set_solver]. }
    apply list_elem_of_fmap in Hc as (r & He & Hr).
    exists r. split; [apply elem_of_app; by left|]. split; [done|].
    by destruct (Hnew r Hr).
  - intros s Hs Ha. rewrite fmap_app. apply elem_of_app.
    destruct (decide (subscriber_email s ∈ seen')) as [Hin|Hnotin].
    + left. apply Hstud in Hin as (st & Hst & Hact & He). rewrite <- He.
      apply Hcov; [by apply list_elem_of_filter|set_solver].
    + right. rewrite <- list_fmap_compose. apply list_elem_of_fmap.
      exists s. split; [done|]. apply list_elem_of_filter. split; [done|].
      by apply list_elem_of_filter.
  - intros r [Hr|Hr]%elem_of_app.
    + left. destruct (Hnew r Hr) as (Ht & _ & s & [Ha Hs]%list_elem_of_filter & He & Hn).
      split; [done|]. eauto.
    + right. apply list_elem_of_fmap in Hr as (s & -> & [Hnotin Hs]%list_elem_of_filter).
      apply list_elem_of_filter in Hs as [Ha Hs]. cbn.
      split; [done|]. split; [done|]. split; [eauto|].
      intros st Hst Hact He. apply Hnotin, Hstud. eauto.
  - intros Hsubs. rewrite fmap_app. apply NoDup_app. split; [done|]. split.
    + intros x (r & -> & Hr)%list_elem_of_fmap.
      rewrite <- list_fmap_compose.
      intros (s & He & [Hnotin _]%list_elem_of_filter)%list_elem_of_fmap.
      cbn in He. apply Hnotin. rewrite <- He. apply Hseen. right.
      destruct (Hnew r Hr) as (_ & _ & st & Hst & Hest & _).
      rewrite Hest. apply list_elem_of_fmap. eauto.
    + rewrite <- list_fmap_compose.
      eapply sublist_NoDup; [exact Hsubs|].
      apply (fmap_sublist subscriber_email), sublist_filter.
Qed.
End RecipientFacts.

(** ** [app/routers/admin_subscriber.py] *)

Section SubscriberFacts.
Import Py Text NewsReads AdminSubscriberOps.
Context `{Case} `{SubscriberModel}.

Lemma commit_ids (table : list Subscriber) (row : Subscriber) :
  subscriber_id <$> commit table row = subscriber_id <$> table.
Proof.
  unfold commit. rewrite <- list_fmap_compose. apply list_fmap_ext.
  intros i x _. cbn. by case_bool_decide.
Qed.

(** With unique keys a commit touches the fetched row and no other. *)
Lemma commit_emails (table : list Subscriber) (x row : Subscriber) :
  NoDup (subscriber_id <$> table) → x ∈ table →
  subscriber_id row = subscriber_id x →
  subscriber_email row = subscriber_email x →
  subscriber_email <$> commit table row = subscriber_email <$> table.
Proof.
  intros Hnd Hx Hid He. unfold commit. rewrite <- list_fmap_compose.
  apply list_fmap_ext. intros i y Hy. cbn. case_bool_decide as Heq; [|done].
  rewrite He. f_equal.
  apply (NoDup_fmap_1 subscriber_id) in Hnd as Hnd'.
  apply list_elem_of_lookup_2 in Hy.
  apply list_elem_of_lookup in Hx as [j Hj], Hy as [k Hk].
  assert (j = k) as ->; [|congruence].
  eapply NoDup_lookup; [exact Hnd| |]; rewrite list_lookup_fmap.
  - by rewrite Hj.
  - rewrite Hk. cbn. congruence.
Qed.

(** After the commit the query that fetched a row fetches the new one. *)
Lemma find_commit_email (table : list Subscriber) (e : string)
    (x row : Subscriber) :
  find (λ r, bool_decide (subscriber_email r = e)) table = Some x →
  subscriber_id row = subscriber_id x →
  subscriber_email row = subscriber_email x →
  find (λ r, bool_decide (subscriber_email r = e)) (commit table row) = Some row.
Proof.
  intros Hfind Hid He. unfold commit.
  induction table as [|y l IH]; [done|].
  rewrite fmap_cons. cbn [find] in *. case_bool_decide as Hy.
  - injection Hfind as ->.
    rewrite (bool_decide_eq_true_2 (subscriber_id x = subscriber_id row))
      by done.
    by rewrite bool_decide_eq_true_2 by congruence.
  - destruct (bool_decide (subscriber_id y = subscriber_id row)).
    + apply find_Some_elem in Hfind as [_ Hx%bool_decide_eq_true].
      by rewrite bool_decide_eq_true_2 by congruence.
    + rewrite bool_decide_eq_false_2 by done. by apply IH.
Qed.

Lemma find_commit_id (table : list Subscriber) (x row : Subscriber) :
  find (λ r, bool_decide (subscriber_id r = subscriber_id x)) table = Some x →
  subscriber_id row = subscriber_id x →
  find (λ r, bool_decide (subscriber_id r = subscriber_id x)) (commit table row)
  = Some row.
Proof.
  intros Hfind Hid. unfold commit.
  induction table as [|y l IH]; [done|].
  rewrite fmap_cons. cbn [find] in *. case_bool_decide as Hy.
  - rewrite (bool_decide_eq_true_2 (subscriber_id y = subscriber_id row))
      by congruence.
    by rewrite bool_decide_eq_true_2 by done.
  - rewrite (bool_decide_eq_false_2 (subscriber_id y = subscriber_id row))
      by congruence.
    rewrite bool_decide_eq_false_2 by done. by apply IH.
Qed.

(** X15.  Unique keys and unique addresses are an invariant of the
    Subscriber table: [subscribe], [unsubscribe], [update_subscriber] and
    [delete_subscriber] keep both, whatever their arguments and whether they
    succeed or raise. *)
Theorem subscriber_table_invariant (table : list Subscriber) :
  NoDup (subscriber_id <$> table) → NoDup (subscriber_email <$> table) →
  (∀ email utcnow fresh_id,
     NoDup (subscriber_id <$> (subscribe email utcnow fresh_id table).2)
     ∧ NoDup (subscriber_email <$> (subscribe email utcnow fresh_id table).2))
  ∧ (∀ email utcnow,
       NoDup (subscriber_id <$> (unsubscribe email utcnow table).2)
       ∧ NoDup (subscriber_email <$> (unsubscribe email utcnow table).2))
  ∧ (∀ subscriber_id is_active utcnow,
       NoDup (NewsReads.subscriber_id
                <$> (update_subscriber subscriber_id is_active utcnow table).2)
       ∧ NoDup (subscriber_email
                  <$> (update_subscriber subscriber_id is_active utcnow table).2))
  ∧ (∀ subscriber_id,
       NoDup (NewsReads.subscriber_id <$> (delete_subscriber subscriber_id table).2)
       ∧ NoDup (subscriber_email <$> (delete_subscriber subscriber_id table).2)).
Proof.
  intros Hids Hemails. split_and!.
  - intros email utcnow fresh_id. unfold subscribe.
    destruct (is_valid_email email); cbn [negb snd]; [|done].
    destruct (find _ table) as [existing|] eqn:Hfind.
    + apply find_Some_elem in Hfind as [Hin _].
      destruct (subscriber_is_active existing); cbn [snd]; [done|].
      rewrite commit_ids, (commit_emails table existing) by done. done.
    + case_bool_decide as Hfresh; cbn [snd]; [done|].
      rewrite !fmap_app. cbn [fmap list_fmap subscriber_id subscriber_email].
      split; apply NoDup_app; (split; [done|]);
        (split; [|apply NoDup_singleton]).
      * intros x Hx ->%list_elem_of_singleton. done.
      * intros x (r & -> & Hr)%list_elem_of_fmap Heq%list_elem_of_singleton.
        pose proof (proj1 (find_None_iff _ _) Hfind r Hr) as Hr'.
        by apply bool_decide_eq_false in Hr'.
  - intros email utcnow. unfold unsubscribe.
    destruct (find _ table) as [subscriber|] eqn:Hfind; [|done].
    apply find_Some_elem in Hfind as [Hin _].
    destruct (subscriber_is_active subscriber); cbn [negb snd]; [|done].
    rewrite commit_ids, (commit_emails table subscriber) by done. done.
  - intros subscriber_id is_active utcnow. unfold update_subscriber.
    destruct (find _ table) as [subscriber|] eqn:Hfind; [|done].
    apply find_Some_elem in Hfind as [Hin _].
    destruct is_active as [active|]; cbn [snd]; [|done].
    rewrite commit_ids, (commit_emails table subscriber) by done. done.
  - intros subscriber_id. unfold delete_subscriber.
    destruct (find _ table) as [subscriber|]; cbn [snd]; [|done].
    split; by apply NoDup_fmap_filter.
Qed.

(** X16.  [unsubscribe] is idempotent and [subscribe] undoes it on the
    same row: after a call that answered, a second call for any spelling of
    the address answers "Already unsubscribed" and changes nothing; a
    later [subscribe] with a valid spelling adds no row but returns the
    row of the same key and address, active again, subscribed at the new
    clock and with [unsubscribed_at] cleared. *)
Theorem unsubscribe_then_subscribe (email email' : string) (utcnow utcnow' : Z)
    (fresh_id : Z) (table table' : list Subscriber) (detail : string) :
  unsubscribe email utcnow table = (Ok detail, table') →
  lower email' = lower email →
  unsubscribe email' utcnow' table' = (Ok "Already unsubscribed", table')
  ∧ (is_valid_email email' = true →
     ∃ old row,
       find (λ r, bool_decide (subscriber_email r = lower email)) table = Some old
       ∧ row = {| subscriber_id := subscriber_id old;
                  subscriber_email := subscriber_email old;
                  subscriber_is_active := true;
                  subscribed_at := Some utcnow';
                  unsubscribed_at := None |}
       ∧ (subscribe email' utcnow' fresh_id table').1 = Ok row
       ∧ subscriber_id <$> (subscribe email' utcnow' fresh_id table').2
         = subscriber_id <$> table
       ∧ search_subscriber_by_email email
           (subscribe email' utcnow' fresh_id table').2 = Ok row).
Proof.
  unfold unsubscribe at 1.
  destruct (find _ table) as [old|] eqn:Hfind; [|done].
  intros Hu Hlow.
  assert (∃ gone, find (λ r, bool_decide (subscriber_email r = lower email))
                    table' = Some gone
                  ∧ subscriber_is_active gone = false
                  ∧ subscriber_id gone = subscriber_id old
                  ∧ subscriber_email gone = subscriber_email old
                  ∧ subscriber_id <$> table' = subscriber_id <$> table)
    as (gone & Hgone & Hinactive & Hgid & Hgemail & Hgids).
  { destruct (subscriber_is_active old) eqn:Hact; cbn [negb] in Hu;
      injection Hu as <- <-.
    - eexists. split; [by apply (find_commit_email _ _ old)|].
      split; [done|]. split; [done|]. split; [done|]. apply commit_ids.
    - by exists old. }
  split.
  - unfold unsubscribe. rewrite Hlow, Hgone, Hinactive. done.
  - intros Hvalid. exists old. eexists. split; [done|]. split; [reflexivity|].
    unfold subscribe, search_subscriber_by_email.
    rewrite Hvalid, Hlow, Hgone, Hinactive. cbn [negb fst snd].
    rewrite Hgid, Hgemail. split; [done|].
    split; [by rewrite commit_ids|].
    by rewrite (find_commit_email _ _ gone).
Qed.

(** X17.  A subscription can be found again: the row that [subscribe]
    returns (new or reactivated) is active under the lower-cased address,
    [search_subscriber_by_email] returns it for every spelling that
    lower-cases alike, and [get_subscriber] returns it for its key. *)
Theorem subscribe_then_search (email email' : string) (utcnow fresh_id : Z)
    (table table' : list Subscriber) (row : Subscriber) :
  subscribe email utcnow fresh_id table = (Ok row, table') →
  lower email' = lower email →
  subscriber_email row = lower email
  ∧ subscriber_is_active row = true
  ∧ search_subscriber_by_email email' table' = Ok row
  ∧ get_subscriber (subscriber_id row) table' = Ok row.
Proof.
  unfold subscribe. destruct (is_valid_email email); cbn [negb]; [|done].
  destruct (find _ table) as [existing|] eqn:Hfind.
  - destruct (subscriber_is_active existing); [done|].
    intros [= <- <-] Hlow. cbn [subscriber_email subscriber_is_active subscriber_id].
    pose proof Hfind as [Hin He%bool_decide_eq_true]%find_Some_elem.
    split; [done|]. split; [done|].
    unfold search_subscriber_by_email, get_subscriber. rewrite Hlow.
    rewrite (find_commit_email _ _ existing) by done. split; [done|].
    assert (Hfirst : ∃ first,
              find (λ r, bool_decide (subscriber_id r = subscriber_id existing))
                table = Some first ∧ subscriber_id first = subscriber_id existing).
    { destruct (find (λ r, bool_decide (subscriber_id r = subscriber_id existing))
                  table) as [first|] eqn:Hf.
      - apply find_Some_elem in Hf as [_ Hf%bool_decide_eq_true]. eauto.
      - pose proof (proj1 (find_None_iff _ _) Hf existing Hin) as Hx.
        by apply bool_decide_eq_false in Hx. }
    destruct Hfirst as (first & Hf & Hfid). rewrite <- Hfid in Hf |- *.
    by rewrite (find_commit_id _ first).
  - case_bool_decide as Hfresh; [done|]. intros [= <- <-] Hlow.
    cbn [subscriber_email subscriber_is_active subscriber_id].
    split; [done|]. split; [done|].
    unfold search_subscriber_by_email, get_subscriber.
    rewrite !find_app_last, Hlow, Hfind.
    cbn [subscriber_email subscriber_id].
    rewrite !bool_decide_eq_true_2 by done. split; [done|].
    assert (find (λ r, bool_decide (subscriber_id r = fresh_id)) table = None)
      as ->; [|done].
    apply find_None_iff. intros r Hr. apply bool_decide_eq_false. intros Heq.
    apply Hfresh. apply list_elem_of_fmap. eauto.
Qed.

(** X18.  The three figures of [get_subscriber_stats] partition the table:
    [unsubscribed], computed as a difference, is the number of rows that are
    not active, none of the figures is negative, and active and unsubscribed
    add up to the total. *)
Theorem subscriber_stats_partition (table : list Subscriber) :
  unsubscribed (get_subscriber_stats table)
  = Z.of_nat (length (filter (λ r, subscriber_is_active r = false) table))
  ∧ (0 ≤ active_subscribers (get_subscriber_stats table))%Z
  ∧ (0 ≤ unsubscribed (get_subscriber_stats table))%Z
  ∧ total_subscribers (get_subscriber_stats table)
    = (active_subscribers (get_subscriber_stats table)
       + unsubscribed (get_subscriber_stats table))%Z.
Proof.
  assert (Hsplit : length table
                   = (length (filter (λ r, subscriber_is_active r = true) table)
                      + length (filter (λ r, subscriber_is_active r = false) table))%nat).
  { induction table as [|x l IH]; [done|]. rewrite !filter_cons.
    destruct (subscriber_is_active x); cbn [length];
      repeat (destruct (decide _); try done); cbn [length]; lia. }
  unfold get_subscriber_stats.
  cbn [unsubscribed active_subscribers total_subscribers]. lia.
Qed.
End SubscriberFacts.

(** ** [app/routers/admin_gallery.py] *)

Section GalleryFacts.
Import Py Text AdminGalleryOps.
Context `{Builtins} `{Case} `{GalleryModel} `{S3Service.Store}.

Lemma set_display_order_same (r : Gallery) :
  set_display_order r (gallery_display_order r) = r.
Proof. by destruct r. Qed.

(** With unique keys one pass of the loop is a map over the table. *)
Lemma reorder_step (table : list Gallery) (gallery_id new_order : Z) :
  NoDup (AdminGalleryOps.gallery_id <$> table) →
  match find (λ r, bool_decide (AdminGalleryOps.gallery_id r = gallery_id)) table with
  | Some db_gallery => commit table (set_display_order db_gallery new_order)
  | None => table
  end
  = (λ r, if bool_decide (AdminGalleryOps.gallery_id r = gallery_id)
          then set_display_order r new_order else r) <$> table.
Proof.
  intros Hnd.
  destruct (find _ table) as [g|] eqn:Hfind.
  - apply find_Some_elem in Hfind as [Hg Hid%bool_decide_eq_true].
    unfold commit. apply list_fmap_ext. intros i r Hr.
    cbn [AdminGalleryOps.gallery_id set_display_order]. rewrite Hid.
    case_bool_decide as Heq; [|done]. f_equal.
    apply list_elem_of_lookup in Hg as [j Hj].
    assert (j = i) as ->; [|congruence].
    eapply NoDup_lookup; [exact Hnd| |]; rewrite list_lookup_fmap.
    + by rewrite Hj.
    + rewrite Hr. cbn. congruence.
  - rewrite <- (list_fmap_id table) at 1. apply list_fmap_ext.
    intros i r Hr%list_elem_of_lookup_2.
    pose proof (proj1 (find_None_iff _ _) Hfind r Hr) as Hne.
    cbn in Hne |- *. by rewrite Hne.
Qed.

Lemma reorder_loop_spec (gallery_items : list (gmap string Z)) :
  ∀ table : list Gallery,
  NoDup (gallery_id <$> table) →
  Forall (λ item, is_Some (item !! "id") ∧ is_Some (item !! "display_order"))
    gallery_items →
  reorder_loop gallery_items table
  = inr ((λ r, set_display_order r
                 (foldl (λ order item,
                           if bool_decide (item !! "id" = Some (gallery_id r))
                           then default order (item !! "display_order")
                           else order)
                    (gallery_display_order r) gallery_items)) <$> table).
Proof.
  induction gallery_items as [|item rest IH]; intros table Hnd Hall.
  - cbn [reorder_loop foldl]. f_equal.
    rewrite <- (list_fmap_id table) at 1. apply list_fmap_ext.
    intros i r _. by rewrite set_display_order_same.
  - apply Forall_cons in Hall as [[[k Hk] [o Ho]] Hall].
    cbn [reorder_loop foldl]. rewrite Hk, Ho.
    rewrite (reorder_step table k o Hnd). rewrite IH; [|..|done].
    + f_equal. rewrite <- list_fmap_compose. apply list_fmap_ext.
      intros i r _. cbn [compose default].
      destruct (decide (gallery_id r = k)) as [Heq|Hne].
      * rewrite bool_decide_eq_true_2 by done.
        rewrite bool_decide_eq_true_2 by congruence. done.
      * rewrite bool_decide_eq_false_2 by done.
        rewrite bool_decide_eq_false_2 by congruence. done.
    + rewrite <- list_fmap_compose.
      erewrite list_fmap_ext; [exact Hnd|]. intros i r _. cbn.
      by case_bool_decide.
Qed.

Lemma reorder_loop_fails (gallery_items : list (gmap string Z)) :
  ∀ table : list Gallery,
  ¬ Forall (λ item, is_Some (item !! "id") ∧ is_Some (item !! "display_order"))
      gallery_items →
  ∃ e, reorder_loop gallery_items table = inl e.
Proof.
  induction gallery_items as [|item rest IH]; intros table Hall.
  - exfalso. apply Hall. constructor.
  - cbn [reorder_loop].
    destruct (item !! "id") as [k|] eqn:Hk; [|eauto].
    destruct (item !! "display_order") as [o|] eqn:Ho; [|eauto].
    apply IH. intros Hrest. apply Hall. constructor; [|done].
    rewrite Hk, Ho. eauto.
Qed.

(** X19.  [reorder_gallery] on a table with unique keys is all or
    nothing.  When every item of the request has an [id] and a
    [display_order], each row takes the order of the last item that names
    its key, rows that no item names and all other columns stay as they
    were, and ids that are not in the table are passed over in silence.
    When one item lacks a key, the answer is 500 and no row has changed,
    also not those named by the items before it. *)
Theorem reorder_gallery_all_or_nothing (gallery_items : list (gmap string Z))
    (table : list Gallery) :
  NoDup (gallery_id <$> table) →
  reorder_gallery gallery_items table
  = if bool_decide
         (Forall (λ item, is_Some (item !! "id")
                          ∧ is_Some (item !! "display_order")) gallery_items)
    then (Ok "Gallery items reordered successfully",
          (λ r, set_display_order r
                  (foldl (λ order item,
                            if bool_decide (item !! "id" = Some (gallery_id r))
                            then default order (item !! "display_order")
                            else order)
                     (gallery_display_order r) gallery_items)) <$> table)
    else (Raise (HTTPException 500 "Failed to reorder gallery items" []), table).
Proof.
  intros Hnd. unfold reorder_gallery. case_bool_decide as Hall.
  - by rewrite (reorder_loop_spec _ _ Hnd Hall).
  - by destruct (reorder_loop_fails _ table Hall) as [e ->].
Qed.

(** X20.  The public reads of one gallery item and of one leadership
    profile never answer 404: they return what the admin endpoints return
    for a key of the table, but for a key that is absent, where the admin
    endpoints raise 404, the [except Exception] around the body turns the
    404 into 500 "Internal server error". *)
Theorem public_reads_turn_404_into_500 (gallery_id : Z) (table : list Gallery)
    (leadership_id : Z) (profiles : list AdminLeadershipOps.Leadership) :
  match read_gallery gallery_id table with
  | Ok item => read_public_gallery gallery_id table = Ok item
  | Raise e =>
      e = HTTPException 404 "Gallery item not found" []
      ∧ read_public_gallery gallery_id table
        = Raise (HTTPException 500 "Internal server error" [])
  end
  ∧ match AdminLeadershipOps.read_leadership leadership_id profiles with
    | Ok profile =>
        AdminLeadershipOps.read_public_leadership leadership_id profiles
        = Ok profile
    | Raise e =>
        e = HTTPException 404 "Leadership profile not found" []
        ∧ AdminLeadershipOps.read_public_leadership leadership_id profiles
          = Raise (HTTPException 500 "Internal server error" [])
    end.
Proof.
  unfold read_gallery, read_public_gallery, AdminLeadershipOps.read_leadership,
    AdminLeadershipOps.read_public_leadership.
  split.
  - by destruct (find _ table).
  - by destruct (find _ profiles).
Qed.

(** What the blocks of [update_gallery] leave alone. *)
Lemma update_gallery_row (gallery_id : Z)
    (title description category year : option string)
    (display_order : option Z) (image : AdminNews.upload) (remove_image : string)
    (table table' : list Gallery) (row : Gallery) :
  update_gallery gallery_id title description category year display_order
    image remove_image table = (Ok row, table') →
  ∃ old,
    old ∈ table ∧ AdminGalleryOps.gallery_id old = gallery_id
    ∧ AdminGalleryOps.gallery_id row = gallery_id
    ∧ (table' = table ∨ table' = commit table row)
    ∧ (gallery_category row = gallery_category old
       ∨ is_category (gallery_category row) = true)
    ∧ (gallery_image_url row = gallery_image_url old
       ∨ truthy (gallery_image_url row) = true).
Proof.
  unfold update_gallery.
  destruct (find _ table) as [old|] eqn:Hfind; [|done].
  apply find_Some_elem in Hfind as [Hold Hid%bool_decide_eq_true].
  destruct (update_title title old false) as [r1 u1] eqn:E1.
  destruct (update_description description r1 u1) as [r2 u2] eqn:E2.
  destruct (update_category category r2 u2) as [[r3 u3]|e] eqn:E3;
    cbn [rbind]; [|done].
  destruct (update_year year r3 u3) as [r4 u4] eqn:E4.
  destruct (update_display_order display_order r4 u4) as [r5 u5] eqn:E5.
  destruct (update_image image remove_image r5 u5) as [[r6 u6]|e] eqn:E6;
    [|done].
  assert (K1 : AdminGalleryOps.gallery_id r1 = AdminGalleryOps.gallery_id old
               ∧ gallery_category r1 = gallery_category old
               ∧ gallery_image_url r1 = gallery_image_url old).
  { unfold update_title in E1. repeat case_match; by injection E1 as <- <-. }
  assert (K2 : AdminGalleryOps.gallery_id r2 = AdminGalleryOps.gallery_id r1
               ∧ gallery_category r2 = gallery_category r1
               ∧ gallery_image_url r2 = gallery_image_url r1).
  { unfold update_description in E2. repeat case_match; by injection E2 as <- <-. }
  assert (K3 : AdminGalleryOps.gallery_id r3 = AdminGalleryOps.gallery_id r2
               ∧ (gallery_category r3 = gallery_category r2
                  ∨ is_category (gallery_category r3) = true)
               ∧ gallery_image_url r3 = gallery_image_url r2).
  { unfold update_category in E3. repeat case_match; simplify_eq; cbn; auto. }
  assert (K4 : AdminGalleryOps.gallery_id r4 = AdminGalleryOps.gallery_id r3
               ∧ gallery_category r4 = gallery_category r3
               ∧ gallery_image_url r4 = gallery_image_url r3).
  { unfold update_year in E4. repeat case_match; by injection E4 as <- <-. }
  assert (K5 : AdminGalleryOps.gallery_id r5 = AdminGalleryOps.gallery_id r4
               ∧ gallery_category r5 = gallery_category r4
               ∧ gallery_image_url r5 = gallery_image_url r4).
  { unfold update_display_order in E5.
    repeat case_match; by injection E5 as <- <-. }
  assert (K6 : AdminGalleryOps.gallery_id r6 = AdminGalleryOps.gallery_id r5
               ∧ gallery_category r6 = gallery_category r5
               ∧ (gallery_image_url r6 = gallery_image_url r5
                  ∨ truthy (gallery_image_url r6) = true)).
  { unfold update_image, check_image, upload_image in E6.
    destruct image; cbn [rbind] in E6; try done.
    - destruct (_ && _); [done|]. injection E6 as <- <-. auto.
    - destruct (if truthy _ then _ else _); cbn [rbind] in E6; done.
    - destruct (if truthy _ then _ else _); cbn [rbind] in E6; [|done].
      case_bool_decide as Hurl; cbn [rbind] in E6; [done|].
      injection E6 as <- <-. cbn. split; [done|]. split; [done|]. right.
      by apply bool_decide_eq_true. }
  destruct K1 as (I1 & C1 & U1), K2 as (I2 & C2 & U2), K3 as (I3 & C3 & U3),
    K4 as (I4 & C4 & U4), K5 as (I5 & C5 & U5), K6 as (I6 & C6 & U6).
  intros Hres. exists old. split; [done|]. split; [done|].
  assert (row = r6) as -> by (destruct u6; by injection Hres as <- <-).
  split; [congruence|].
  split; [destruct u6; injection Hres as <-; auto|].
  split.
  - destruct C3 as [C3|C3]; [left; congruence|right; congruence].
  - destruct U6 as [U6|U6]; [left; congruence|by right].
Qed.

(** X21.  That every row has an image and a category of the enum is an
    invariant of the Gallery table (keys unique): [create_gallery],
    [update_gallery], [reorder_gallery] and [delete_gallery] keep it,
    whatever their arguments and whether they succeed or raise.  In
    particular no request removes the image of a row. *)
Theorem gallery_rows_keep_image_and_category (table : list Gallery) :
  NoDup (gallery_id <$> table) →
  Forall (λ r, truthy (gallery_image_url r) = true
               ∧ is_category (gallery_category r) = true) table →
  (∀ title description category year display_order image fresh_id,
     Forall (λ r, truthy (gallery_image_url r) = true
                  ∧ is_category (gallery_category r) = true)
       (create_gallery title description category year display_order image
          fresh_id table).2)
  ∧ (∀ gallery_id title description category year display_order image
       remove_image,
       Forall (λ r, truthy (gallery_image_url r) = true
                    ∧ is_category (gallery_category r) = true)
         (update_gallery gallery_id title description category year
            display_order image remove_image table).2)
  ∧ (∀ gallery_items,
       Forall (λ r, truthy (gallery_image_url r) = true
                    ∧ is_category (gallery_category r) = true)
         (reorder_gallery gallery_items table).2)
  ∧ (∀ gallery_id,
       Forall (λ r, truthy (gallery_image_url r) = true
                    ∧ is_category (gallery_category r) = true)
         (delete_gallery gallery_id table).2).
Proof.
  intros Hnd Hinv. split_and!.
  - intros title description category year display_order image fresh_id.
    unfold create_gallery.
    destruct (is_category (upper category)) eqn:Hcat; cbn [negb snd]; [|done].
    destruct (rbind _ _) as [url|e] eqn:Himg; cbn [snd]; [|done].
    case_bool_decide as Hfresh; cbn [snd].
    { by destruct (S3Service.delete_image url). }
    apply Forall_app. split; [done|]. apply Forall_singleton.
    cbn [gallery_image_url gallery_category]. split; [|done].
    unfold check_image, upload_image in Himg.
    destruct image; cbn [rbind] in Himg; try done.
    case_bool_decide as Hurl; [done|]. injection Himg as <-.
    by apply bool_decide_eq_true.
  - intros gallery_id title description category year display_order image
      remove_image.
    destruct (update_gallery gallery_id title description category year
                display_order image remove_image table) as [[row|e] table']
      eqn:Hu; cbn [snd].
    + apply update_gallery_row in Hu
        as (old & Hold & Hoid & Hrid & [->| ->] & Hcat & Himg); [done|].
      unfold commit. apply Forall_fmap. eapply Forall_impl; [exact Hinv|].
      intros r [Hr1 Hr2]. cbn. case_bool_decide; [|done].
      pose proof (proj1 (Forall_forall _ _) Hinv old Hold) as [Ho1 Ho2].
      split.
      * destruct Himg as [->|Himg]; done.
      * destruct Hcat as [->|Hcat]; done.
    + revert Hu. unfold update_gallery.
      destruct (find _ table) as [old|]; [|by intros [= <- <-]].
      destruct (update_title title old false) as [r1 u1].
      destruct (update_description description r1 u1) as [r2 u2].
      destruct (rbind _ _) as [[r6 u6]|e']; [by destruct u6|].
      by intros [= <- <-].
  - intros gallery_items. unfold reorder_gallery.
    destruct (decide (Forall (λ item, is_Some (item !! "id")
                                      ∧ is_Some (item !! "display_order"))
                        gallery_items)) as [Hall|Hall].
    + rewrite (reorder_loop_spec _ _ Hnd Hall). cbn [snd].
      apply Forall_fmap. eapply Forall_impl; [exact Hinv|]. by intros r.
    + by destruct (reorder_loop_fails _ table Hall) as [e ->].
  - intros gallery_id. unfold delete_gallery.
    destruct (find _ table) as [g|]; cbn [snd]; [|done].
    destruct (if truthy _ then _ else _) as [[]|e]; cbn [snd]; [|done].
    apply Forall_forall. intros x [_ Hx]%list_elem_of_filter.
    by apply (proj1 (Forall_forall _ _) Hinv).
Qed.

(** X22.  [create_gallery] either raises and leaves the table as it was,
    or appends one row and returns it: the row has the fresh key, the
    upper-cased category, which is of the enum, the URL of the stored image,
    which is not empty, and a display order that is not 0 (a request without
    one gets the number of rows of the category plus one); the row can be
    read back by its key. *)
Theorem create_gallery_effect (title : string) (description : option string)
    (category : string) (year : option string) (display_order : Z)
    (image : AdminNews.upload) (fresh_id : Z) (table table' : list Gallery)
    (r : result Gallery) :
  create_gallery title description category year display_order image fresh_id
    table = (r, table') →
  match r with
  | Raise e => table' = table
  | Ok row =>
      table' = table ++ [row]
      ∧ gallery_id row = fresh_id ∧ fresh_id ∉ gallery_id <$> table
      ∧ gallery_category row = upper category
      ∧ is_category (gallery_category row) = true
      ∧ (∃ url, image = AdminNews.Stored url ∧ url ≠ ""
                ∧ gallery_image_url row = Some url)
      ∧ gallery_display_order row ≠ 0%Z
      ∧ (display_order = 0%Z →
         gallery_display_order row
         = (Z.of_nat (length (filter (λ x, gallery_category x = upper category)
                                table)) + 1)%Z)
      ∧ read_gallery fresh_id table' = Ok row
  end.
Proof.
  unfold create_gallery.
  destruct (is_category (upper category)) eqn:Hcat; cbn [negb];
    [|by intros [= <- <-]].
  destruct (rbind _ _) as [url|e] eqn:Himg; [|by intros [= <- <-]].
  case_bool_decide as Hfresh.
  { by destruct (S3Service.delete_image url); intros [= <- <-]. }
  intros [= <- <-].
  cbn [gallery_id gallery_category gallery_image_url gallery_display_order].
  split_and!; try done.
  - unfold check_image, upload_image in Himg.
    destruct image; cbn [rbind] in Himg; try done.
    case_bool_decide as Hurl; [done|]. injection Himg as <-. eauto.
  - case_bool_decide; lia.
  - intros ->. by rewrite bool_decide_eq_true_2.
  - unfold read_gallery. rewrite find_app_last.
    assert (find (λ r, bool_decide (gallery_id r = fresh_id)) table = None) as ->.
    { apply find_None_iff. intros x Hx. apply bool_decide_eq_false. intros Heq.
      apply Hfresh. apply list_elem_of_fmap. eauto. }
    cbn [gallery_id]. by rewrite bool_decide_eq_true_2.
Qed.
End GalleryFacts.

(** ** [app/routers/admin_leadership.py]: the case of enum values *)

Section LeadershipFacts.
Import Py Text AdminLeadershipOps.
Context `{Builtins} `{Case} `{LeadershipModel} `{S3Service.Store}.

(** X24.  [create_leadership] upper-cases the campus before the enum sees
    it and [update_leadership] does not.  For a text that is not a value of
    [CampusType] but whose upper-case form is one, creation accepts it and
    stores the upper-case value, whereas every update that sends the same
    text fails and changes nothing: 400 "Invalid campus value" when the
    profile exists (404 when it does not), whatever the other fields are. *)
Theorem leadership_campus_case (campus : string) :
  is_campus campus = false → is_campus (upper campus) = true →
  (∀ name bio year_of_service category position_title school_name hall_name
     display_order fresh_id table,
     is_leadership_category (upper category) = true →
     fresh_id ∉ leadership_id <$> table →
     ∃ row,
       create_leadership name bio year_of_service campus category
         position_title school_name hall_name display_order AdminNews.NoFile
         fresh_id table = (Ok row, table ++ [row])
       ∧ leadership_campus row = upper campus)
  ∧ (∀ leadership_id name bio year_of_service category position_title
       school_name hall_name display_order profile_image remove_image table,
       update_leadership leadership_id name bio year_of_service (Some campus)
         category position_title school_name hall_name display_order
         profile_image remove_image table
       = (Raise
            match find (λ r, bool_decide
                               (AdminLeadershipOps.leadership_id r = leadership_id))
                    table with
            | Some _ => HTTPException 400 "Invalid campus value" []
            | None => HTTPException 404 "Leadership profile not found" []
            end, table)).
Proof.
  intros Hraw Hupper. split.
  - intros name bio year_of_service category position_title school_name
      hall_name display_order fresh_id table Hcat Hfresh.
    unfold create_leadership. rewrite Hupper, Hcat. cbn [negb].
    rewrite (bool_decide_eq_false_2 (fresh_id ∈ leadership_id <$> table))
      by done.
    eexists. split; reflexivity.
  - intros leadership_id name bio year_of_service category position_title
      school_name hall_name display_order profile_image remove_image table.
    unfold update_leadership.
    destruct (find _ table) as [row|]; [|done].
    destruct (update_text name leadership_name with_name row false) as [r1 u1].
    destruct (update_optional_text bio leadership_bio with_bio r1 u1) as [r2 u2].
    destruct (update_text year_of_service leadership_year_of_service
                with_year_of_service r2 u2) as [r3 u3].
    unfold update_campus. rewrite Hraw. done.
Qed.
End LeadershipFacts.

(** ** Which endpoint a request reaches *)

Section RoutingFacts.
Import Routing.

Lemma path_matches_reorder (path : list string) :
  path_matches [Lit "reorder"] path = true → path = ["reorder"].
Proof.
  destruct path as [|s [|s' path]]; cbn; try done.
  - rewrite andb_true_r. by intros ->%bool_decide_eq_true.
  - by rewrite andb_false_r.
Qed.

(** X23.  The reorder endpoints cannot be reached.  In the admin routers
    of the gallery and of the leadership module [PUT /reorder] is registered
    after [PUT /{id}]: a request for it is taken by the update endpoint, with
    the text "reorder" as the key, and no method and path are dispatched to
    [reorder_gallery] or to [reorder_leadership].  The literal routes that
    are registered before the parameter route, such as [GET /summary], are
    reached. *)
Theorem reorder_routes_shadowed :
  dispatch admin_gallery_routes PUT ["reorder"]
  = Some {| route_method := PUT; route_path := [Param "gallery_id"];
            endpoint := "update_gallery" |}
  ∧ dispatch admin_leadership_routes PUT ["reorder"]
    = Some {| route_method := PUT; route_path := [Param "leadership_id"];
              endpoint := "update_leadership" |}
  ∧ (∀ m path r, dispatch admin_gallery_routes m path = Some r →
                 endpoint r ≠ "reorder_gallery")
  ∧ (∀ m path r, dispatch admin_leadership_routes m path = Some r →
                 endpoint r ≠ "reorder_leadership")
  ∧ (endpoint <$> dispatch admin_gallery_routes GET ["summary"])
    = Some "get_gallery_summary".
Proof.
  split; [by vm_compute|]. split; [by vm_compute|]. split_and!.
  - intros m path r Hd Hend.
    pose proof Hd as [Hin Hm]%find_Some_elem.
    unfold admin_gallery_routes in Hin.
    repeat (apply elem_of_cons in Hin as [->|Hin]; [try done|]);
      [|by apply elem_of_nil in Hin].
    cbn [route_method route_path] in Hm.
    apply andb_true_iff in Hm as [<-%bool_decide_eq_true ->%path_matches_reorder].
    by vm_compute in Hd.
  - intros m path r Hd Hend.
    pose proof Hd as [Hin Hm]%find_Some_elem.
    unfold admin_leadership_routes in Hin.
    repeat (apply elem_of_cons in Hin as [->|Hin]; [try done|]);
      [|by apply elem_of_nil in Hin].
    cbn [route_method route_path] in Hm.
    apply andb_true_iff in Hm as [<-%bool_decide_eq_true ->%path_matches_reorder].
    by vm_compute in Hd.
  - by vm_compute.
Qed.
End RoutingFacts.

(** ** The further properties, run on the reference instances *)

Section MoreExamples.
Import Py Models Auth NewsSpec NewsReads Reference Samples.

Lemma identifier_lookup_round_trip_witness :
  outcome (AuthLookup.get_admin_by_identifier db "alice@jkusa.org") = Ok (Some alice)
  ∧ outcome (AuthLookup.get_user_by_identifier db "a@b.com") = Ok (Some alice_user).
Proof.
  destruct (identifier_lookup_round_trip db alice alice_user)
    as (_ & Ha & _ & Hu).
  - by repeat constructor.
  - by repeat constructor.
  - intros x Hx Hsame. unfold db in Hx. cbn [admins] in Hx.
    repeat (apply elem_of_cons in Hx as [->|Hx]; [by destruct Hsame as [?|[?|[?|?]]]|]).
    by apply elem_of_nil in Hx.
  - intros y Hy Hsame. unfold db in Hy. cbn [users] in Hy.
    repeat (apply elem_of_cons in Hy as [->|Hy]; [by destruct Hsame as [?|[?|[?|?]]]|]).
    by apply elem_of_nil in Hy.
  - split; [exact Ha|exact Hu].
Defined.

Lemma get_current_admin_returns_active_witness :
  outcome (get_current_admin settings (token_for "alice" "admin") db 5) = Ok alice
  ∧ alice ∈ admins db ∧ admin_is_active alice = true.
Proof.
  assert (Hout : outcome (get_current_admin settings (token_for "alice" "admin")
                            db 5) = Ok alice) by (vm_compute; reflexivity).
  split; [exact Hout|].
  destruct (get_current_admin_returns_active settings
              (token_for "alice" "admin") db 5 alice Hout) as (Hin & Hact & _).
  split; [exact Hin|exact Hact].
Defined.

Lemma sample_usernames_unique : NoDup (user_username <$> users db_users).
Proof. apply (bool_decide_unpack _). by vm_compute. Qed.

(** dave is switched off, and [get_current_user] returns him. *)
Lemma get_current_user_ignores_active_flag_witness :
  user_is_active dave_user = false
  ∧ get_current_user settings (token_for "dave" "user") db_users 5 =
    ([Query "users" (JStr "dave")],
     Ok {| id := 8; username := "dave"; email := "dave@jkusa.org";
           first_name := Some "Dave"; last_name := None;
           phone_number := None; is_active := false |}).
Proof.
  split; [reflexivity|].
  apply (get_current_user_ignores_active_flag settings (token_for "dave" "user")
           db_users 5 (claims_of "dave" "user") dave_user).
  - vm_compute. reflexivity.
  - vm_compute. reflexivity.
  - vm_compute. reflexivity.
  - by repeat constructor.
  - exact sample_usernames_unique.
Defined.

(** Issued at clock 0 for 60 minutes, refused one second past the hour. *)
Lemma issued_token_expires_witness :
  get_current_user settings (token_for "alice" "user") db 3601000000
  = ([], Raise (HTTPException 401 "Could not validate user credentials"
                  [("WWW-Authenticate", "Bearer")])).
Proof.
  destruct (issued_token_expires settings
              {[ "sub" := JStr "alice"; "type" := JStr "user" ]} 0 3601000000
              (token_for "alice" "user") db) as [Hu _].
  - vm_compute. reflexivity.
  - reflexivity.
  - reflexivity.
  - vm_compute. reflexivity.
  - exact Hu.
Defined.

(** A user token shown to the news router. *)
Lemma issued_token_of_other_type_refused_witness :
  outcome (AdminNews.get_current_admin router_settings
             (token_for "alice" "user") db 5)
  = Raise (HTTPException 401 "Could not validate admin credentials"
             [("WWW-Authenticate", "Bearer")]).
Proof.
  destruct (issued_token_of_other_type_refused settings router_settings
              "alice" "user" 0 5 (token_for "alice" "user") db
              AdminNews.get_current_admin) as [_ [Hr _]].
  - vm_compute. reflexivity.
  - reflexivity.
  - reflexivity.
  - discriminate.
  - by repeat constructor.
  - exact Hr.
Defined.

Lemma get_password_hash_shape_witness :
  ∃ h hb f,
    get_password_hash (Str (text "hunter2")) boot
    = (([], Ok h), (Bcrypt.urandom boot).2)
    ∧ length h = 60%nat
    ∧ utf8_encode h = Some hb
    ∧ Bcrypt.well_formed hb = true
    ∧ Bcrypt.parse_salt hb = Some f
    ∧ Bcrypt.minor f = "b"%byte ∧ Bcrypt.cost f = 12%N
    ∧ Bcrypt.salt22 f = Bcrypt.radix64 22 (Bcrypt.urandom boot).1.
Proof.
  apply (get_password_hash_shape (text "hunter2")
           (String.list_byte_of_string "hunter2") boot).
  reflexivity.
Defined.

(** A lone high surrogate after a letter. *)
Lemma surrogate_password_witness :
  get_password_hash (Str [104; 0xD800]%N) boot
  = (([Log ERROR ("Error hashing password: " +:+ exn_str UnicodeEncodeError)],
      Raise UnicodeEncodeError), boot)
  ∧ verify_password (Str [104; 0xD800]%N) (Str stored_hash)
    = ([Log ERROR ("Password verification error: "
                     +:+ exn_str UnicodeEncodeError)], Ok false).
Proof.
  apply (surrogate_password [104; 0xD800]%N 0xD800%N boot (Str stored_hash)).
  - by repeat constructor.
  - reflexivity.
Defined.

(** The stored hash of one password refuses another. *)
Lemma verify_password_compares_digests_witness :
  verify_password (Str (text "hunter3")) (Str stored_hash) = ([], Ok false).
Proof.
  etrans.
  - apply (verify_password_compares_digests (text "hunter2") (text "hunter3")
             (String.list_byte_of_string "hunter2")
             (String.list_byte_of_string "hunter3") boot stored_hash).
    + reflexivity.
    + reflexivity.
    + vm_compute. reflexivity.
  - vm_compute. reflexivity.
Defined.

(** bob's 403 as the client sees it. *)
Lemma admin_failure_response_witness :
  outcome (get_current_admin settings (token_for "bob" "admin") db 5)
  = Raise (HTTPException 403 "Admin account is inactive" [])
  ∧ MainHandlers.handle {| MainHandlers.origin := Some "https://jkusa.org" |}
      (MainHandlers.Known (HTTPException 403 "Admin account is inactive" []))
    = ([], Ok {| MainHandlers.status_code := 403;
                 MainHandlers.content_detail := "Admin account is inactive";
                 MainHandlers.headers :=
                   [("Access-Control-Allow-Origin", "https://jkusa.org");
                      ("Access-Control-Allow-Credentials", "true");
                      ("Access-Control-Allow-Methods",
                       "GET, POST, PUT, DELETE, OPTIONS");
                      ("Access-Control-Allow-Headers", "*")] |})
  ∧ ∀ trace response,
      MainHandlers.handle {| MainHandlers.origin := Some "https://jkusa.org" |}
        (MainHandlers.Known (HTTPException 403 "Admin account is inactive" []))
      = (trace, Ok response) →
      "WWW-Authenticate" ∉ (MainHandlers.headers response).*1.
Proof.
  assert (Hraise : outcome (get_current_admin settings (token_for "bob" "admin")
                              db 5)
                   = Raise (HTTPException 403 "Admin account is inactive" [])).
  { vm_compute. reflexivity. }
  split; [exact Hraise|].
  destruct (admin_failure_response
              {| MainHandlers.origin := Some "https://jkusa.org" |}
              settings (token_for "bob" "admin") db 5 _ Hraise)
    as [[[Heq _]|[[_ Hresp]|[Hdec _]]] Hno].
  - discriminate Heq.
  - split; [exact Hresp|exact Hno].
  - vm_compute in Hdec. discriminate Hdec.
Defined.

Lemma create_news_read_back_witness :
  ∃ row db',
    AdminNews.create_news 3 "Elections" "The polls open on Monday." (Some 0%Z)
      AdminNews.NoFile 3 db alice = Some (Ok row, db')
    ∧ read_news (news_id row) db' = Ok row
    ∧ read_public_news (news_id row) db' = Ok row
    ∧ read_news_by_slug (news_slug row) db' = Ok row
    ∧ ∀ other, other ≠ news_id row → read_news other db' = read_news other db.
Proof.
  eexists _, _. split; [vm_compute; reflexivity|].
  apply (create_news_read_back 3 "Elections" "The polls open on Monday."
           (Some 0%Z) AdminNews.NoFile 3 db _ alice).
  vm_compute. reflexivity.
Defined.

Lemma delete_news_effect_witness :
  ∃ db',
    delete_news 1 db alice = (Ok "News deleted", db')
    ∧ read_news 1 db' = Raise (HTTPException 404 "News not found" [])
    ∧ read_news 2 db' = read_news 2 db.
Proof.
  eexists. split; [vm_compute; reflexivity|].
  pose proof (delete_news_effect 1 db _ alice (Ok "News deleted") eq_refl)
    as (_ & Hgone & _ & Hother & _).
  split; [exact Hgone|]. apply Hother. discriminate.
Defined.


(** Amina is a student twice and a subscriber: she gets one message. *)
Lemma all_recipients_complete_and_distinct_witness :
  NoDup (recipient_email <$> all_recipients students subscribers)
  ∧ "amina@jkusa.org" ∈ recipient_email <$> all_recipients students subscribers.
Proof.
  destruct (all_recipients_complete_and_distinct students subscribers)
    as (_ & Hsub & _ & Hnd).
  split.
  - apply Hnd. apply (bool_decide_unpack _). vm_compute. exact I.
  - apply (Hsub {| subscriber_id := 1; subscriber_email := "amina@jkusa.org";
                   subscriber_is_active := true; subscribed_at := Some 10%Z;
                   unsubscribed_at := None |}).
    + by repeat constructor.
    + reflexivity.
Defined.

Lemma sample_subscriber_ids_unique : NoDup (subscriber_id <$> subscribers).
Proof. apply (bool_decide_unpack _). by vm_compute. Qed.

Lemma sample_subscriber_emails_unique : NoDup (subscriber_email <$> subscribers).
Proof. apply (bool_decide_unpack _). by vm_compute. Qed.

Lemma subscriber_table_invariant_witness :
  NoDup (subscriber_email
           <$> (AdminSubscriberOps.subscribe "Dora@JKUSA.org" 40 4 subscribers).2)
  ∧ NoDup (subscriber_id
             <$> (AdminSubscriberOps.delete_subscriber 2 subscribers).2).
Proof.
  destruct (subscriber_table_invariant subscribers sample_subscriber_ids_unique
              sample_subscriber_emails_unique) as (Hs & _ & _ & Hd).
  split.
  - exact (proj2 (Hs "Dora@JKUSA.org" 40%Z 4%Z)).
  - exact (proj1 (Hd 2%Z)).
Defined.

Lemma unsubscribe_then_subscribe_witness :
  AdminSubscriberOps.unsubscribe "chege@JKUSA.org" 60
    (AdminSubscriberOps.unsubscribe "Chege@jkusa.org" 50 subscribers).2
  = (Ok "Already unsubscribed",
     (AdminSubscriberOps.unsubscribe "Chege@jkusa.org" 50 subscribers).2).
Proof.
  destruct (unsubscribe_then_subscribe "Chege@jkusa.org" "chege@JKUSA.org"
              50 60 4 subscribers
              (AdminSubscriberOps.unsubscribe "Chege@jkusa.org" 50 subscribers).2
              "Successfully unsubscribed") as [Hagain _].
  - vm_compute. reflexivity.
  - vm_compute. reflexivity.
  - exact Hagain.
Defined.

Lemma subscribe_then_search_witness :
  AdminSubscriberOps.subscribe "Eve@Jkusa.org" 70 4 subscribers
  = (Ok eve, subscribers ++ [eve])
  ∧ AdminSubscriberOps.search_subscriber_by_email "EVE@jkusa.org"
      (subscribers ++ [eve]) = Ok eve
  ∧ AdminSubscriberOps.get_subscriber 4 (subscribers ++ [eve]) = Ok eve.
Proof.
  assert (Hs : AdminSubscriberOps.subscribe "Eve@Jkusa.org" 70 4 subscribers
               = (Ok eve, subscribers ++ [eve])) by (vm_compute; reflexivity).
  split; [exact Hs|].
  destruct (subscribe_then_search "Eve@Jkusa.org" "EVE@jkusa.org" 70 4
              subscribers (subscribers ++ [eve]) eve Hs)
    as (_ & _ & Hsearch & Hget).
  - vm_compute. reflexivity.
  - split; [exact Hsearch|exact Hget].
Defined.

Lemma sample_gallery_ids_unique :
  NoDup (AdminGalleryOps.gallery_id <$> gallery).
Proof. apply (bool_decide_unpack _). by vm_compute. Qed.

(** The third item lacks its order: the first two are not applied. *)
Lemma reorder_gallery_all_or_nothing_witness :
  AdminGalleryOps.reorder_gallery
    [ {[ "id" := 1%Z; "display_order" := 7%Z ]};
      {[ "id" := 9%Z; "display_order" := 1%Z ]};
      {[ "id" := 3%Z ]} ] gallery
  = (Raise (HTTPException 500 "Failed to reorder gallery items" []), gallery)
  ∧ (AdminGalleryOps.gallery_display_order
       <$> (AdminGalleryOps.reorder_gallery
              [ {[ "id" := 1%Z; "display_order" := 7%Z ]};
                {[ "id" := 9%Z; "display_order" := 1%Z ]};
                {[ "id" := 1%Z; "display_order" := 5%Z ]} ] gallery).2)
    = [5%Z; 1%Z; 2%Z].
Proof.
  split.
  - etrans; [apply (reorder_gallery_all_or_nothing _ gallery
                      sample_gallery_ids_unique)|].
    vm_compute. reflexivity.
  - vm_compute. reflexivity.
Defined.

Lemma sample_gallery_rows_whole :
  Forall (λ r, Text.truthy (AdminGalleryOps.gallery_image_url r) = true
               ∧ AdminGalleryOps.is_category (AdminGalleryOps.gallery_category r)
                 = true) gallery.
Proof. repeat constructor. Qed.

(** A request that asks for the image to be removed changes nothing. *)
Lemma gallery_rows_keep_image_and_category_witness :
  Forall (λ r, Text.truthy (AdminGalleryOps.gallery_image_url r) = true
               ∧ AdminGalleryOps.is_category (AdminGalleryOps.gallery_category r)
                 = true)
    (AdminGalleryOps.update_gallery 2 (Some "Culture night") None (Some "events")
       None None AdminNews.NoFile "true" gallery).2.
Proof.
  destruct (gallery_rows_keep_image_and_category gallery
              sample_gallery_ids_unique sample_gallery_rows_whole)
    as (_ & Hu & _).
  apply (Hu 2%Z (Some "Culture night") None (Some "events") None None
           AdminNews.NoFile "true").
Defined.

(** The third sports item, no order given: it gets order 3. *)
Lemma create_gallery_effect_witness :
  ∃ row table',
    AdminGalleryOps.create_gallery "Relay" None "sports" (Some "2025") 0
      (AdminNews.Stored "https://cdn.jkusa.org/gallery/4.jpg") 4 gallery
    = (Ok row, table')
    ∧ AdminGalleryOps.gallery_category row = "SPORTS"
    ∧ AdminGalleryOps.gallery_display_order row = 3%Z
    ∧ AdminGalleryOps.read_gallery 4 table' = Ok row.
Proof.
  eexists _, _. split; [vm_compute; reflexivity|].
  pose proof (create_gallery_effect "Relay" None "sports" (Some "2025") 0
                (AdminNews.Stored "https://cdn.jkusa.org/gallery/4.jpg") 4
                gallery _ (Ok _) eq_refl)
    as (_ & _ & _ & Hcat & _ & _ & _ & Hord & Hread).
  split; [exact Hcat|]. split; [exact (Hord eq_refl)|exact Hread].
Defined.
(** "main" creates a profile of the MAIN campus and cannot update one. *)
Lemma leadership_campus_case_witness :
  (∃ row,
     AdminLeadershipOps.create_leadership "Otieno" None "2024/2025" "main"
       "executive" "Secretary" None None 0 AdminNews.NoFile 2 [chair]
     = (Ok row, [chair] ++ [row])
     ∧ AdminLeadershipOps.leadership_campus row = "MAIN")
  ∧ AdminLeadershipOps.update_leadership 1 None None None (Some "main") None
      None None None None AdminNews.NoFile "false" [chair]
    = (Raise (HTTPException 400 "Invalid campus value" []), [chair]).
Proof.
  destruct (leadership_campus_case "main") as [Hcreate Hupdate].
  - reflexivity.
  - reflexivity.
  - split.
    + apply (Hcreate "Otieno" None "2024/2025" "executive" "Secretary" None None
               0%Z 2%Z [chair]).
      * reflexivity.
      * intros Hin. apply list_elem_of_singleton in Hin. discriminate Hin.
    + apply (Hupdate 1%Z None None None None None None None None
               AdminNews.NoFile "false" [chair]).
Defined.
End MoreExamples.
